(* ===== verification/_CoqProject ===== *)
-Q . S2P
Prelude.v
Text.v
History.v
World.v
Client.v
App.v
Accounts.v
Demo.v
Bootstrap.v
