(* ===== verification/Prelude.v ===== *)
(** * XianWai AI podcast: a verification development of the text-to-speech core

    ** The program

    The repository is a small Flask web application
    ([src/Software-engineering-final-project-XianWai-AI-podcast/app.py]).
    A logged-in user submits text.  The application forwards it to the Baidu
    text-to-speech cloud API through the wrapper class [BaiduTTS]
    ([src/TTS/AI_Text_to_Audio.py]), stores the MP3 it gets back under
    [uploads/], and keeps a per-user history of generated clips in the SQLite
    table [AudioHistory].  The parts and how they interact:
    - [BaiduTTS.text_to_speech] checks the GBK byte length of the text,
      merges the caller's voice options over the client's [default_options],
      calls the provider ([AipSpeech.synthesis]), classifies the answer (bytes
      mean success, a dict means an error) and writes the audio to the
      requested file.  [text_to_speech_with_retry] repeats it with exponential
      back-off while the failure message carries a transient marker.
    - The route [generate_audio] validates the request, names the file with a
      fresh uuid, calls [text_to_speech], then inserts an [AudioHistory] row.
    - The routes [download_audio], [history] (GET list, POST no-op, DELETE
      clear) and [delete_history_item] read and delete rows scoped by the
      session's user id, and remove files.

    ** Files (dependency order) and what they model
    - [Prelude.v] (this file): Python [str] as a list of code points, with
      the UTF-8 reading [u8] of message literals, substring search (Python
      [in]) and [str()] of integers and JSON values ([jval]).  It also holds
      the exceptions, the state-and-exception monad [pyM] ([py_bind],
      [py_try], [py_raise]; notation [x <- m ;; k] in [py_scope]), the hint
      databases [tts] and [tts_rw], generic list lemmas, and the
      post-conditions [py_post] of a computation with the tactic
      [post_auto] that follows a handler's structure.
    - [Text.v]: [str.strip()] ([py_strip], CPython's white-space set) and
      [len(text.encode('gbk'))] ([gbk_len]).  The codec is the class
      [GbkCodec] with its length laws; [gbk_fragment] is an instance for
      ASCII, CJK ideographs and full-width punctuation.
    - [History.v]: the models [User] and [AudioHistory] and the table as a
      list in rowid order.  SQLite assigns rowid max+1 ([next_rowid]).  It
      models the queries of the routes ([find_by_filename], [find_by_id],
      [rows_of], [list_recent] = order by [created_at] desc, limit 50) and
      the deletions, and refines the table to a map [abs_table] from rowid
      to row.
    - [World.v]: what both source files act on, as one record [world]: the
      upload directory, the provider, the database, commit outcomes, the
      sleep and stdout logs.  What the environment decides is an oracle of
      the record, indexed by a counter the effects advance: the n-th
      provider answer ([w_synth]), the n-th file operation ([w_io]) and the
      n-th commit ([w_commit_ok]).  Each theorem therefore holds for every
      behaviour of the environment that meets its hypotheses.  The effects
      [aip_synthesis], [write_file], [remove_file], [path_exists], [sleep],
      [print] and [db_commit] are defined here, with the combinators
      [db_pure] and [db_rel] that read off which database changes a handler
      can make.
    - [Client.v]: [BaiduTTS] with one definition per method
      ([text_to_speech], [set_default_option], [get_supported_voices],
      [text_to_speech_with_retry]).  The [for] loop is the structural
      recursion [retry_loop] on the attempts left.  The classes [TtsEngine]
      and [TtsEngineLaws] are the interface the routes use (what a call may
      change and what a success means); [BaiduTTS] is an instance.
    - [App.v]: the four JSON routes as handlers [pyW reply] that are generic
      in the engine.  [serve] dispatches one request through Flask (an
      escaping exception becomes a 500 page), and [app_step] is the step
      relation of the application, with [reachable] its reflexive-transitive
      closure.
    - [Accounts.v]: [index], [login], [register], [home], [logout] and
      [user_info].  The Flask session cookie is explicit state: a handler
      takes the session and returns the new one.  Password hashing is the
      class [PasswordHasher], and its random salt is an input.  The [User]
      table has SQLite rowids and the queries of the routes.
      [client_serve] dispatches every route of the application, the audio
      routes of [App.v] included, for one browser, and [client_step] is its
      step relation on (session, world).
    - [Demo.v]: the programs [main.py] and the [__main__] block of the
      client, as computations on the world that print their outcome.
    - [Bootstrap.v]: the configuration of [app.py] and the client it
      builds from the environment at import ([init_tts_client]);
      [boot_client_serve] serves a request on the application an
      environment starts.

    ** What is proved
    - Generation (App): success inserts exactly the request's row under the
      next rowid and leaves the file in place (C1).  Empty or over-long text
      is refused before any effect (C2).  Unencodable text escapes the
      [try] (C19).  A failed commit leaves an orphan file (C13).
    - Retry (Client): transient failures are retried with back-off 1, 2, 4,
      ... until success (C3).  A terminal error stops after one call (C4).
      When every attempt is transient, the client sleeps after the last
      attempt too (C12).  [max_retries <= 0] raises [UnboundLocalError]
      (C17).  For every answer sequence the client calls at most
      [max_retries] times and sleeps at most once per call, 2^n - 1
      seconds in all (C9).
      The request carries the merged options (C11).  A partial write leaves
      a truncated file (C18).
    - Repository and invariants (History, App): each request of user [u]
      leaves other users' rows unchanged (C5) and refines an abstract
      repository operation for [u] ([repo_op], C6).  Rowids stay positive
      and strictly increasing in every reachable state, by rule induction on
      [app_step] (C7).  A download of a name no row of the user has is
      refused with 403 (C8).
      Clearing keeps the files (C14).  A failed delete commit leaves a
      dangling row (C15).  Rowids are reused after deletion: the id after
      the last row is given twice (C16).  The history page holds the
      user's 50 newest rows, newest first: with the rows left out it is a
      permutation of the user's rows, none of them newer (C10).
    - Text checks: the client's length check is on GBK bytes, exactly
      [> 1024] (C20).  The generate route refuses as empty exactly the
      texts made of CPython's white space, listed as [cpython_whitespace]
      in [Text.v] (C21).
    - Accounts: across every route, user ids stay increasing, user names
      and e-mails stay unique, and the session always names an existing
      user (C22, rule induction on [client_step]); the stored user names
      and e-mails are stripped and not empty.  A valid registration
      stores the hashed user and logs it in (C23).  A taken user name is
      refused before any write (C27).  A login that changes the session
      found a user by user name or e-mail whose hash checks the password
      (C24).  In a well-formed table, a user whose user name is an earlier
      user's e-mail is answered 401 when logging in by user name, with
      any password the earlier row rejects (C25).  Without a session no audio route acts (C26).
      Registering and then logging in with the same credentials logs into
      the new user, unless an earlier e-mail shadows the name (C29).
    - Equivalence (Client): [set_default_option] followed by a call equals
      passing the option per call (C28).
    - Demos (Demo): [main.py] prints exactly one line, the success line when
      the audio is written (C30).  The client's demo prints the outcome of
      its first call by the same rule, nothing for the second, then the
      voices in the order of the dict literal (C31).
    - Reply shape (App, Accounts): every JSON reply of every route has a
      boolean [success] field, true exactly when the status is 200 (C32,
      a post-condition [py_post json_ok] of each handler).
    - Liveness and lockout (Accounts): from every state with the invariant,
      a user reaches its own session in one login with its password and an
      identifier no other user shares across the two columns (C33).  A
      user registered after a row whose e-mail is its user name and a row
      whose user name is its e-mail never gets a session again, whatever
      requests follow (C34, by an invariant of [client_step]); the
      concrete run [st_locked] reaches that state in three registrations.
    - Termination (Client): [text_to_speech_with_retry] returns a pair for
      every sequence of provider answers exactly when [max_retries > 0]
      and the text encodes in GBK (C35).
    - Start-up (Bootstrap): with one of the three [BAIDU_*] variables unset
      or empty, every generate request answers 500 with the configuration
      message (C36).
    - Round trips (App): after a generation whose call and commit succeed,
      the owner downloads the bytes the client wrote (C37), and the history
      page lists the new row first when its time is the user's latest
      (C38).  Both follow from the run lemma [generate_success_run] that
      C1 states.
    - The session's user (Accounts): under the invariant of C22,
      [/api/user_info] of a logged-in browser answers 200 with the user the
      session names; the route's 404 branch is dead (C39).

    ** Bounds and fuel
    No definition uses fuel.  [retry_loop] recurses structurally on
    [Z.to_nat max_retries], which is exactly the number of iterations of
    [range(max_retries)].  Machine integers do not occur: Python integers
    are unbounded and modelled as [Z].  The length limit 1024 and the page
    size 50 are the constants of the source.

    ** Not modelled
    [os.makedirs] of the upload folder and [db.create_all()]: the model's
    file system has no directories and its database has its tables from
    the start.  Flask's enforcement of [MAX_CONTENT_LENGTH]: requests are
    modelled by their decoded bodies.  The [Flask()] construction and
    [app.run()] of both apps (the demo app [src/app.py] is its route
    [root_index] and its key [root_secret_key]); the HTTP transport and the
    templates themselves.
    Werkzeug's hashing, the Baidu SDK, the GBK codec, SQLite and the file
    system are modelled by their observable behaviour, not their code.
    Queries without ORDER BY return the first match in rowid order, which
    is SQLite's plan for a scan; an index-driven plan could return another
    row.
    The body of [/api/generate-audio] is a JSON object: a body that is
    [null] or a list, on which [data.get] raises [AttributeError] (line
    240) and Flask answers 500, is outside [request].  The voice, speed,
    pitch and volume values are stored and read back as sent: SQLite's
    INTEGER affinity ([true] read back as [1], ["7"] as [7]) and 64-bit
    bind limits are not modelled, and whether a commit succeeds is an
    oracle of the world, independent of the row.  Sessions come only from
    the application's replies: cookies forged with the hard-coded
    [SECRET_KEY] (line 10) are outside the model.  The client's demo
    iterates [supported_voices], the dict literal of
    [get_supported_voices] in insertion order, which is the order of
    [voices.items()].
*)

From stdpp Require Export base gmap strings list pretty.
From Stdlib Require Export ZArith Lia Sorted.

Declare Scope py_scope.
Delimit Scope py_scope with py.
Open Scope Z_scope.

Create HintDb tts.
Create Rewrite HintDb tts_rw.

(** ** Python strings

    A Python [str] is a sequence of Unicode code points; it is modelled as a
    list of [Z].  Message literals of the source are written as Rocq string
    literals (UTF-8 bytes) and read into code points by [u8]. *)

Abbreviation pystr := (list Z).

Fixpoint bytes_of_string (s : string) : list Z :=
  match s with
  | EmptyString => []
  | String a s' => Z.of_N (Ascii.N_of_ascii a) :: bytes_of_string s'
  end.

(** UTF-8 decoding: [need] continuation bytes are still expected and [acc]
    holds the bits read so far. *)
Fixpoint utf8_go (need : nat) (acc : Z) (bs : list Z) : pystr :=
  match bs with
  | [] => []
  | b :: r =>
      match need with
      | O =>
          if b <? 128 then b :: utf8_go 0 0 r
          else if b <? 224 then utf8_go 1 (b - 192) r
          else if b <? 240 then utf8_go 2 (b - 224) r
          else utf8_go 3 (b - 240) r
      | S O => (acc * 64 + (b - 128)) :: utf8_go 0 0 r
      | S k => utf8_go k (acc * 64 + (b - 128)) r
      end
  end.

Definition u8 (s : string) : pystr := utf8_go 0 0 (bytes_of_string s).

(** [str(n)] for a Python [int]. *)
Definition py_int_str (n : Z) : pystr := u8 (pretty n).

(** ** Substring search: Python's [needle in hay] on [str] *)

Fixpoint prefixb (p s : pystr) : bool :=
  match p, s with
  | [], _ => true
  | x :: p', y :: s' => (x =? y) && prefixb p' s'
  | _ :: _, [] => false
  end.

Fixpoint str_contains (needle hay : pystr) : bool :=
  prefixb needle hay ||
  match hay with
  | [] => false
  | _ :: hay' => str_contains needle hay'
  end.

(** ** JSON values

    Values of a decoded JSON request body and of a provider error dict.
    Numbers are integers (the front end sends integers; floats are not
    modelled). *)
Inductive jval :=
| JNull
| JBool (b : bool)
| JInt (z : Z)
| JStr (s : pystr)
| JArr (l : list jval)
| JObj (kvs : list (pystr * jval)).

(** [repr] of a [str]: single quotes unless the text has a single quote and
    no double quote; backslash and the chosen quote are escaped. *)
Definition py_repr_str (s : pystr) : pystr :=
  let q := if existsb (Z.eqb 39) s && negb (existsb (Z.eqb 34) s) then 34 else 39 in
  [q] ++ flat_map (fun c => if (c =? 92) || (c =? q) then [92; c] else [c]) s ++ [q].

Fixpoint intercalate (sep : pystr) (l : list pystr) : pystr :=
  match l with
  | [] => []
  | [x] => x
  | x :: l' => x ++ sep ++ intercalate sep l'
  end.

(** [repr] of a JSON value, as Python prints the decoded object. *)
Fixpoint py_repr (v : jval) : pystr :=
  match v with
  | JNull => u8 "None"
  | JBool true => u8 "True"
  | JBool false => u8 "False"
  | JInt z => py_int_str z
  | JStr s => py_repr_str s
  | JArr l => u8 "[" ++ intercalate (u8 ", ") (map py_repr l) ++ u8 "]"
  | JObj kvs =>
      u8 "{" ++ intercalate (u8 ", ")
        (map (fun kv => py_repr_str kv.1 ++ u8 ": " ++ py_repr kv.2) kvs) ++ u8 "}"
  end.

(** [str(v)]: like [repr] except that a [str] is itself. *)
Definition py_str (v : jval) : pystr :=
  match v with
  | JStr s => s
  | _ => py_repr v
  end.

(** [type(v).__name__] *)
Definition py_type_name (v : jval) : pystr :=
  match v with
  | JNull => u8 "NoneType"
  | JBool _ => u8 "bool"
  | JInt _ => u8 "int"
  | JStr _ => u8 "str"
  | JArr _ => u8 "list"
  | JObj _ => u8 "dict"
  end.

(** [bool(v)]: [None], [False], [0] and empty containers are false. *)
Definition py_truthy (v : jval) : bool :=
  match v with
  | JNull => false
  | JBool b => b
  | JInt z => negb (z =? 0)
  | JStr s => negb (bool_decide (s = []))
  | JArr l => negb (bool_decide (l = []))
  | JObj kvs => negb (bool_decide (kvs = []))
  end.

(** [json.loads] keeps the last of duplicate keys: the value of key [k] in
    the decoded dict. *)
Fixpoint jobj_lookup (k : pystr) (kvs : list (pystr * jval)) : option jval :=
  match kvs with
  | [] => None
  | (k', v) :: r =>
      match jobj_lookup k r with
      | Some v' => Some v'
      | None => if bool_decide (k = k') then Some v else None
      end
  end.

(** The keys of the decoded dict. *)
Definition jobj_keys (kvs : list (pystr * jval)) : list pystr := remove_dups (map fst kvs).

(** [bool] and [int] compare as numbers ([True == 1]). *)
Definition jnum (v : jval) : option Z :=
  match v with
  | JBool b => Some (if b then 1 else 0)
  | JInt z => Some z
  | _ => None
  end.

(** Python's [==] on decoded JSON values: numbers by value, lists
    elementwise, dicts by their keys and the values of the keys. *)
Fixpoint py_eq (a b : jval) : bool :=
  match a, b with
  | JNull, JNull => true
  | JStr s, JStr t => bool_decide (s = t)
  | JArr xs, JArr ys =>
      (fix go (xs ys : list jval) : bool :=
         match xs, ys with
         | [], [] => true
         | x :: xs', y :: ys' => py_eq x y && go xs' ys'
         | _, _ => false
         end) xs ys
  | JObj xs, JObj ys =>
      (length (jobj_keys xs) =? length (jobj_keys ys))%nat &&
      (fix go (l : list (pystr * jval)) : bool :=
         match l with
         | [] => true
         | (k, v) :: l' =>
             (if bool_decide (k ∈ map fst l') then true
              else match jobj_lookup k ys with Some v' => py_eq v v' | None => false end)
             && go l'
         end) xs
  | _, _ =>
      match jnum a, jnum b with
      | Some x, Some y => x =? y
      | _, _ => false
      end
  end.


(** ** A state-and-exception monad for Python effects

    [pyM S A] runs from a state [S] to a result and a final state; a raised
    exception keeps the effects performed before it, as in Python. *)

Inductive exc_kind :=
| UnicodeEncodeError
| AttributeError
| OSError
| SDKError
| DBError
| UnboundLocalError
| TypeError.

Record exc := PyExc { exc_type : exc_kind; exc_msg : pystr }.

Inductive res (A : Type) :=
| Normal (a : A)
| Raised (e : exc).
Arguments Normal {A} a.
Arguments Raised {A} e.

Definition pyM (S A : Type) := S -> res A * S.

Definition py_ret {S A} (a : A) : pyM S A := fun s => (Normal a, s).

Definition py_bind {S A B} (m : pyM S A) (k : A -> pyM S B) : pyM S B :=
  fun s => match m s with
           | (Normal a, s') => k a s'
           | (Raised e, s') => (Raised e, s')
           end.

Definition py_raise {S A} (e : exc) : pyM S A := fun s => (Raised e, s).

(** [try: m except Exception as e: h e] *)
Definition py_try {S A} (m : pyM S A) (h : exc -> pyM S A) : pyM S A :=
  fun s => match m s with
           | (Raised e, s') => h e s'
           | r => r
           end.

Notation "x <- m ;; k" := (py_bind m (fun x => k))
  (at level 100, m at next level, right associativity) : py_scope.
Notation "m ;; k" := (py_bind m (fun _ => k))
  (at level 100, right associativity) : py_scope.

Open Scope py_scope.

(** [len(v)], raising [TypeError] for a value without a length. *)
Definition py_len {S} (v : jval) : pyM S nat :=
  match v with
  | JStr s => py_ret (length s)
  | JArr l => py_ret (length l)
  | JObj kvs => py_ret (length (jobj_keys kvs))
  | _ => py_raise (PyExc TypeError (u8 "object of type '" ++ py_type_name v ++ u8 "' has no len()"))
  end.

Lemma py_bind_normal {S A B} (m : pyM S A) (k : A -> pyM S B) s a s' :
  m s = (Normal a, s') -> py_bind m k s = k a s'.
Proof. intros H. unfold py_bind. by rewrite H. Qed.

Lemma py_bind_raised {S A B} (m : pyM S A) (k : A -> pyM S B) s e s' :
  m s = (Raised e, s') -> py_bind m k s = (Raised e, s').
Proof. intros H. unfold py_bind. by rewrite H. Qed.

Lemma py_try_normal {S A} (m : pyM S A) h s a s' :
  m s = (Normal a, s') -> py_try m h s = (Normal a, s').
Proof. intros H. unfold py_try. by rewrite H. Qed.

Lemma py_try_raised {S A} (m : pyM S A) h s e s' :
  m s = (Raised e, s') -> py_try m h s = h e s'.
Proof. intros H. unfold py_try. by rewrite H. Qed.

(** ** Post-conditions

    [py_post P m]: whatever the state, a value [m] returns satisfies [P]
    (an exception satisfies it vacuously).  The combinators of the monad
    preserve it, so a handler's post-condition follows its structure. *)
Definition py_post {S A} (P : A -> Prop) (m : pyM S A) : Prop :=
  forall s, match fst (m s) with Normal a => P a | Raised _ => True end.

Lemma py_post_ret {S A} (P : A -> Prop) (a : A) : P a -> @py_post S A P (py_ret a).
Proof. by intros Ha s. Qed.

Lemma py_post_raise {S A} (P : A -> Prop) e : @py_post S A P (py_raise e).
Proof. done. Qed.

Lemma py_post_bind {S A B} (P : B -> Prop) (m : pyM S A) (k : A -> pyM S B) :
  (forall a, py_post P (k a)) -> py_post P (py_bind m k).
Proof. intros Hk s. unfold py_bind. destruct (m s) as [[a|e] s']; [apply Hk | done]. Qed.

(** Sequencing, carrying what the first computation ensures. *)
Lemma py_post_seq {S A B} (Q : A -> Prop) (P : B -> Prop) (m : pyM S A) (k : A -> pyM S B) :
  py_post Q m -> (forall a, Q a -> py_post P (k a)) -> py_post P (py_bind m k).
Proof.
  intros Hm Hk s. specialize (Hm s). unfold py_bind.
  destruct (m s) as [[a|e] s']; [by apply Hk | done].
Qed.

Lemma py_post_try {S A} (P : A -> Prop) (m : pyM S A) h :
  py_post P m -> (forall e, py_post P (h e)) -> py_post P (py_try m h).
Proof.
  intros Hm Hh s. unfold py_try. specialize (Hm s).
  destruct (m s) as [[a|e] s']; [done | apply Hh].
Qed.

Create HintDb py_post.
#[export] Hint Resolve py_post_ret py_post_raise : py_post.

(** Follow a handler's structure down to the values it returns. *)
Ltac post_auto :=
  repeat first [ apply py_post_bind; intros | apply py_post_try; intros
               | apply py_post_ret | apply py_post_raise | case_match ].

Lemma jobj_lookup_app k (l1 l2 : list (pystr * jval)) :
  jobj_lookup k (l1 ++ l2) = match jobj_lookup k l2 with Some v => Some v | None => jobj_lookup k l1 end.
Proof.
  induction l1 as [|[k' v] l1 IH]; cbn [app jobj_lookup]; [by destruct (jobj_lookup k l2)|].
  rewrite IH. by destruct (jobj_lookup k l2).
Qed.

(** A decidable equality for bytes, used by the file-system map. *)
#[export] Instance byte_eq_dec : EqDecision Byte.byte := Byte.byte_eq_dec.

(** ** Generic lemmas on substring search *)

Lemma prefixb_app (p t : pystr) : prefixb p (p ++ t) = true.
Proof. induction p; simpl; [done|]. by rewrite Z.eqb_refl. Qed.

Lemma prefixb_spec (p s : pystr) : prefixb p s = true <-> exists t, s = p ++ t.
Proof.
  revert s. induction p as [|x p IH]; intros [|y s]; simpl.
  - split; [by exists [] | done].
  - split; [by exists (y :: s) | done].
  - split; [done | by intros [t ?]].
  - rewrite andb_true_iff, Z.eqb_eq, IH. split.
    + intros [-> [t ->]]. by exists t.
    + intros [t Ht]. simplify_eq. eauto.
Qed.

Lemma str_contains_spec (n h : pystr) :
  str_contains n h = true <-> exists a b, h = a ++ n ++ b.
Proof.
  induction h as [|y h IH]; simpl; rewrite orb_true_iff, prefixb_spec.
  - split.
    + intros [[t Ht] | ?]; [|done]. by exists [], t.
    + intros [[|] [b Hb]]; [left; by exists b | done].
  - rewrite IH. split.
    + intros [[t Ht] | [a [b ->]]]; [by exists [], t | by exists (y :: a), b].
    + intros [[|z a] [b Hb]]; simpl in Hb; [left; by exists b|].
      simplify_eq. right. eauto.
Qed.

Lemma str_contains_mid (n a b : pystr) : str_contains n (a ++ n ++ b) = true.
Proof. apply str_contains_spec. eauto. Qed.

#[export] Hint Resolve prefixb_app str_contains_mid : tts.

(** ** Generic lemmas on boolean filters *)

Lemma Forall_filterb {A} (P : A -> Prop) (f : A -> bool) (l : list A) :
  Forall P l -> Forall P (List.filter f l).
Proof.
  induction 1; simpl; [constructor|].
  destruct (f x); [by constructor | done].
Qed.

Lemma StronglySorted_filterb {A} (R : A -> A -> Prop) (f : A -> bool) (l : list A) :
  StronglySorted R l -> StronglySorted R (List.filter f l).
Proof.
  induction 1 as [|x l _ IH Hx]; simpl; [constructor|].
  destruct (f x); [|done]. constructor; [done|]. by apply Forall_filterb.
Qed.

Lemma elem_of_filterb {A} (f : A -> bool) (l : list A) x :
  x ∈ List.filter f l <-> x ∈ l /\ f x = true.
Proof. rewrite !list_elem_of_In. apply filter_In. Qed.

Lemma StronglySorted_snoc {A} (R : A -> A -> Prop) (l : list A) x :
  StronglySorted R l -> Forall (fun y => R y x) l -> StronglySorted R (l ++ [x]).
Proof.
  induction 1 as [|y l _ IH Hy]; simpl; intros Hx.
  - repeat constructor.
  - apply Forall_cons in Hx as [Hyx Hx]. constructor; [by apply IH|].
    apply Forall_app. split; [done | by constructor].
Qed.

(** Two elements of a list with the same image under a map without
    duplicates are equal. *)
Lemma NoDup_map_inj {A B} (f : A -> B) (l : list A) x y :
  NoDup (map f l) -> x ∈ l -> y ∈ l -> f x = f y -> x = y.
Proof.
  induction l as [|z l IH]; cbn [map]; intros Hnd Hx Hy Hf; [set_solver|].
  apply NoDup_cons in Hnd as [Hz Hnd]. apply elem_of_cons in Hx, Hy.
  destruct Hx as [->|Hx], Hy as [->|Hy]; [done | | | by apply IH].
  - exfalso. apply Hz. rewrite Hf. apply list_elem_of_In, in_map, list_elem_of_In, Hy.
  - exfalso. apply Hz. rewrite <- Hf. apply list_elem_of_In, in_map, list_elem_of_In, Hx.
Qed.

(** Two elements of a list strictly sorted by a key with the same key
    are equal. *)
Lemma StronglySorted_key_inj {A} (f : A -> Z) (l : list A) x y :
  StronglySorted (fun a b => f a < f b) l -> x ∈ l -> y ∈ l -> f x = f y -> x = y.
Proof.
  induction 1 as [|z l _ IH Hz]; intros Hx Hy Hf; [set_solver|].
  rewrite Forall_forall in Hz. apply elem_of_cons in Hx, Hy.
  destruct Hx as [->|Hx], Hy as [->|Hy]; [done | | | by apply IH].
  - specialize (Hz y Hy). lia.
  - specialize (Hz x Hx). lia.
Qed.

(** In a strictly sorted concatenation, every element of the first part
    is related to every element of the second. *)
Lemma StronglySorted_app_Forall {A} (R : A -> A -> Prop) (l1 l2 : list A) :
  StronglySorted R (l1 ++ l2) -> Forall (fun x => Forall (R x) l2) l1.
Proof.
  induction l1 as [|x l1 IH]; cbn [app]; intros Hs; [constructor|].
  apply StronglySorted_inv in Hs as [Hs Hx]. constructor; [|by apply IH].
  by apply Forall_app in Hx as [_ ?].
Qed.

(** Under a map without duplicates, elements of the two parts of a list
    have different images. *)
Lemma NoDup_map_app_disj {A B} (f : A -> B) (l1 l2 : list A) x y :
  NoDup (map f (l1 ++ l2)) -> x ∈ l1 -> y ∈ l2 -> f x <> f y.
Proof.
  rewrite map_app, NoDup_app. intros (_ & Hd & _) Hx Hy E.
  apply (Hd (f x)); [apply list_elem_of_In, in_map, list_elem_of_In, Hx|].
  rewrite E. apply list_elem_of_In, in_map, list_elem_of_In, Hy.
Qed.

(** ** Generic lemmas on [List.find] *)

Lemma find_app {A} (f : A -> bool) (l1 l2 : list A) :
  List.find f (l1 ++ l2) =
  match List.find f l1 with Some x => Some x | None => List.find f l2 end.
Proof. induction l1 as [|x l1 IH]; simpl; [done|]. by destruct (f x). Qed.

Lemma find_ext {A} (f g : A -> bool) (l : list A) :
  (forall x, f x = g x) -> List.find f l = List.find g l.
Proof. intros Hfg. induction l as [|x l IH]; simpl; [done|]. by rewrite Hfg, IH. Qed.

Lemma find_Forall_false {A} (f : A -> bool) (l : list A) :
  Forall (fun x => f x = false) l -> List.find f l = None.
Proof. induction 1 as [|x l Hx _ IH]; simpl; [done|]. by rewrite Hx. Qed.

Lemma find_key_None {A B} `{EqDecision B} (g : A -> B) (b : B) (l : list A) :
  List.find (fun x => bool_decide (g x = b)) l = None -> b ∉ map g l.
Proof.
  intros Hn. intros (x & -> & Hx)%list_elem_of_fmap. apply list_elem_of_In in Hx.
  pose proof (find_none _ _ Hn x Hx) as Hf. by rewrite bool_decide_eq_false in Hf.
Qed.

Lemma find_filterb {A} (f g : A -> bool) (l : list A) :
  List.find f (List.filter g l) = List.find (fun x => g x && f x) l.
Proof.
  induction l as [|x l IH]; simpl; [done|].
  destruct (g x); simpl; [|done]. by destruct (f x).
Qed.

Lemma Sorted_take {A} (R : A -> A -> Prop) (l : list A) n :
  Sorted R l -> Sorted R (take n l).
Proof.
  intros Hs. revert n. induction Hs as [|x l Hl IH Hx]; intros [|k]; simpl; try constructor.
  - by apply IH.
  - destruct Hx; destruct k; simpl; by constructor.
Qed.

(** Unfold the monad's combinators, e.g. after rewriting an oracle's answer. *)
Ltac py_unfold := unfold py_bind, py_ret, py_raise, py_try in *.
