(* ===== verification/Text.v ===== *)
(** * Text: [str.strip()] and the GBK byte length

    The request handler [generate_audio] strips the submitted text and
    measures [len(text.encode('gbk'))]; [BaiduTTS.text_to_speech] measures
    the same length.  This file models Python's [str.strip()] with no
    argument (CPython strips the code points of [Py_UNICODE_ISSPACE]) and the
    GBK encoder.  The encoder is a library of the interpreter, not code of
    the repository: it is a class [GbkCodec] whose laws are those of
    CPython's [_codecs_cn] encoder (ASCII is one byte, every other encodable
    character at most two bytes, nothing above U+FFFF is encodable), and the
    theorems hold for every codec that satisfies them.  [gbk_fragment] is an
    instance covering ASCII, the CJK unified ideographs and the full-width
    punctuation, used by the concrete runs. *)

From S2P Require Import Prelude.

(** ** [str.strip()] *)

(** [Py_UNICODE_ISSPACE]: the code points with the Unicode White_Space
    property or bidirectional type WS, B or S. *)
Definition py_isspace (c : Z) : bool :=
  ((9 <=? c) && (c <=? 13)) || ((28 <=? c) && (c <=? 32)) ||
  (c =? 133) || (c =? 160) || (c =? 5760) ||
  ((8192 <=? c) && (c <=? 8202)) ||
  (c =? 8232) || (c =? 8233) || (c =? 8239) || (c =? 8287) || (c =? 12288).

(** Drop the leading white space. *)
Fixpoint lstrip (s : pystr) : pystr :=
  match s with
  | [] => []
  | c :: s' => if py_isspace c then lstrip s' else s
  end.

(** [s.strip()]: CPython scans from the left and from the right and slices. *)
Definition py_strip (s : pystr) : pystr := rev (lstrip (rev (lstrip s))).

(** ** The GBK codec *)

Class GbkCodec := {
  gbk_char_len : Z -> option nat;
  gbk_ascii : forall c, 0 <= c < 128 -> gbk_char_len c = Some 1%nat;
  gbk_width : forall c n, gbk_char_len c = Some n -> (1 <= n <= 2)%nat;
  gbk_bmp : forall c, 65535 < c -> gbk_char_len c = None
}.

(** Python's [len(s.encode('gbk'))], [None] where the encoder raises. *)
Fixpoint gbk_len `{GbkCodec} (s : pystr) : option nat :=
  match s with
  | [] => Some 0%nat
  | c :: s' =>
      match gbk_char_len c, gbk_len s' with
      | Some n, Some m => Some (n + m)%nat
      | _, _ => None
      end
  end.

(** The position of the first code point the encoder refuses. *)
Fixpoint gbk_bad_pos `{GbkCodec} (s : pystr) : option (nat * Z) :=
  match s with
  | [] => None
  | c :: s' =>
      match gbk_char_len c with
      | None => Some (0%nat, c)
      | Some _ => option_map (fun '(i, d) => (S i, d)) (gbk_bad_pos s')
      end
  end.

Definition hex_digit (d : Z) : Z := if d <? 10 then 48 + d else 87 + d.

(** [width] lower-case hexadecimal digits of [n]. *)
Fixpoint hex_pad (width : nat) (n : Z) : pystr :=
  match width with
  | O => []
  | S w => hex_pad w (n / 16) ++ [hex_digit (n mod 16)]
  end.

(** The [repr] escape of a code point in an encoding error message. *)
Definition py_char_escape (c : Z) : pystr :=
  if c <=? 255 then u8 "\x" ++ hex_pad 2 c
  else if c <=? 65535 then u8 "\u" ++ hex_pad 4 c
  else u8 "\U" ++ hex_pad 8 c.

(** The message of the [UnicodeEncodeError] raised by [s.encode('gbk')]. *)
Definition gbk_error_msg (i : nat) (c : Z) : pystr :=
  u8 "'gbk' codec can't encode character '" ++ py_char_escape c ++
  u8 "' in position " ++ py_int_str (Z.of_nat i) ++ u8 ": illegal multibyte sequence".

(** A fragment of the GBK table: ASCII, the ideographic comma and full stop,
    the CJK unified ideographs U+4E00..U+9FA5 and the full-width forms
    U+FF01..U+FF5E.  Code points outside it are refused by this instance,
    which is exact above U+FFFF. *)
Definition gbk_fragment_len (c : Z) : option nat :=
  if (0 <=? c) && (c <? 128) then Some 1%nat
  else if (c =? 12289) || (c =? 12290) ||
          ((19968 <=? c) && (c <=? 40869)) ||
          ((65281 <=? c) && (c <=? 65374)) then Some 2%nat
  else None.

#[export] Program Instance gbk_fragment : GbkCodec := {
  gbk_char_len := gbk_fragment_len
}.
Next Obligation.
  intros c Hc. unfold gbk_fragment_len.
  destruct ((0 <=? c) && (c <? 128)) eqn:E; [done|].
  apply andb_false_iff in E as [E|E]; apply Z.leb_gt in E || apply Z.ltb_ge in E; lia.
Qed.
Next Obligation.
  intros c n. unfold gbk_fragment_len.
  repeat case_match; intros; simplify_eq; lia.
Qed.
Next Obligation.
  intros c Hc. unfold gbk_fragment_len.
  repeat match goal with
         | |- context [?a <=? ?b] => destruct (Z.leb_spec a b)
         | |- context [?a <? ?b] => destruct (Z.ltb_spec a b)
         | |- context [?a =? ?b] => destruct (Z.eqb_spec a b)
         end; simpl; try done; lia.
Qed.

(** ** Facts about [str.strip()] *)

Definition all_space (s : pystr) : Prop := Forall (fun c => py_isspace c = true) s.

(** The white space of CPython's [str.isspace] and [str.strip()], as the
    documentation of [Py_UNICODE_ISSPACE] lists it: tab to carriage
    return, the separators U+1C-U+1F, space, NEL, no-break space, the
    Ogham space mark, U+2000-U+200A, the line and paragraph separators,
    the narrow and medium mathematical spaces and the ideographic space. *)
Notation cpython_whitespace :=
  [9; 10; 11; 12; 13; 28; 29; 30; 31; 32; 133; 160; 5760; 8192; 8193; 8194; 8195; 8196;
   8197; 8198; 8199; 8200; 8201; 8202; 8232; 8233; 8239; 8287; 12288].

Lemma py_isspace_spec c : py_isspace c = true <-> In c cpython_whitespace.
Proof.
  unfold py_isspace. rewrite !orb_true_iff, !andb_true_iff, !Z.leb_le, !Z.eqb_eq. cbn [In].
  split; intros; lia.
Qed.

Lemma all_space_spec s : all_space s <-> Forall (fun c => In c cpython_whitespace) s.
Proof.
  unfold all_space. split; intros H; (eapply Forall_impl; [exact H|]); intros c; apply py_isspace_spec.
Qed.

Lemma lstrip_split (s : pystr) : exists p, s = p ++ lstrip s /\ all_space p.
Proof.
  induction s as [|c s [p [Hs Hp]]]; simpl.
  { exists []. split; [done | constructor]. }
  destruct (py_isspace c) eqn:E.
  - exists (c :: p). split; [simpl; by rewrite <- Hs | by constructor].
  - exists []. split; [done | constructor].
Qed.

Lemma lstrip_head (s : pystr) c r : lstrip s = c :: r -> py_isspace c = false.
Proof.
  induction s as [|d s IH]; simpl; [done|].
  destruct (py_isspace d) eqn:E; [done|]. by intros [= -> ->].
Qed.

Lemma lstrip_all_space (s : pystr) : lstrip s = [] <-> all_space s.
Proof.
  unfold all_space. induction s as [|c s IH]; simpl; [split; by constructor|].
  destruct (py_isspace c) eqn:E.
  - rewrite IH. split; [by constructor | by inversion 1].
  - split; [done | inversion 1; congruence].
Qed.

Lemma lstrip_idem (s : pystr) : lstrip (lstrip s) = lstrip s.
Proof.
  induction s as [|c s IH]; simpl; [done|].
  destruct (py_isspace c) eqn:E; [done|]. simpl. by rewrite E.
Qed.

Lemma lstrip_no_head_space (s : pystr) :
  match s with [] => True | c :: _ => py_isspace c = false end -> lstrip s = s.
Proof. destruct s as [|c s]; simpl; [done|]. by intros ->. Qed.

Lemma all_space_app (p q : pystr) : all_space (p ++ q) <-> all_space p /\ all_space q.
Proof. apply Forall_app. Qed.

Lemma all_space_rev (p : pystr) : all_space (rev p) <-> all_space p.
Proof.
  unfold all_space. split; [|apply Forall_rev].
  intros H. rewrite <- (rev_involutive p). by apply Forall_rev.
Qed.

#[export] Hint Resolve lstrip_idem : tts.

(** Python's [not s.strip()] holds exactly for the all-white-space texts. *)
Lemma py_strip_nil_iff (s : pystr) : py_strip s = [] <-> all_space s.
Proof.
  unfold py_strip. rewrite <- (rev_involutive []) at 1.
  split.
  - intros Hr. apply rev_inj in Hr. apply lstrip_all_space in Hr.
    destruct (lstrip_split s) as [p [Hs Hp]]. rewrite Hs.
    apply all_space_app. split; [done|]. by apply all_space_rev.
  - intros Hs. apply lstrip_all_space in Hs. by rewrite Hs.
Qed.

(** [s.strip()] removes a white-space prefix and a white-space suffix and
    leaves a text that is empty or starts and ends with a non-space. *)
Lemma py_strip_split (s : pystr) :
  exists p q, s = p ++ py_strip s ++ q /\ all_space p /\ all_space q.
Proof.
  destruct (lstrip_split s) as [p [Hs Hp]].
  destruct (lstrip_split (rev (lstrip s))) as [q [Hq Hq']].
  exists p, (rev q). split; [|split; [exact Hp | by apply all_space_rev]].
  unfold py_strip. rewrite Hs at 1. f_equal.
  set (t := rev (lstrip s)) in *.
  assert (Ht : lstrip s = rev t) by (unfold t; by rewrite rev_involutive).
  rewrite Ht, Hq at 1. by rewrite rev_app_distr.
Qed.

(** The stripped text starts and ends with a non-space (or is empty):
    stripping it again on either side changes nothing. *)
Lemma py_strip_ends (s : pystr) :
  lstrip (py_strip s) = py_strip s /\
  lstrip (rev (py_strip s)) = rev (py_strip s).
Proof.
  unfold py_strip. rewrite rev_involutive. split; [|apply lstrip_idem].
  destruct (lstrip_split (rev (lstrip s))) as [p [Hp _]].
  apply lstrip_no_head_space.
  destruct (rev (lstrip (rev (lstrip s)))) as [|c r] eqn:E; [done|].
  apply (f_equal (@rev Z)) in Hp. rewrite rev_involutive, rev_app_distr, E in Hp.
  simpl in Hp. by eapply lstrip_head.
Qed.

Lemma py_strip_idem (s : pystr) : py_strip (py_strip s) = py_strip s.
Proof.
  destruct (py_strip_ends s) as [H1 H2].
  unfold py_strip at 1. rewrite H1, H2. apply rev_involutive.
Qed.

(** ** Facts about the GBK length *)

Section GbkFacts.
Context `{G : GbkCodec}.

Lemma gbk_len_cons_Some c s n :
    gbk_len (c :: s) = Some n <->
    exists k m, gbk_char_len c = Some k /\ gbk_len s = Some m /\ n = (k + m)%nat.
  Proof.
    simpl. split.
    - destruct (gbk_char_len c), (gbk_len s); intros; simplify_eq; eauto.
    - by intros (k & m & -> & -> & ->).
  Qed.

(** Every text the GBK encoder accepts takes between one and two bytes per
    code point. *)
Lemma gbk_len_width (s : pystr) n :
    gbk_len s = Some n -> (length s <= n <= 2 * length s)%nat.
  Proof.
    revert n. induction s as [|c s IH]; intros n Hn; simpl in *; [simplify_eq; lia|].
    apply gbk_len_cons_Some in Hn as (k & m & Hk & Hm & ->).
    apply gbk_width in Hk. apply IH in Hm. lia.
  Qed.

(** The encoder fails exactly when it reaches a code point it refuses, and
    the error names the first such code point. *)
Lemma gbk_bad_pos_spec (s : pystr) :
    (gbk_len s = None -> exists i c, gbk_bad_pos s = Some (i, c) /\
                                     s !! i = Some c /\ gbk_char_len c = None) /\
    (is_Some (gbk_len s) -> gbk_bad_pos s = None).
  Proof.
    induction s as [|c s [IH1 IH2]]; simpl; [split; [done | done]|].
    destruct (gbk_char_len c) as [k|] eqn:Ec; [|split; [by exists 0%nat, c | by intros []]].
    destruct (gbk_len s) as [m|]; split.
    - done.
    - intros _. by rewrite IH2.
    - intros _. destruct IH1 as (i & d & -> & Hi & Hd); [done|].
      by exists (S i), d.
    - by intros [].
  Qed.

Lemma gbk_len_ascii (s : pystr) :
    Forall (fun c => 0 <= c < 128) s -> gbk_len s = Some (length s).
  Proof.
    induction 1 as [|c s Hc _ IH]; simpl; [done|].
    by rewrite gbk_ascii, IH.
  Qed.

End GbkFacts.
