(* ===== verification/History.v ===== *)
(** * History: the [AudioHistory] and [User] tables

    [app.py] declares two SQLAlchemy models on SQLite, [User] (lines 36-47)
    and [AudioHistory] (lines 51-78).  A table is modelled as the list of
    its rows in rowid order, which is the order in which SQLite scans it;
    [AudioHistory.id] is an [INTEGER PRIMARY KEY], i.e. the rowid, which
    SQLite assigns on insert as one more than the largest rowid present (1
    in an empty table).  The queries of the routes are functions on that
    list: [filter_by(...).first()] takes the first row in scan order,
    [order_by(created_at.desc()).limit(50)] sorts by timestamp and keeps 50.

    The abstract repository is a finite map from record id to record;
    [abs_table] maps a table to it, and the operations of the table are
    shown to refine the map operations. *)

From S2P Require Import Prelude.

(** ** Timestamps: [datetime.utcnow()] *)

Record datetime := DateTime {
  dt_year : Z; dt_month : Z; dt_day : Z;
  dt_hour : Z; dt_minute : Z; dt_second : Z; dt_micro : Z
}.

(** Python compares [datetime] values field by field. *)
Definition dt_fields (d : datetime) : list Z :=
  [dt_year d; dt_month d; dt_day d; dt_hour d; dt_minute d; dt_second d; dt_micro d].

Fixpoint lex_ltb (a b : list Z) : bool :=
  match a, b with
  | x :: a', y :: b' => (x <? y) || ((x =? y) && lex_ltb a' b')
  | _, _ => false
  end.

Definition dt_ltb (a b : datetime) : bool := lex_ltb (dt_fields a) (dt_fields b).

(** Two-digit and four-digit zero padding of [strftime]. *)
Definition pad_num (width : nat) (n : Z) : pystr :=
  let s := py_int_str n in
  replicate (width - length s) 48 ++ s.

(** [created_at.strftime('%Y-%m-%d %H:%M:%S')] *)
Definition dt_format (d : datetime) : pystr :=
  pad_num 4 (dt_year d) ++ u8 "-" ++ pad_num 2 (dt_month d) ++ u8 "-" ++
  pad_num 2 (dt_day d) ++ u8 " " ++ pad_num 2 (dt_hour d) ++ u8 ":" ++
  pad_num 2 (dt_minute d) ++ u8 ":" ++ pad_num 2 (dt_second d).

(** ** Rows *)

(** [class User(db.Model)] *)
Record User := MkUser {
  u_id : Z;
  u_username : pystr;
  u_email : pystr;
  u_password_hash : pystr;
  u_created_at : datetime
}.

(** [class AudioHistory(db.Model)]; the voice parameters are stored as the
    request sent them. *)
Record AudioHistory := MkAudioHistory {
  ah_id : Z;
  ah_user_id : Z;
  ah_text : pystr;
  ah_filename : pystr;
  ah_voice_id : jval;
  ah_voice_name : pystr;
  ah_speed : jval;
  ah_pitch : jval;
  ah_volume : jval;
  ah_created_at : datetime
}.

Definition set_ah_id (i : Z) (r : AudioHistory) : AudioHistory :=
  MkAudioHistory i (ah_user_id r) (ah_text r) (ah_filename r) (ah_voice_id r)
    (ah_voice_name r) (ah_speed r) (ah_pitch r) (ah_volume r) (ah_created_at r).

(** The database file [xianwai.db]. *)
Record db := MkDb { db_users : list User; db_audio : list AudioHistory }.

Abbreviation table := (list AudioHistory).

(** ** Table operations *)

Definition max_rowid (t : table) : Z := fold_right (fun r m => Z.max (ah_id r) m) 0 t.

(** The rowid SQLite gives to a row inserted without one. *)
Definition next_rowid (t : table) : Z :=
  match t with
  | [] => 1
  | _ => max_rowid t + 1
  end.

(** [db.session.add(row); db.session.commit()]: the new row gets the next
    rowid and is stored after the others. *)
Definition table_insert (r : AudioHistory) (t : table) : table :=
  t ++ [set_ah_id (next_rowid t) r].

(** [AudioHistory.query.filter_by(filename=f, user_id=u).first()] *)
Definition find_by_filename (t : table) (f : pystr) (u : Z) : option AudioHistory :=
  List.find (fun r => bool_decide (ah_filename r = f) && (ah_user_id r =? u)) t.

(** [AudioHistory.query.filter_by(id=i, user_id=u).first()] *)
Definition find_by_id (t : table) (i u : Z) : option AudioHistory :=
  List.find (fun r => (ah_id r =? i) && (ah_user_id r =? u)) t.

(** [db.session.delete(row); db.session.commit()] *)
Definition table_delete (i : Z) (t : table) : table :=
  List.filter (fun r => negb (ah_id r =? i)) t.

(** [AudioHistory.query.filter_by(user_id=u).delete()] *)
Definition delete_by_user (u : Z) (t : table) : table :=
  List.filter (fun r => negb (ah_user_id r =? u)) t.

Definition rows_of (u : Z) (t : table) : table :=
  List.filter (fun r => ah_user_id r =? u) t.

(** [ORDER BY created_at DESC]: rows with equal timestamps may come in any
    order from SQLite; the model keeps them in the order of insertion sort. *)
Fixpoint insert_desc (r : AudioHistory) (l : table) : table :=
  match l with
  | [] => [r]
  | x :: l' =>
      if dt_ltb (ah_created_at x) (ah_created_at r) then r :: x :: l'
      else x :: insert_desc r l'
  end.

Definition sort_desc (t : table) : table := fold_right insert_desc [] t.

(** The page size of [GET /api/history]. *)
Definition history_limit : nat := 50.

(** [filter_by(user_id=u).order_by(AudioHistory.created_at.desc()).limit(50).all()] *)
Definition list_recent (u : Z) (t : table) : table :=
  take history_limit (sort_desc (rows_of u t)).

(** ** Well-formed tables

    The rowids of a table are positive and increase in scan order. *)
Definition table_wf (t : table) : Prop :=
  StronglySorted (fun a b => ah_id a < ah_id b) t /\ Forall (fun r => 1 <= ah_id r) t.

(** The abstract repository: record id to record. *)
Definition abs_table (t : table) : gmap Z AudioHistory :=
  list_to_map (map (fun r => (ah_id r, r)) t).

Lemma max_rowid_ge (t : table) : 0 <= max_rowid t /\ Forall (fun r => ah_id r <= max_rowid t) t.
Proof.
  induction t as [|r t [H0 IH]]; simpl; [split; [lia | constructor]|].
  split; [lia|]. constructor; [lia|].
  eapply Forall_impl; [exact IH|]. simpl. lia.
Qed.

Lemma next_rowid_gt (t : table) : 1 <= next_rowid t /\ Forall (fun r => ah_id r < next_rowid t) t.
Proof.
  destruct (max_rowid_ge t) as [H0 H]. unfold next_rowid.
  destruct t as [|x t]; [split; [lia | constructor]|].
  split; [lia|]. eapply Forall_impl; [exact H|]. simpl. lia.
Qed.

Lemma set_ah_id_id i r : ah_id (set_ah_id i r) = i.
Proof. done. Qed.

Lemma set_ah_id_user i r : ah_user_id (set_ah_id i r) = ah_user_id r.
Proof. done. Qed.

#[export] Hint Rewrite set_ah_id_id set_ah_id_user : tts_rw.

Lemma table_wf_filter (f : AudioHistory -> bool) (t : table) :
  table_wf t -> table_wf (List.filter f t).
Proof.
  intros [Hs Hp]. split; [by apply StronglySorted_filterb | by apply Forall_filterb].
Qed.

(** ** Scope of the queries *)

Lemma find_by_id_Some t i u r :
  find_by_id t i u = Some r -> r ∈ t /\ ah_id r = i /\ ah_user_id r = u.
Proof.
  unfold find_by_id. intros Hf.
  apply find_some in Hf as [Hin Hp].
  apply andb_true_iff in Hp as [Hi Hu]. apply Z.eqb_eq in Hi, Hu.
  split; [by apply list_elem_of_In | done].
Qed.

Lemma find_by_filename_Some t f u r :
  find_by_filename t f u = Some r -> r ∈ t /\ ah_filename r = f /\ ah_user_id r = u.
Proof.
  unfold find_by_filename. intros Hf.
  apply find_some in Hf as [Hin Hp].
  apply andb_true_iff in Hp as [Hf Hu]. apply bool_decide_eq_true in Hf. apply Z.eqb_eq in Hu.
  split; [by apply list_elem_of_In | done].
Qed.

Lemma find_by_filename_None t f u :
  find_by_filename t f u = None <->
  forall r, r ∈ t -> ah_filename r = f -> ah_user_id r <> u.
Proof.
  unfold find_by_filename. split.
  - intros Hf r Hr Hfn Hu. apply list_elem_of_In in Hr.
    eapply find_none in Hf; [|exact Hr]. rewrite Hfn, Hu, bool_decide_eq_true_2, Z.eqb_refl in Hf; done.
  - intros H. destruct (List.find _ t) as [r|] eqn:E; [|done].
    apply find_some in E as [Hin Hp]. apply andb_true_iff in Hp as [Hf Hu].
    apply bool_decide_eq_true in Hf. apply Z.eqb_eq in Hu.
    exfalso. eapply H; [by apply list_elem_of_In | done | done].
Qed.

(** ** Refinement of the table by the abstract repository *)

Lemma abs_table_lookup (t : table) i :
  abs_table t !! i = List.find (fun r => ah_id r =? i) t.
Proof.
  unfold abs_table. induction t as [|r t IH]; [done|].
  cbn [map List.find]. rewrite list_to_map_cons, lookup_insert.
  destruct (Z.eqb_spec (ah_id r) i); case_decide; congruence.
Qed.

(** Inserting a row is inserting it in the repository under a fresh id. *)
Lemma abs_table_insert (r : AudioHistory) (t : table) :
  abs_table t !! next_rowid t = None /\
  abs_table (table_insert r t) =
  <[next_rowid t := set_ah_id (next_rowid t) r]> (abs_table t).
Proof.
  destruct (next_rowid_gt t) as [_ Hlt].
  assert (Hnone : List.find (fun x => ah_id x =? next_rowid t) t = None).
  { apply find_Forall_false. eapply Forall_impl; [exact Hlt|].
    intros x Hx. simpl in Hx. apply Z.eqb_neq. lia. }
  split; [by rewrite abs_table_lookup|].
  apply map_eq. intros j. rewrite lookup_insert, !abs_table_lookup.
  unfold table_insert. rewrite find_app. simpl.
  case_decide as Hj; [subst j; by rewrite Hnone, Z.eqb_refl|].
  clear Hnone. destruct (Z.eqb_spec (next_rowid t) j); [congruence|].
  by destruct (List.find _ t).
Qed.

(** Deleting a row by id is deleting the id from the repository. *)
Lemma abs_table_delete (i : Z) (t : table) :
  abs_table (table_delete i t) = delete i (abs_table t).
Proof.
  apply map_eq. intros j. rewrite lookup_delete, !abs_table_lookup.
  unfold table_delete. rewrite find_filterb.
  case_decide as Hj.
  - subst j. apply find_Forall_false, Forall_forall.
    intros x _. by destruct (Z.eqb_spec (ah_id x) i).
  - apply find_ext. intros x. destruct (Z.eqb_spec (ah_id x) j); simpl; [|by rewrite andb_false_r].
    rewrite andb_true_r. apply negb_true_iff, Z.eqb_neq. congruence.
Qed.

(** Looking a row up by id and owner is looking the id up in the repository
    and answering only when the owner matches. *)
Lemma abs_table_find_by_id (t : table) i u :
  table_wf t ->
  find_by_id t i u =
  match abs_table t !! i with
  | Some r => if ah_user_id r =? u then Some r else None
  | None => None
  end.
Proof.
  intros [Hs _]. rewrite abs_table_lookup. unfold find_by_id.
  induction Hs as [|x t _ IH Hx]; simpl; [done|].
  destruct (Z.eqb_spec (ah_id x) i) as [<-|]; simpl; [|exact IH].
  destruct (ah_user_id x =? u); [done|].
  apply find_Forall_false. eapply Forall_impl; [exact Hx|].
  intros y Hy. simpl in Hy. destruct (Z.eqb_spec (ah_id y) (ah_id x)); [lia | done].
Qed.

(** Clearing one owner's rows is filtering the repository by owner. *)
Lemma abs_table_delete_by_user (u : Z) (t : table) :
  table_wf t ->
  abs_table (delete_by_user u t) = filter (fun kv => ah_user_id kv.2 <> u) (abs_table t).
Proof.
  intros [Hs _]. apply map_eq. intros j.
  rewrite map_lookup_filter, !abs_table_lookup.
  unfold delete_by_user. rewrite find_filterb.
  induction Hs as [|x t _ IH Hx]; simpl; [done|].
  destruct (Z.eqb_spec (ah_id x) j) as [<-|]; simpl.
  - destruct (Z.eqb_spec (ah_user_id x) u); simpl.
    + rewrite option_guard_False by tauto.
      apply find_Forall_false. eapply Forall_impl; [exact Hx|].
      intros y Hy. simpl in Hy. destruct (Z.eqb_spec (ah_id y) (ah_id x)); [lia|].
      by rewrite andb_false_r.
    + by rewrite option_guard_True.
  - rewrite andb_false_r. exact IH.
Qed.

(** ** Invariant of the table *)

Lemma table_insert_wf (r : AudioHistory) (t : table) :
  table_wf t -> table_wf (table_insert r t).
Proof.
  intros [Hs Hp]. destruct (next_rowid_gt t) as [H1 Hlt]. unfold table_insert. split.
  - by apply StronglySorted_snoc.
  - apply Forall_app. split; [done|]. by constructor.
Qed.

Lemma table_delete_wf i t : table_wf t -> table_wf (table_delete i t).
Proof. apply table_wf_filter. Qed.

Lemma delete_by_user_wf u t : table_wf t -> table_wf (delete_by_user u t).
Proof. apply table_wf_filter. Qed.

#[export] Hint Resolve table_insert_wf table_delete_wf delete_by_user_wf : tts.

Lemma max_rowid_app_last (t : table) r :
  Forall (fun x => ah_id x < ah_id r) t -> 0 <= ah_id r ->
  max_rowid (t ++ [r]) = ah_id r.
Proof.
  induction 1 as [|x t Hx _ IH]; simpl; intros H0; [lia|].
  rewrite IH by done. lia.
Qed.

Lemma table_delete_not_elem i t : Forall (fun x => ah_id x <> i) t -> table_delete i t = t.
Proof.
  induction 1 as [|x t Hx _ IH]; simpl; [done|].
  destruct (Z.eqb_spec (ah_id x) i); [done|]. simpl. by rewrite IH.
Qed.

(** ** Ordering of the history page *)

Lemma lex_ltb_asym (a b : list Z) : lex_ltb a b = true -> lex_ltb b a = false.
Proof.
  revert b. induction a as [|x a IH]; intros [|y b]; simpl; try done.
  destruct (Z.ltb_spec x y), (Z.ltb_spec y x), (Z.eqb_spec x y), (Z.eqb_spec y x);
    simpl; try lia; try done.
  intros Hab. by apply IH.
Qed.

(** Consecutive rows of the page are newest first. *)
Definition newer_first (a b : AudioHistory) : Prop :=
  dt_ltb (ah_created_at a) (ah_created_at b) = false.

Lemma insert_desc_hd x r l :
  HdRel newer_first x l -> newer_first x r -> HdRel newer_first x (insert_desc r l).
Proof.
  destruct l as [|y l]; simpl; intros Hh Hr; [by constructor|].
  destruct (dt_ltb _ _); constructor; [done|]. by inversion Hh.
Qed.

Lemma insert_desc_sorted r l :
  Sorted newer_first l -> Sorted newer_first (insert_desc r l).
Proof.
  induction 1 as [|x l Hl IH Hx]; simpl; [by repeat constructor|].
  destruct (dt_ltb (ah_created_at x) (ah_created_at r)) eqn:E.
  - constructor; [by constructor|]. constructor. by apply lex_ltb_asym.
  - constructor; [done|]. by apply insert_desc_hd.
Qed.

Lemma insert_desc_perm r l : insert_desc r l ≡ₚ r :: l.
Proof.
  induction l as [|x l IH]; simpl; [done|].
  destruct (dt_ltb _ _); [done|]. rewrite IH. apply perm_swap.
Qed.

Lemma sort_desc_sorted t : Sorted newer_first (sort_desc t).
Proof. induction t; simpl; [constructor | by apply insert_desc_sorted]. Qed.

Lemma sort_desc_perm t : sort_desc t ≡ₚ t.
Proof. induction t as [|r t IH]; simpl; [done|]. by rewrite insert_desc_perm, IH. Qed.

(** [<] on timestamps is negatively transitive: fields of equal length
    compared lexicographically. *)
Lemma lex_ltb_cotrans (a b c : list Z) :
  length a = length b -> length b = length c ->
  lex_ltb a c = true -> lex_ltb a b = true \/ lex_ltb b c = true.
Proof.
  revert b c. induction a as [|x a IH]; intros [|y b] [|z c]; cbn [length lex_ltb];
    intros Hab Hbc; try done; try lia.
  rewrite !orb_true_iff, !andb_true_iff, !Z.ltb_lt, !Z.eqb_eq.
  intros [Hxz | [-> Hac]]; [destruct (Z.lt_ge_cases x y), (Z.lt_ge_cases y z); lia|].
  destruct (Z.lt_ge_cases z y), (Z.lt_ge_cases y z); try lia.
  assert (y = z) as -> by lia.
  destruct (IH b c ltac:(lia) ltac:(lia) Hac); tauto.
Qed.

#[export] Instance newer_first_trans : Transitive newer_first.
Proof.
  intros a b c Hab Hbc. unfold newer_first, dt_ltb in *.
  destruct (lex_ltb (dt_fields (ah_created_at a)) (dt_fields (ah_created_at c))) eqn:Hac; [|done].
  destruct (lex_ltb_cotrans (dt_fields (ah_created_at a)) (dt_fields (ah_created_at b))
              (dt_fields (ah_created_at c)) eq_refl eq_refl Hac); congruence.
Qed.

(** ** Properties of the table operations *)

(** C10: the page of [GET /api/history] holds only rows of the
    session's user, newest first, as many as there are up to 50, and it
    is the newest of them: with the rows left out it is a permutation of
    the user's rows, and no row left out is newer than a row of the
    page. *)
Theorem list_recent_spec (u : Z) (t : table) :
  (forall r, r ∈ list_recent u t -> r ∈ t /\ ah_user_id r = u) /\
  Sorted newer_first (list_recent u t) /\
  length (list_recent u t) = Nat.min history_limit (length (rows_of u t)) /\
  exists rest, list_recent u t ++ rest ≡ₚ rows_of u t /\
    Forall (fun r => Forall (newer_first r) rest) (list_recent u t).
Proof.
  unfold list_recent. split_and!.
  - intros r Hr. apply elem_of_take in Hr as (i & Hi & _).
    apply list_elem_of_lookup_2 in Hi. rewrite sort_desc_perm in Hi.
    apply elem_of_filterb in Hi as [Hin Hu]. by apply Z.eqb_eq in Hu.
  - apply Sorted_take, sort_desc_sorted.
  - by rewrite length_take, sort_desc_perm.
  - exists (drop history_limit (sort_desc (rows_of u t))).
    split; [rewrite take_drop; apply sort_desc_perm|].
    apply StronglySorted_app_Forall. rewrite take_drop.
    apply Sorted_StronglySorted; [apply newer_first_trans | apply sort_desc_sorted].
Qed.

(** The next rowid of a well-formed table is one more than the id of
    its last row. *)
Lemma next_rowid_last (l : table) (x : AudioHistory) :
  table_wf (l ++ [x]) -> next_rowid (l ++ [x]) = ah_id x + 1.
Proof.
  intros [Hs Hp]. assert (Hx : 1 <= ah_id x) by (apply Forall_app in Hp as [_ Hx]; by inversion Hx).
  apply StronglySorted_app_Forall in Hs.
  assert (Hlt : Forall (fun y => ah_id y < ah_id x) l).
  { eapply Forall_impl; [exact Hs|]. intros y Hy. by inversion Hy. }
  destruct l as [|y l]; [cbn; lia|].
  transitivity (max_rowid ((y :: l) ++ [x]) + 1); [reflexivity|].
  rewrite (max_rowid_app_last (y :: l) x Hlt) by lia. done.
Qed.

(** C16: rowids are not monotonic: after a well-formed table ending in
    the row [x], an insert gets the id [ah_id x + 1]; once that row is
    deleted, the next insert gets [ah_id x + 1] again. *)
Theorem rowid_reused_after_delete (r1 r2 : AudioHistory) (l : table) (x : AudioHistory) :
  table_wf (l ++ [x]) ->
  table_insert r1 (l ++ [x]) = l ++ [x; set_ah_id (ah_id x + 1) r1] /\
  table_insert r2 (table_delete (ah_id x + 1) (table_insert r1 (l ++ [x]))) =
    l ++ [x; set_ah_id (ah_id x + 1) r2].
Proof.
  intros Hwf. unfold table_insert. rewrite next_rowid_last by done.
  split; [by rewrite <- app_assoc|].
  unfold table_delete. rewrite List.filter_app. cbn [List.filter ah_id set_ah_id].
  rewrite Z.eqb_refl, app_nil_r. fold (table_delete (ah_id x + 1) (l ++ [x])).
  rewrite table_delete_not_elem.
  - rewrite next_rowid_last by done. by rewrite <- app_assoc.
  - destruct Hwf as [Hs _]. apply StronglySorted_app_Forall in Hs.
    apply Forall_app. split; [|constructor; [lia | constructor]].
    eapply Forall_impl; [exact Hs|]. intros y Hy. inversion Hy. lia.
Qed.

(** In a well-formed table a rowid names one row. *)
Lemma table_wf_id_unique (t : table) a b :
  table_wf t -> a ∈ t -> b ∈ t -> ah_id a = ah_id b -> a = b.
Proof.
  intros [Hs _]. induction Hs as [|x t _ IH Hx]; [by rewrite elem_of_nil|].
  rewrite !elem_of_cons. intros [->|Ha] [->|Hb] Hab; try done.
  - rewrite Forall_forall in Hx. specialize (Hx b Hb). lia.
  - rewrite Forall_forall in Hx. specialize (Hx a Ha). lia.
  - by apply IH.
Qed.

Lemma rows_of_filter_comm (v : Z) (f : AudioHistory -> bool) (t : table) :
  (forall r, r ∈ t -> ah_user_id r = v -> f r = true) ->
  rows_of v (List.filter f t) = rows_of v t.
Proof.
  unfold rows_of. induction t as [|r t IH]; intros Hf; simpl; [done|].
  assert (IH' : List.filter (fun x => ah_user_id x =? v) (List.filter f t) =
                List.filter (fun x => ah_user_id x =? v) t)
    by (apply IH; intros x Hx; apply Hf; by right).
  destruct (f r) eqn:Hfr; simpl; destruct (Z.eqb_spec (ah_user_id r) v) as [Hv|Hv];
    rewrite ?IH'; try done.
  rewrite (Hf r) in Hfr; [done | by left | done].
Qed.

Lemma rows_of_insert_other (v : Z) (r : AudioHistory) (t : table) :
  ah_user_id r <> v -> rows_of v (table_insert r t) = rows_of v t.
Proof.
  intros Hv. unfold rows_of, table_insert. rewrite List.filter_app. simpl.
  destruct (Z.eqb_spec (ah_user_id r) v); [done|]. apply app_nil_r.
Qed.

Lemma rows_of_insert_self (v : Z) (r : AudioHistory) (t : table) :
  ah_user_id r = v -> rows_of v (table_insert r t) = rows_of v t ++ [set_ah_id (next_rowid t) r].
Proof.
  intros Hv. unfold rows_of, table_insert. rewrite List.filter_app. cbn [List.filter].
  by rewrite set_ah_id_user, Hv, Z.eqb_refl.
Qed.

(** A row strictly newer than all the others sorts first. *)
Lemma sort_desc_newest (l : table) (x : AudioHistory) :
  Forall (fun y => dt_ltb (ah_created_at y) (ah_created_at x) = true) l ->
  exists rest, sort_desc (l ++ [x]) = x :: rest.
Proof.
  unfold sort_desc. induction l as [|y l IH]; intros Hf; [by exists []|].
  apply Forall_cons in Hf as [Hy Hf]. destruct (IH Hf) as [rest Hr].
  cbn [app fold_right]. rewrite Hr. cbn [insert_desc]. unfold dt_ltb in *.
  rewrite (lex_ltb_asym _ _ Hy). eauto.
Qed.

(** The row just inserted is found by its file name and owner. *)
Lemma find_by_filename_insert (t : table) (r : AudioHistory) f u :
  ah_filename r = f -> ah_user_id r = u -> is_Some (find_by_filename (table_insert r t) f u).
Proof.
  intros Hf Hu. unfold find_by_filename, table_insert. rewrite find_app.
  destruct (List.find _ t); [done|]. cbn [List.find ah_filename ah_user_id set_ah_id].
  rewrite Hf, Hu, bool_decide_eq_true_2, Z.eqb_refl by done. done.
Qed.

(** ** A decision procedure for well-formedness *)

Fixpoint ids_increasing (l : list Z) : bool :=
  match l with
  | x :: ((y :: _) as l') => (x <? y) && ids_increasing l'
  | _ => true
  end.

Definition table_wfb (t : table) : bool :=
  ids_increasing (map ah_id t) && forallb (fun r => 1 <=? ah_id r) t.

Lemma table_wfb_sound (t : table) : table_wfb t = true -> table_wf t.
Proof.
  unfold table_wfb. rewrite andb_true_iff, forallb_forall. intros [Hinc Hpos]. split.
  - apply Sorted_StronglySorted; [intros x y z Hxy Hyz; simpl in *; lia|].
    clear Hpos. induction t as [|x [|y t] IH]; [constructor | repeat constructor|].
    simpl in Hinc. apply andb_true_iff in Hinc as [Hxy Hinc]. apply Z.ltb_lt in Hxy.
    constructor; [by apply IH | constructor; lia].
  - apply Forall_forall. intros r Hr. apply list_elem_of_In, Hpos in Hr. lia.
Qed.

(** The design's listing scenario: sixty rows of one owner, one second
    apart, give a page of the fifty newest, newest first. *)
Definition sample_row (i : Z) : AudioHistory :=
  MkAudioHistory i 7 [] [] (JInt 0) [] (JInt 5) (JInt 5) (JInt 5) (DateTime 2026 11 9 8 0 i 0).

Definition sixty_rows : table := map sample_row (map Z.of_nat (seq 1 60)).

Example list_recent_sixty :
  length (list_recent 7 sixty_rows) = 50%nat /\
  map ah_id (take 2 (list_recent 7 sixty_rows)) = [60; 59] /\
  last (map ah_id (list_recent 7 sixty_rows)) = Some 11.
Proof. vm_compute. auto. Qed.

Lemma rowid_reused_after_delete_witness :
  table_insert (sample_row 0) ([] ++ [sample_row 1]) =
    [] ++ [sample_row 1; set_ah_id (ah_id (sample_row 1) + 1) (sample_row 0)] /\
  table_insert (sample_row 9)
    (table_delete (ah_id (sample_row 1) + 1) (table_insert (sample_row 0) ([] ++ [sample_row 1]))) =
    [] ++ [sample_row 1; set_ah_id (ah_id (sample_row 1) + 1) (sample_row 9)].
Proof.
  apply (rowid_reused_after_delete (sample_row 0) (sample_row 9) [] (sample_row 1)).
  split; vm_compute; repeat constructor; discriminate.
Defined.
