(* ===== verification/World.v ===== *)
(** * World: the resources the program shares and its primitive effects

    Both source files act on the same world: the directory the audio files
    are written to, the Baidu provider behind [AipSpeech.synthesis], the
    SQLite database, the process's stdout and the sleeping thread.  The
    world is one record; what the environment decides (what the provider
    answers to the n-th call, whether the n-th file operation or the n-th
    commit succeeds) is an oracle of the record indexed by a counter that
    the effects advance, so that every run is a function of its start world
    and the theorems quantify over all answers.

    [pyW A] is the Python computation on the world: it returns a value or
    raises an exception, and keeps what it did before raising. *)

From S2P Require Import Prelude Text History.

Abbreviation bytes := (list Byte.byte).

(** The arguments of [self.client.synthesis(text, lang, 1, speech_options)]. *)
Record synth_request := SynthRequest {
  sr_text : pystr;
  sr_lang : pystr;
  sr_ctp : Z;
  sr_options : gmap pystr jval
}.

(** What the SDK does on a call: return the audio bytes, return an error
    dict, or raise. *)
Inductive synth_answer :=
| AnsAudio (b : bytes)
| AnsError (d : gmap pystr jval)
| AnsRaise (msg : pystr).

(** What the operating system does on a file operation: succeed, refuse it
    ([open] or [os.remove] raises [OSError]), or let [open] create and
    truncate the file and then fail after the first [k] bytes. *)
Inductive io_answer :=
| IoOk
| IoFails (msg : pystr)
| IoWriteFails (k : nat) (msg : pystr).

Record world := World {
  w_fs : gmap pystr bytes;
  w_synth : nat -> synth_answer;
  w_synth_log : list synth_request;
  w_io : nat -> io_answer;
  w_io_count : nat;
  w_commit_ok : nat -> bool;
  w_commit_count : nat;
  w_db : db;
  w_sleeps : list Z;
  w_stdout : list pystr
}.

Abbreviation pyW := (pyM world).

(** ** Record updates *)

Definition with_fs (fs : gmap pystr bytes) (w : world) : world :=
  World fs (w_synth w) (w_synth_log w) (w_io w) (w_io_count w)
    (w_commit_ok w) (w_commit_count w) (w_db w) (w_sleeps w) (w_stdout w).

Definition log_synth (req : synth_request) (w : world) : world :=
  World (w_fs w) (w_synth w) (w_synth_log w ++ [req]) (w_io w) (w_io_count w)
    (w_commit_ok w) (w_commit_count w) (w_db w) (w_sleeps w) (w_stdout w).

Definition tick_io (w : world) : world :=
  World (w_fs w) (w_synth w) (w_synth_log w) (w_io w) (S (w_io_count w))
    (w_commit_ok w) (w_commit_count w) (w_db w) (w_sleeps w) (w_stdout w).

Definition tick_commit (w : world) : world :=
  World (w_fs w) (w_synth w) (w_synth_log w) (w_io w) (w_io_count w)
    (w_commit_ok w) (S (w_commit_count w)) (w_db w) (w_sleeps w) (w_stdout w).

Definition with_db (d : db) (w : world) : world :=
  World (w_fs w) (w_synth w) (w_synth_log w) (w_io w) (w_io_count w)
    (w_commit_ok w) (w_commit_count w) d (w_sleeps w) (w_stdout w).

Definition log_sleep (secs : Z) (w : world) : world :=
  World (w_fs w) (w_synth w) (w_synth_log w) (w_io w) (w_io_count w)
    (w_commit_ok w) (w_commit_count w) (w_db w) (w_sleeps w ++ [secs]) (w_stdout w).

Definition log_stdout (line : pystr) (w : world) : world :=
  World (w_fs w) (w_synth w) (w_synth_log w) (w_io w) (w_io_count w)
    (w_commit_ok w) (w_commit_count w) (w_db w) (w_sleeps w) (w_stdout w ++ [line]).

(** The database as seen after each update; [reflexivity] on worlds can
    wander through all ten fields, these rewrite directly. *)
Lemma w_db_with_fs fs w : w_db (with_fs fs w) = w_db w.
Proof. unfold with_fs. simple apply eq_refl. Qed.

Lemma w_db_log_synth r w : w_db (log_synth r w) = w_db w.
Proof. unfold log_synth. simple apply eq_refl. Qed.

Lemma w_db_tick_io w : w_db (tick_io w) = w_db w.
Proof. unfold tick_io. simple apply eq_refl. Qed.

Lemma w_db_tick_commit w : w_db (tick_commit w) = w_db w.
Proof. unfold tick_commit. simple apply eq_refl. Qed.

Lemma w_db_with_db d w : w_db (with_db d w) = d.
Proof. unfold with_db. simple apply eq_refl. Qed.

Lemma w_db_log_sleep s w : w_db (log_sleep s w) = w_db w.
Proof. unfold log_sleep. simple apply eq_refl. Qed.

Lemma w_db_log_stdout l w : w_db (log_stdout l w) = w_db w.
Proof. unfold log_stdout. simple apply eq_refl. Qed.

Lemma w_stdout_log_stdout l w : w_stdout (log_stdout l w) = w_stdout w ++ [l].
Proof. unfold log_stdout. simple apply eq_refl. Qed.

#[export] Hint Rewrite w_db_with_fs w_db_log_synth w_db_tick_io w_db_tick_commit w_db_with_db
  w_db_log_sleep w_db_log_stdout : tts_rw.

(** ** Primitive effects *)

(** [AipSpeech.synthesis]: the call is logged, the oracle answers. *)
Definition aip_synthesis (req : synth_request) : pyW (bytes + gmap pystr jval) :=
  fun w =>
    let w' := log_synth req w in
    match w_synth w (length (w_synth_log w)) with
    | AnsAudio b => (Normal (inl b), w')
    | AnsError d => (Normal (inr d), w')
    | AnsRaise m => (Raised (PyExc SDKError m), w')
    end.

(** [with open(path, 'wb') as f: f.write(data)] *)
Definition write_file (path : pystr) (data : bytes) : pyW unit :=
  fun w =>
    let w' := tick_io w in
    match w_io w (w_io_count w) with
    | IoOk => (Normal tt, with_fs (<[path := data]> (w_fs w')) w')
    | IoFails m => (Raised (PyExc OSError m), w')
    | IoWriteFails k m => (Raised (PyExc OSError m), with_fs (<[path := take k data]> (w_fs w')) w')
    end.

(** [os.path.exists(path)] *)
Definition path_exists (path : pystr) : pyW bool :=
  fun w => (Normal (bool_decide (is_Some (w_fs w !! path))), w).

(** [os.remove(path)]: raises when the file is missing or the system
    refuses. *)
Definition remove_file (path : pystr) : pyW unit :=
  fun w =>
    let w' := tick_io w in
    match w_fs w !! path, w_io w (w_io_count w) with
    | Some _, IoOk => (Normal tt, with_fs (delete path (w_fs w')) w')
    | None, _ => (Raised (PyExc OSError (u8 "[Errno 2] No such file or directory")), w')
    | Some _, IoFails m | Some _, IoWriteFails _ m => (Raised (PyExc OSError m), w')
    end.

(** [time.sleep(secs)] *)
Definition sleep (secs : Z) : pyW unit := fun w => (Normal tt, log_sleep secs w).

(** [print(line)] *)
Definition print (line : pystr) : pyW unit := fun w => (Normal tt, log_stdout line w).

(** [db.session.commit()] of the pending change [f]: the oracle decides
    whether the commit succeeds; on failure nothing is written and
    [db.session.rollback()] in the handler discards the change. *)
Definition db_commit (f : db -> db) : pyW unit :=
  fun w =>
    let w' := tick_commit w in
    if w_commit_ok w (w_commit_count w) then (Normal tt, with_db (f (w_db w)) w')
    else (Raised (PyExc DBError (u8 "(sqlite3.OperationalError) database is locked")), w').

(** [len(text.encode('gbk'))], raising [UnicodeEncodeError]. *)
Definition encode_gbk_len `{GbkCodec} (s : pystr) : pyW nat :=
  match gbk_len s with
  | Some n => py_ret n
  | None =>
      match gbk_bad_pos s with
      | Some (i, c) => py_raise (PyExc UnicodeEncodeError (gbk_error_msg i c))
      | None => py_raise (PyExc UnicodeEncodeError [])
      end
  end.

(** ** Which database changes a computation can make

    [db_rel P m]: every run of [m] relates the database before and after by
    [P]; [P] is reflexive, since a run may also leave it alone.  The
    combinators below let a handler's database effect be read off its
    structure. *)

Definition db_pure {A} (m : pyW A) : Prop := forall w, w_db (snd (m w)) = w_db w.

Definition db_rel {A} (P : db -> db -> Prop) (m : pyW A) : Prop :=
  forall w, P (w_db w) (w_db (snd (m w))).

Section DbRel.
Context (P : db -> db -> Prop) (Prefl : forall d, P d d).

Lemma db_pure_rel {A} (m : pyW A) : db_pure m -> db_rel P m.
  Proof. intros H w. rewrite H. apply Prefl. Qed.

Lemma db_rel_bind_l {A B} (m : pyW A) (k : A -> pyW B) :
    db_pure m -> (forall a, db_rel P (k a)) -> db_rel P (py_bind m k).
  Proof.
    intros Hm Hk w. unfold py_bind. specialize (Hm w).
    destruct (m w) as [[a|e] w1]; simpl in *; [rewrite <- Hm; apply Hk | rewrite Hm; apply Prefl].
  Qed.

Lemma db_rel_bind_r {A B} (m : pyW A) (k : A -> pyW B) :
    db_rel P m -> (forall a, db_pure (k a)) -> db_rel P (py_bind m k).
  Proof.
    intros Hm Hk w. unfold py_bind. specialize (Hm w).
    destruct (m w) as [[a|e] w1]; simpl in *; [by rewrite Hk | done].
  Qed.

Lemma db_rel_try {A} (m : pyW A) h :
    db_rel P m -> (forall e, db_pure (h e)) -> db_rel P (py_try m h).
  Proof.
    intros Hm Hh w. unfold py_try. specialize (Hm w).
    destruct (m w) as [[a|e] w1]; simpl in *; [done | by rewrite Hh].
  Qed.

Lemma db_rel_commit f : (forall d, P d (f d)) -> db_rel P (db_commit f).
  Proof. intros Hf w. unfold db_commit. destruct (w_commit_ok _ _); [apply Hf | apply Prefl]. Qed.
End DbRel.

Lemma db_pure_ret {A} (a : A) : db_pure (py_ret a).
Proof. done. Qed.

Lemma db_pure_raise {A} e : db_pure (@py_raise world A e).
Proof. done. Qed.

Lemma db_pure_bind {A B} (m : pyW A) (k : A -> pyW B) :
  db_pure m -> (forall a, db_pure (k a)) -> db_pure (py_bind m k).
Proof.
  intros Hm Hk w. unfold py_bind. specialize (Hm w).
  destruct (m w) as [[a|e] w1]; simpl in *; [by rewrite Hk | done].
Qed.

Lemma db_pure_try {A} (m : pyW A) h :
  db_pure m -> (forall e, db_pure (h e)) -> db_pure (py_try m h).
Proof.
  intros Hm Hh w. unfold py_try. specialize (Hm w).
  destruct (m w) as [[a|e] w1]; simpl in *; [done | by rewrite Hh].
Qed.

Lemma db_pure_print l : db_pure (print l).
Proof. done. Qed.

Lemma db_pure_sleep s : db_pure (sleep s).
Proof. done. Qed.

Lemma db_pure_path_exists p : db_pure (path_exists p).
Proof. done. Qed.

Lemma db_pure_remove_file p : db_pure (remove_file p).
Proof. intros w. unfold remove_file. by repeat case_match. Qed.

Lemma db_pure_write_file p b : db_pure (write_file p b).
Proof. intros w. unfold write_file. by repeat case_match. Qed.

Lemma db_pure_synthesis r : db_pure (aip_synthesis r).
Proof. intros w. unfold aip_synthesis. by repeat case_match. Qed.

Lemma db_pure_encode `{GbkCodec} s : db_pure (encode_gbk_len s).
Proof. intros w. unfold encode_gbk_len. by repeat case_match. Qed.

#[export] Hint Resolve db_pure_ret db_pure_raise db_pure_bind db_pure_try db_pure_print
  db_pure_sleep db_pure_path_exists db_pure_remove_file db_pure_write_file db_pure_synthesis
  db_pure_encode : tts.

(** ** Computations that only read the world *)

Definition readonly {A} (m : pyW A) : Prop := forall w, snd (m w) = w.

Lemma readonly_bind {A B} (m : pyW A) (k : A -> pyW B) w :
  readonly m -> py_bind m k w = match fst (m w) with Normal a => k a w | Raised e => (Raised e, w) end.
Proof. intros H. unfold py_bind. specialize (H w). destruct (m w) as [[a|e] w']; simpl in *; by subst. Qed.

Lemma readonly_ret {A} (a : A) : readonly (py_ret a).
Proof. done. Qed.

Lemma readonly_raise {A} e : readonly (@py_raise world A e).
Proof. done. Qed.

Lemma readonly_path_exists p : readonly (path_exists p).
Proof. done. Qed.

Lemma readonly_encode `{GbkCodec} s : readonly (encode_gbk_len s).
Proof. intros w. unfold encode_gbk_len. by repeat case_match. Qed.

Lemma readonly_try_eq {A} (m : pyW A) h w :
  readonly m -> py_try m h w = match fst (m w) with Normal a => (Normal a, w) | Raised e => h e w end.
Proof. intros H. unfold py_try. specialize (H w). destruct (m w) as [[a|e] w']; simpl in *; by subst. Qed.

Create HintDb readonly.
#[export] Hint Resolve readonly_ret readonly_raise readonly_path_exists readonly_encode : readonly.

(** ** Worlds for concrete runs

    An empty upload directory and nothing logged; the provider answers
    [synth], the file system [io] and the database commits [commit]. *)
Definition mk_world (synth : nat -> synth_answer) (io : nat -> io_answer)
    (commit : nat -> bool) (d : db) : world :=
  World ∅ synth [] io 0 commit 0 d [] [].
