(* ===== verification/Client.v ===== *)
(** * Client: the [BaiduTTS] class of [src/TTS/AI_Text_to_Audio.py]

    [BaiduTTS] holds the credentials and a dict [default_options]; its
    methods are modelled one definition each:
    - [text_to_speech] (lines 32-81): GBK length check, option merge, the
      provider call, the bytes/dict discrimination and the file write,
      exceptions after the length check turned into a [(False, message)]
      result;
    - [set_default_option] (lines 83-93) and [get_supported_voices]
      (lines 95-117);
    - [text_to_speech_with_retry] (lines 119-148): the [for] loop as the
      structural recursion [retry_loop] on the number of attempts left.
    The class [TtsEngine] states what the web application uses of a client;
    [BaiduTTS] is an instance. *)

From S2P Require Import Prelude Text History World.

(** ** The object *)

Record BaiduTTS := MkBaiduTTS {
  app_id : pystr;
  api_key : pystr;
  secret_key : pystr;
  default_options : gmap pystr jval
}.

Definition key_vol : pystr := Eval cbv in u8 "vol".
Definition key_spd : pystr := Eval cbv in u8 "spd".
Definition key_pit : pystr := Eval cbv in u8 "pit".
Definition key_per : pystr := Eval cbv in u8 "per".
Definition key_cuid : pystr := Eval cbv in u8 "cuid".

(** [__init__]: [{'vol': 5, 'spd': 5, 'pit': 5, 'per': 0}] *)
Definition BaiduTTS_init (app_id api_key secret_key : pystr) : BaiduTTS :=
  MkBaiduTTS app_id api_key secret_key
    (<[key_vol := JInt 5]> (<[key_spd := JInt 5]> (<[key_pit := JInt 5]>
      (<[key_per := JInt 0]> ∅)))).

(** ** Messages of the source *)

(** ["文本长度超过1024字节限制，请缩短文本或分段处理[citation:5]"] *)
Definition msg_too_long : pystr :=
  Eval cbv in u8 "文本长度超过1024字节限制，请缩短文本或分段处理[citation:5]".

(** [f"语音合成失败: {error_msg} (错误码: {error_no})"] *)
Definition msg_synth_failed (error_msg error_no : jval) : pystr :=
  u8 "语音合成失败: " ++ py_str error_msg ++ u8 " (错误码: " ++ py_str error_no ++ u8 ")".

(** [f"语音合成过程中发生异常: {str(e)}"] *)
Definition msg_exception (e : exc) : pystr := u8 "语音合成过程中发生异常: " ++ exc_msg e.

(** The transient markers ["服务器忙"] and ["访问频率受限"]. *)
Definition marker_busy : pystr := Eval cbv in u8 "服务器忙".
Definition marker_rate : pystr := Eval cbv in u8 "访问频率受限".

(** [dict.get(key, default)] *)
Definition dict_get (d : gmap pystr jval) (k : pystr) (default : jval) : jval :=
  match d !! k with Some v => v | None => default end.

(** [if options: speech_options.update(options)]: an absent or empty dict is
    false. *)
Definition merge_options (defaults : gmap pystr jval) (options : option (gmap pystr jval))
  : gmap pystr jval :=
  match options with
  | Some o => if bool_decide (o = ∅) then defaults else o ∪ defaults
  | None => defaults
  end.

(** The failure message built from the provider's error dict. *)
Definition error_result (d : gmap pystr jval) : pystr :=
  msg_synth_failed (dict_get d (u8 "err_msg") (JStr (u8 "未知错误")))
                   (dict_get d (u8 "err_no") (JStr (u8 "未知错误码"))).

(** The request [text_to_speech] sends. *)
Definition tts_request (c : BaiduTTS) (text lang : pystr)
    (options : option (gmap pystr jval)) (cuid : pystr) : synth_request :=
  SynthRequest text lang 1 (<[key_cuid := JStr cuid]> (merge_options (default_options c) options)).

(** ** [text_to_speech] *)

Definition text_to_speech `{GbkCodec} (c : BaiduTTS) (text output_file lang : pystr)
    (options : option (gmap pystr jval)) (cuid : pystr) : pyW (bool * pystr) :=
  n <- encode_gbk_len text;;
  if (1024 <? n)%nat then py_ret (false, msg_too_long)
  else
    py_try
      (result <- aip_synthesis (tts_request c text lang options cuid);;
       match result with
       | inr d => py_ret (false, error_result d)
       | inl audio => write_file output_file audio;; py_ret (true, output_file)
       end)
      (fun e => py_ret (false, msg_exception e)).

(** [set_default_option]: both branches of the source store the value. *)
Definition set_default_option (c : BaiduTTS) (key : pystr) (value : jval) : BaiduTTS :=
  if bool_decide (is_Some (default_options c !! key))
  then MkBaiduTTS (app_id c) (api_key c) (secret_key c) (<[key := value]> (default_options c))
  else MkBaiduTTS (app_id c) (api_key c) (secret_key c) (<[key := value]> (default_options c)).

(** The dict literal of [get_supported_voices], in its order, which is the
    order [voices.items()] iterates in; its keys are distinct. *)
Definition supported_voices : list (Z * pystr) :=
  [(0, u8 "度小美 - 默认女声"); (1, u8 "度小宇 - 男声");
   (3, u8 "度逍遥(基础) - 情感合成"); (4, u8 "度丫丫 - 情感合成-童声");
   (5003, u8 "度逍遥(精品)"); (5118, u8 "度小鹿"); (106, u8 "度博文");
   (110, u8 "度小童"); (111, u8 "度小萌"); (103, u8 "度米朵"); (5, u8 "度小娇")].

(** [get_supported_voices] *)
Definition get_supported_voices (c : BaiduTTS) : gmap Z pystr := list_to_map supported_voices.

(** ** [text_to_speech_with_retry] *)

(** [if "服务器忙" in result or "访问频率受限" in result] *)
Definition is_retryable (result : pystr) : bool :=
  str_contains marker_busy result || str_contains marker_rate result.

(** How the [for] loop ends: [return True, result], or leaving the loop
    (exhausted or [break]) with the last [result] bound, if any. *)
Inductive retry_exit :=
| RetrySucceeded (r : pystr)
| RetryStopped (last : option pystr).

(** [f"第{attempt + 1}次尝试失败: {result}，{wait_time}秒后重试..."] *)
Definition msg_retry (attempt : nat) (result : pystr) (wait_time : Z) : pystr :=
  u8 "第" ++ py_int_str (Z.of_nat attempt + 1) ++ u8 "次尝试失败: " ++ result ++
  u8 "，" ++ py_int_str wait_time ++ u8 "秒后重试...".

(** One iteration per attempt left: [attempt] is the loop variable and
    [last] the value of [result] when the loop body last ran. *)
Fixpoint retry_loop `{GbkCodec} (c : BaiduTTS) (text output_file lang : pystr)
    (options : option (gmap pystr jval)) (cuid : pystr)
    (attempt remaining : nat) (last : option pystr) : pyW retry_exit :=
  match remaining with
  | O => py_ret (RetryStopped last)
  | S k =>
      sr <- text_to_speech c text output_file lang options cuid;;
      let '(success, result) := sr in
      if success then py_ret (RetrySucceeded result)
      else if is_retryable result then
        let wait_time := 2 ^ Z.of_nat attempt in
        print (msg_retry attempt result wait_time);;
        sleep wait_time;;
        retry_loop c text output_file lang options cuid (S attempt) k (Some result)
      else py_ret (RetryStopped (Some result))
  end.

(** [f"经过{max_retries}次尝试后仍然失败: {result}"] *)
Definition msg_gave_up (max_retries : Z) (result : pystr) : pystr :=
  u8 "经过" ++ py_int_str max_retries ++ u8 "次尝试后仍然失败: " ++ result.

(** [range(max_retries)] runs [max(0, max_retries)] times; when it runs no
    time, [result] is unbound at the final [return]. *)
Definition text_to_speech_with_retry `{GbkCodec} (c : BaiduTTS) (text output_file : pystr)
    (max_retries : Z) (lang : pystr) (options : option (gmap pystr jval)) (cuid : pystr)
  : pyW (bool * pystr) :=
  ex <- retry_loop c text output_file lang options cuid 0 (Z.to_nat max_retries) None;;
  match ex with
  | RetrySucceeded r => py_ret (true, r)
  | RetryStopped (Some r) => py_ret (false, msg_gave_up max_retries r)
  | RetryStopped None =>
      py_raise (PyExc UnboundLocalError
        (u8 "cannot access local variable 'result' where it is not associated with a value"))
  end.

(** ** One call of [text_to_speech] *)

(** The answer of the provider to the [k]-th call from now. *)
Definition synth_next (w : world) (k : nat) : synth_answer :=
  w_synth w (length (w_synth_log w) + k).

Lemma encode_gbk_len_ok `{GbkCodec} (s : pystr) n w :
  gbk_len s = Some n -> encode_gbk_len s w = (Normal n, w).
Proof. intros Hs. unfold encode_gbk_len. by rewrite Hs. Qed.

Section OneCall.
Context `{G : GbkCodec}.
Context (c : BaiduTTS) (text f lang cuid : pystr) (options : option (gmap pystr jval)).

Let req := tts_request c text lang options cuid.

Lemma tts_long n w :
    gbk_len text = Some n -> (1024 < n)%nat ->
    text_to_speech c text f lang options cuid w = (Normal (false, msg_too_long), w).
  Proof.
    intros Hg Hn. unfold text_to_speech. erewrite py_bind_normal by (by apply encode_gbk_len_ok).
    by rewrite (proj2 (Nat.ltb_lt _ _) Hn).
  Qed.

Lemma tts_unencodable w :
    gbk_len text = None ->
    exists m, text_to_speech c text f lang options cuid w = (Raised (PyExc UnicodeEncodeError m), w).
  Proof.
    intros Hg. unfold text_to_speech, encode_gbk_len. rewrite Hg. py_unfold.
    destruct (gbk_bad_pos text) as [[i d]|]; eauto.
  Qed.

(** Within the length limit, the provider is called once with [req]. *)
Lemma tts_call n w :
    gbk_len text = Some n -> (n <= 1024)%nat ->
    text_to_speech c text f lang options cuid w =
    match synth_next w 0 with
    | AnsError d => (Normal (false, error_result d), log_synth req w)
    | AnsRaise m => (Normal (false, msg_exception (PyExc SDKError m)), log_synth req w)
    | AnsAudio b =>
        match w_io w (w_io_count w) with
        | IoOk => (Normal (true, f), with_fs (<[f := b]> (w_fs w)) (tick_io (log_synth req w)))
        | IoFails m => (Normal (false, msg_exception (PyExc OSError m)), tick_io (log_synth req w))
        | IoWriteFails k m =>
            (Normal (false, msg_exception (PyExc OSError m)),
             with_fs (<[f := take k b]> (w_fs w)) (tick_io (log_synth req w)))
        end
    end.
  Proof.
    intros Hg Hn. unfold text_to_speech. erewrite py_bind_normal by (by apply encode_gbk_len_ok).
    rewrite (proj2 (Nat.ltb_ge _ _) Hn). unfold synth_next. rewrite Nat.add_0_r.
    py_unfold. unfold aip_synthesis, write_file.
    destruct (w_synth w _); [|done|done]. simpl. by destruct (w_io w _).
  Qed.
End OneCall.

(** ** The retry loop *)

(** The back-off delays [2 ** attempt] of the attempts [a .. a+k-1]. *)
Definition backoffs (a k : nat) : list Z := map (fun i => 2 ^ Z.of_nat (a + i)) (seq 0 k).

Lemma backoffs_S a k : backoffs a (S k) = 2 ^ Z.of_nat a :: backoffs (S a) k.
Proof.
  unfold backoffs. simpl. rewrite Nat.add_0_r. f_equal.
  rewrite <- seq_shift, map_map. apply map_ext. intros i. do 2 f_equal. lia.
Qed.


Section Retry.
Context `{G : GbkCodec}.
Context (c : BaiduTTS) (text f lang cuid : pystr) (options : option (gmap pystr jval)).
Context (n : nat) (Hg : gbk_len text = Some n) (Hn : (n <= 1024)%nat).

Let req := tts_request c text lang options cuid.
Let loop := retry_loop c text f lang options cuid.

(** The world after a transient failure of attempt [a]: the call, the
    line printed and the back-off sleep. *)
Definition after_transient (a : nat) (d : gmap pystr jval) (w : world) : world :=
    log_sleep (2 ^ Z.of_nat a)
      (log_stdout (msg_retry a (error_result d) (2 ^ Z.of_nat a)) (log_synth req w)).

Lemma synth_next_after_transient a d w i :
    synth_next (after_transient a d w) i = synth_next w (S i).
  Proof. unfold synth_next. simpl. rewrite length_app. simpl. f_equal. lia. Qed.

Lemma retry_step_transient a k last w d :
    synth_next w 0 = AnsError d -> is_retryable (error_result d) = true ->
    loop a (S k) last w = loop (S a) k (Some (error_result d)) (after_transient a d w).
  Proof.
    intros Hd Hr. unfold loop. cbn [retry_loop].
    erewrite py_bind_normal by (rewrite (tts_call _ _ _ _ _ _ _ _ Hg Hn), Hd; reflexivity).
    cbv beta iota. rewrite Hr. done.
  Qed.

Lemma retry_step_stop a k last w d :
    synth_next w 0 = AnsError d -> is_retryable (error_result d) = false ->
    loop a (S k) last w = (Normal (RetryStopped (Some (error_result d))), log_synth req w).
  Proof.
    intros Hd Hr. unfold loop. cbn [retry_loop].
    erewrite py_bind_normal by (rewrite (tts_call _ _ _ _ _ _ _ _ Hg Hn), Hd; reflexivity).
    cbv beta iota. by rewrite Hr.
  Qed.

Lemma retry_step_audio a k last w b :
    synth_next w 0 = AnsAudio b -> w_io w (w_io_count w) = IoOk ->
    loop a (S k) last w =
    (Normal (RetrySucceeded f), with_fs (<[f := b]> (w_fs w)) (tick_io (log_synth req w))).
  Proof.
    intros Hb Hio. unfold loop. cbn [retry_loop].
    erewrite py_bind_normal by (rewrite (tts_call _ _ _ _ _ _ _ _ Hg Hn), Hb, Hio; reflexivity).
    done.
  Qed.

(** [j] transient failures followed by audio, within the attempts left. *)
Lemma retry_loop_succeeds j : forall a k last w b,
    (j < k)%nat ->
    (forall i, (i < j)%nat -> exists d, synth_next w i = AnsError d /\
                                        is_retryable (error_result d) = true) ->
    synth_next w j = AnsAudio b -> w_io w (w_io_count w) = IoOk ->
    exists w', loop a k last w = (Normal (RetrySucceeded f), w') /\
      length (w_synth_log w') = (length (w_synth_log w) + S j)%nat /\
      w_sleeps w' = w_sleeps w ++ backoffs a j /\
      w_fs w' !! f = Some b.
  Proof.
    induction j as [|j IH]; intros a [|k] last w b Hk Htr Hb Hio; try lia.
    - rewrite retry_step_audio with (b := b) by done. eexists. split_and!; [done| | |].
      + simpl. rewrite length_app. simpl. lia.
      + simpl. unfold backoffs. simpl. by rewrite app_nil_r.
      + simpl. by rewrite lookup_insert_eq.
    - destruct (Htr 0%nat) as (d & Hd & Hr); [lia|].
      rewrite retry_step_transient with (d := d) by done.
      destruct (IH (S a) k (Some (error_result d)) (after_transient a d w) b)
        as (w' & Hrun & Hlen & Hsl & Hf); [lia| | |done|].
      + intros i Hi. rewrite synth_next_after_transient. apply Htr. lia.
      + by rewrite synth_next_after_transient.
      + exists w'. split_and!; [done| | |done].
        * rewrite Hlen. simpl. rewrite length_app. simpl. lia.
        * rewrite Hsl, backoffs_S. simpl. by rewrite <- app_assoc.
  Qed.

(** All [k+1] attempts fail transiently: the loop sleeps after each of
    them, the last one included. *)
Lemma retry_loop_exhausts k : forall a last w,
    (forall i, (i <= k)%nat -> exists d, synth_next w i = AnsError d /\
                                         is_retryable (error_result d) = true) ->
    exists w' d, loop a (S k) last w = (Normal (RetryStopped (Some (error_result d))), w') /\
      synth_next w k = AnsError d /\
      length (w_synth_log w') = (length (w_synth_log w) + S k)%nat /\
      w_sleeps w' = w_sleeps w ++ backoffs a (S k).
  Proof.
    induction k as [|k IH]; intros a last w Htr;
      destruct (Htr 0%nat) as (d & Hd & Hr); [lia| |lia|];
      rewrite retry_step_transient with (d := d) by done.
    - exists (after_transient a d w), d. split_and!; [done|done| |].
      + simpl. rewrite !length_app. simpl. lia.
      + unfold backoffs. simpl. by rewrite Nat.add_0_r.
    - destruct (IH (S a) (Some (error_result d)) (after_transient a d w))
        as (w' & d' & Hrun & Hd' & Hlen & Hsl).
      { intros i Hi. rewrite synth_next_after_transient. apply Htr. lia. }
      exists w', d'. split_and!; [done| | |].
      + by rewrite synth_next_after_transient in Hd'.
      + rewrite Hlen. simpl. rewrite length_app. simpl. lia.
      + rewrite Hsl, (backoffs_S a (S k)). simpl. by rewrite <- app_assoc.
  Qed.

(** C3: failures carrying a transient marker are retried with back-off
    1, 2, 4, ... until the provider returns audio, which is written to the
    output file; the provider is called once per attempt. *)
Theorem retry_transient_then_success (max_retries : Z) j w b :
    (j < Z.to_nat max_retries)%nat ->
    (forall i, (i < j)%nat -> exists d, synth_next w i = AnsError d /\
                                        is_retryable (error_result d) = true) ->
    synth_next w j = AnsAudio b -> w_io w (w_io_count w) = IoOk ->
    exists w', text_to_speech_with_retry c text f max_retries lang options cuid w =
                 (Normal (true, f), w') /\
      length (w_synth_log w') = (length (w_synth_log w) + S j)%nat /\
      w_sleeps w' = w_sleeps w ++ backoffs 0 j /\
      w_fs w' !! f = Some b.
  Proof.
    intros Hj Htr Hb Hio. unfold text_to_speech_with_retry.
    destruct (retry_loop_succeeds j 0 (Z.to_nat max_retries) None w b)
      as (w' & Hrun & Hrest); [done..|].
    exists w'. split; [|done]. by rewrite (py_bind_normal _ _ _ _ _ Hrun).
  Qed.

(** C4: a failure without a transient marker ends the loop after
    one call and no sleep. *)
Theorem retry_terminal_error (max_retries : Z) w d :
    0 < max_retries ->
    synth_next w 0 = AnsError d -> is_retryable (error_result d) = false ->
    text_to_speech_with_retry c text f max_retries lang options cuid w =
    (Normal (false, msg_gave_up max_retries (error_result d)), log_synth req w).
  Proof.
    intros Hm Hd Hr. unfold text_to_speech_with_retry.
    destruct (Z.to_nat max_retries) as [|k] eqn:E; [lia|].
    by erewrite py_bind_normal by (by apply retry_step_stop).
  Qed.

(** C12: when every attempt fails transiently, the client gives up
    after [max_retries] calls, having slept 1 + 2 + ... + 2^(max_retries-1)
    seconds, the last sleep following the last attempt. *)
Theorem retry_all_transient (max_retries : Z) w :
    0 < max_retries ->
    (forall i, (i < Z.to_nat max_retries)%nat ->
       exists d, synth_next w i = AnsError d /\ is_retryable (error_result d) = true) ->
    exists w' d, text_to_speech_with_retry c text f max_retries lang options cuid w =
                 (Normal (false, msg_gave_up max_retries (error_result d)), w') /\
      length (w_synth_log w') = (length (w_synth_log w) + Z.to_nat max_retries)%nat /\
      w_sleeps w' = w_sleeps w ++ backoffs 0 (Z.to_nat max_retries).
  Proof.
    intros Hm Htr. unfold text_to_speech_with_retry.
    destruct (Z.to_nat max_retries) as [|k] eqn:E; [lia|].
    destruct (retry_loop_exhausts k 0 None w) as (w' & d & Hrun & _ & Hlen & Hsl).
    { intros i Hi. apply Htr. lia. }
    exists w', d. split_and!; [by rewrite (py_bind_normal _ _ _ _ _ Hrun) | done | done].
  Qed.
End Retry.

(** C17: with [max_retries <= 0] the loop body never runs and the final
    [return] reads the unbound local [result]. *)
Theorem retry_no_attempt `{GbkCodec} c text f max_retries lang options cuid w :
  max_retries <= 0 ->
  exists m, text_to_speech_with_retry c text f max_retries lang options cuid w =
            (Raised (PyExc UnboundLocalError m), w).
Proof.
  intros Hm. unfold text_to_speech_with_retry.
  replace (Z.to_nat max_retries) with 0%nat by lia. eexists. reflexivity.
Qed.

(** ** What one call may change *)

(** [text_to_speech] touches only the file it is asked to write and the
    provider's call log (once at most) and the i/o counter. *)
Definition tts_frame (f : pystr) (w w' : world) : Prop :=
  w_sleeps w' = w_sleeps w /\ w_stdout w' = w_stdout w /\ w_db w' = w_db w /\
  w_commit_count w' = w_commit_count w /\ w_commit_ok w' = w_commit_ok w /\
  w_synth w' = w_synth w /\ w_io w' = w_io w /\
  (length (w_synth_log w') <= S (length (w_synth_log w)))%nat /\
  (forall p, p <> f -> w_fs w' !! p = w_fs w !! p).

Lemma tts_frame_refl f w : tts_frame f w w.
Proof. repeat split; lia. Qed.

Lemma text_to_speech_frame `{GbkCodec} c text f lang options cuid w :
  tts_frame f w (snd (text_to_speech c text f lang options cuid w)).
Proof.
  destruct (gbk_len text) as [n|] eqn:Hg.
  - destruct (Nat.ltb_spec 1024 n) as [Hn|Hn].
    + rewrite (tts_long _ _ _ _ _ _ _ _ Hg Hn). apply tts_frame_refl.
    + rewrite (tts_call _ _ _ _ _ _ _ _ Hg Hn).
      destruct (synth_next w 0); [destruct (w_io w _)|..];
        repeat split; simpl; rewrite ?length_app; simpl; try lia;
        intros p Hp; by rewrite ?lookup_insert_ne by congruence.
  - destruct (tts_unencodable c text f lang cuid options w Hg) as [m ->]. apply tts_frame_refl.
Qed.

Lemma backoffs_sum a m :
  fold_right Z.add 0 (backoffs a m) = 2 ^ Z.of_nat a * (2 ^ Z.of_nat m - 1).
Proof.
  revert a. induction m as [|m IH]; intros a; [simpl; lia|].
  rewrite backoffs_S. simpl. rewrite IH.
  rewrite !Nat2Z.inj_succ, !Z.pow_succ_r by lia. lia.
Qed.

(** A call adds at most one request to the provider's log, and exactly
    one when its failure message carries a transient marker: such a
    message comes from the provider, never from the length check. *)
Lemma tts_log_length `{GbkCodec} c text f lang options cuid w :
  let w' := snd (text_to_speech c text f lang options cuid w) in
  (length (w_synth_log w') = length (w_synth_log w) \/
   length (w_synth_log w') = S (length (w_synth_log w))) /\
  (forall res, fst (text_to_speech c text f lang options cuid w) = Normal (false, res) ->
     is_retryable res = true -> length (w_synth_log w') = S (length (w_synth_log w))).
Proof.
  cbn zeta. destruct (gbk_len text) as [n|] eqn:Hg.
  - destruct (Nat.ltb_spec 1024 n) as [Hn|Hn].
    + rewrite (tts_long _ _ _ _ _ _ _ _ Hg Hn). split; [by left|].
      intros res [= <-] Hr. vm_compute in Hr. discriminate Hr.
    + rewrite (tts_call _ _ _ _ _ _ _ _ Hg Hn).
      destruct (synth_next w 0); [destruct (w_io w _)|..];
        cbn [snd fst w_synth_log with_fs tick_io log_synth]; rewrite length_app; cbn [length];
        (split; [right; lia | intros; lia]).
  - destruct (tts_unencodable c text f lang cuid options w Hg) as [m ->].
    split; [by left | intros res Hr; discriminate Hr].
Qed.

(** The loop sleeps [2 ** attempt] for a prefix of its attempts, at most
    once per provider call, and calls the provider at most once per
    iteration. *)
Lemma retry_loop_bounds `{GbkCodec} c text f lang options cuid k : forall a last w,
  let w' := snd (retry_loop c text f lang options cuid a k last w) in
  exists m, (m <= k)%nat /\ w_sleeps w' = w_sleeps w ++ backoffs a m /\
    (length (w_synth_log w) + m <= length (w_synth_log w') <= length (w_synth_log w) + k)%nat.
Proof.
  induction k as [|k IH]; intros a last w; simpl.
  { exists 0%nat. rewrite app_nil_r. split_and!; first [done | lia]. }
  pose proof (text_to_speech_frame c text f lang options cuid w) as Hfr.
  pose proof (tts_log_length c text f lang options cuid w) as [Hl1 Hl2]. cbn zeta in Hl1, Hl2.
  unfold py_bind. destruct (text_to_speech c text f lang options cuid w) as [[[[|] res]|e] w1].
  all: simpl in Hfr, Hl1, Hl2; destruct Hfr as (Hsl & _ & _ & _ & _ & _ & _ & Hlen & _).
  - exists 0%nat. rewrite app_nil_r. simpl. split_and!; first [done | lia].
  - destruct (is_retryable res) eqn:Hr; simpl.
    + specialize (Hl2 res eq_refl Hr).
      destruct (IH (S a) (Some res) (log_sleep (2 ^ Z.of_nat a)
                  (log_stdout (msg_retry a res (2 ^ Z.of_nat a)) w1)))
        as (m & Hm & Hsl' & Hlen').
      exists (S m). rewrite backoffs_S. simpl in *. split_and!; [lia| |lia|lia].
      rewrite Hsl', Hsl. by rewrite <- app_assoc.
    + exists 0%nat. rewrite app_nil_r. split_and!; first [done | lia].
  - exists 0%nat. rewrite app_nil_r. simpl. split_and!; first [done | lia].
Qed.

(** C9: whatever the provider answers, [text_to_speech_with_retry]
    calls it at most [max_retries] times, and sleeps 1, 2, 4, ... seconds
    for a prefix of its attempts, at most once per call made: at most
    2^max_retries - 1 seconds in all. *)
Theorem retry_bounds `{GbkCodec} c text f max_retries lang options cuid w :
  let w' := snd (text_to_speech_with_retry c text f max_retries lang options cuid w) in
  exists m, (m <= Z.to_nat max_retries)%nat /\
    w_sleeps w' = w_sleeps w ++ backoffs 0 m /\
    fold_right Z.add 0 (backoffs 0 m) <= 2 ^ Z.of_nat (Z.to_nat max_retries) - 1 /\
    (length (w_synth_log w) + m <= length (w_synth_log w') <=
     length (w_synth_log w) + Z.to_nat max_retries)%nat.
Proof.
  unfold text_to_speech_with_retry. simpl.
  destruct (retry_loop_bounds c text f lang options cuid (Z.to_nat max_retries) 0 None w)
    as (m & Hm & Hsl & Hlen).
  unfold py_bind.
  destruct (retry_loop c text f lang options cuid 0 (Z.to_nat max_retries) None w)
    as [[[r|[r|]]|e] w1]; simpl in *;
  exists m; (split; [lia|]); (split; [done|]); (split; [|lia]);
    rewrite backoffs_sum; simpl;
    assert (2 ^ Z.of_nat m <= 2 ^ Z.of_nat (Z.to_nat max_retries))
      by (apply Z.pow_le_mono_r; lia); lia.
Qed.

(** ** When the calls return *)

Section Returns.
Context `{G : GbkCodec}.
Context (c : BaiduTTS) (text f lang cuid : pystr) (options : option (gmap pystr jval)).

(** [text_to_speech] returns exactly when the text encodes; its only
    exception is the [UnicodeEncodeError] of the length check. *)
Lemma tts_normal_iff w :
  (exists sr, fst (text_to_speech c text f lang options cuid w) = Normal sr) <-> is_Some (gbk_len text).
Proof.
  split.
  - intros [sr Hr]. destruct (gbk_len text) eqn:Hg; [done|].
    destruct (tts_unencodable c text f lang cuid options w Hg) as [m Hm]. by rewrite Hm in Hr.
  - intros [n Hn]. destruct (Nat.le_gt_cases n 1024) as [Hle|Hlt].
    + rewrite (tts_call c text f lang cuid options n w Hn Hle).
      destruct (synth_next w 0); [destruct (w_io w _)|..]; eauto.
    + rewrite (tts_long c text f lang cuid options n w Hn Hlt). eauto.
Qed.

(** On a text that encodes, every run of the loop ends with a value; it
    is [RetryStopped None] only when the loop body never ran. *)
Lemma retry_loop_returns k :
  is_Some (gbk_len text) -> forall a last w,
  exists ex, fst (retry_loop c text f lang options cuid a k last w) = Normal ex /\
    (ex = RetryStopped None -> k = 0%nat /\ last = None).
Proof.
  intros Hs. induction k as [|k IH]; intros a last w; cbn [retry_loop].
  { eexists. split; [reflexivity|]. by intros [= ->]. }
  destruct (proj2 (tts_normal_iff w) Hs) as [[b r] Hr]. unfold py_bind at 1.
  destruct (text_to_speech c text f lang options cuid w) as [[sr|e] w1];
    cbn [fst] in Hr; [injection Hr as ->|discriminate].
  destruct b; [eexists; split; [reflexivity | discriminate]|].
  destruct (is_retryable r); [|eexists; split; [reflexivity | discriminate]].
  unfold py_bind, print, sleep.
  destruct (IH (S a) (Some r) (log_sleep (2 ^ Z.of_nat a) (log_stdout (msg_retry a r (2 ^ Z.of_nat a)) w1)))
    as (ex & Hex & Hn).
  exists ex. split; [exact Hex|]. intros E. by destruct (Hn E) as [_ ?].
Qed.

(** On a text that does not encode, the first attempt raises out of the
    loop. *)
Lemma retry_loop_unencodable k a last w :
  gbk_len text = None -> exists e, fst (retry_loop c text f lang options cuid a (S k) last w) = Raised e.
Proof.
  intros Hg. destruct (tts_unencodable c text f lang cuid options w Hg) as [m Hm].
  cbn [retry_loop]. unfold py_bind at 1. rewrite Hm. eauto.
Qed.
End Returns.

(** C35: [text_to_speech_with_retry] terminates with a pair [(success,
    result)], whatever the provider answers, exactly when [max_retries] is
    positive and the text encodes in GBK; otherwise it raises
    [UnboundLocalError] (no attempt, [result] unbound) or the
    [UnicodeEncodeError] of the first attempt. *)
Theorem retry_returns `{GbkCodec} c text f max_retries lang options cuid w :
  (exists r, fst (text_to_speech_with_retry c text f max_retries lang options cuid w) = Normal r) <->
  0 < max_retries /\ is_Some (gbk_len text).
Proof.
  unfold text_to_speech_with_retry. split.
  - intros [r Hr]. destruct (Z.to_nat max_retries) as [|k] eqn:Ek.
    + cbn [retry_loop py_bind py_ret py_raise fst] in Hr. discriminate.
    + split; [lia|]. destruct (gbk_len text) eqn:Hg; [done|].
      destruct (retry_loop_unencodable c text f lang cuid options k 0 None w Hg) as [e He].
      unfold py_bind in Hr. destruct (retry_loop _ _ _ _ _ _ _ _ _ w) as [[ex|e'] w1];
        cbn [fst] in He, Hr; [discriminate He | discriminate Hr].
  - intros [Hm Hs].
    destruct (retry_loop_returns c text f lang cuid options (Z.to_nat max_retries) Hs 0 None w)
      as (ex & Hex & Hn).
    unfold py_bind. destruct (retry_loop _ _ _ _ _ _ _ _ _ w) as [[ex'|e] w1];
      cbn [fst] in Hex; [injection Hex as ->|discriminate].
    destruct ex as [r|[r|]]; [eauto | eauto |]. destruct (Hn eq_refl). lia.
Qed.

(** ** The request sent and the file written *)

Section Request.
Context `{G : GbkCodec}.
Context (c : BaiduTTS) (text f lang cuid : pystr) (options : option (gmap pystr jval)).

Lemma tts_logs_request n w :
    gbk_len text = Some n -> (n <= 1024)%nat ->
    w_synth_log (snd (text_to_speech c text f lang options cuid w)) =
    w_synth_log w ++ [tts_request c text lang options cuid].
  Proof.
    intros Hg Hn. rewrite (tts_call _ _ _ _ _ _ _ _ Hg Hn).
    by destruct (synth_next w 0); [destruct (w_io w _)|..].
  Qed.

(** C11: the provider gets the caller's options over the client's
    defaults, and [cuid] last; an empty options dict changes nothing. *)
Theorem tts_sends_merged_options n w :
    gbk_len text = Some n -> (n <= 1024)%nat ->
    exists opts,
      last (w_synth_log (snd (text_to_speech c text f lang options cuid w))) =
        Some (SynthRequest text lang 1 opts) /\
      forall k, opts !! k =
        if decide (k = key_cuid) then Some (JStr cuid)
        else match options with
             | Some o => o !! k ∪ default_options c !! k
             | None => default_options c !! k
             end.
  Proof.
    intros Hg Hn. rewrite (tts_logs_request n w Hg Hn), last_snoc. eexists. split; [done|].
    intros k. rewrite lookup_insert.
    destruct (decide (key_cuid = k)), (decide (k = key_cuid)); try congruence.
    unfold merge_options. destruct options as [o|]; [|done].
    case_bool_decide as Ho; [subst o; by rewrite lookup_empty, (left_id None union)|].
    by rewrite lookup_union.
  Qed.

(** C18: the write is not atomic: when [f.write] fails after [k]
    bytes, [text_to_speech] reports a failure and leaves a truncated file. *)
Theorem tts_partial_write n w b k m :
    gbk_len text = Some n -> (n <= 1024)%nat ->
    synth_next w 0 = AnsAudio b -> w_io w (w_io_count w) = IoWriteFails k m ->
    (k < length b)%nat ->
    let '(r, w') := text_to_speech c text f lang options cuid w in
    r = Normal (false, msg_exception (PyExc OSError m)) /\
    w_fs w' !! f = Some (take k b) /\ take k b <> b.
  Proof.
    intros Hg Hn Hb Hio Hk. rewrite (tts_call _ _ _ _ _ _ _ _ Hg Hn), Hb, Hio.
    simpl. split_and!; [done | by rewrite lookup_insert_eq |].
    intros Heq. apply (f_equal length) in Heq. rewrite length_take in Heq. lia.
  Qed.
End Request.

(** C20: the length check of [text_to_speech] is on GBK bytes: on a
    text that encodes to [n] bytes, the call answers the too-long message
    without touching the world exactly when [n > 1024]; otherwise the
    provider is called. *)
Theorem tts_length_guard `{GbkCodec} c text f lang options cuid n w :
  gbk_len text = Some n ->
  text_to_speech c text f lang options cuid w = (Normal (false, msg_too_long), w) <-> (1024 < n)%nat.
Proof.
  intros Hg. split; [|intros Hn; exact (tts_long c text f lang cuid options n w Hg Hn)].
  intros E. destruct (Nat.ltb_spec 1024 n) as [|Hn]; [done|]. exfalso.
  pose proof (tts_logs_request c text f lang cuid options n w Hg Hn) as Hl.
  rewrite E in Hl. cbn [snd] in Hl. apply (f_equal length) in Hl.
  rewrite length_app in Hl. cbn [length] in Hl. lia.
Qed.

(** [default_options] after [set_default_option]: the dead [if] of the
    source stores the value on both branches. *)
Lemma set_default_option_options c k v :
  default_options (set_default_option c k v) = <[k := v]> (default_options c).
Proof. unfold set_default_option. by case_bool_decide. Qed.

(** C28: setting a default with [set_default_option] and calling
    [text_to_speech] without options behaves, on every world, exactly like
    passing the same key and value as the call's [options]. *)
Theorem set_default_then_speak `{GbkCodec} c k v text f lang cuid w :
  text_to_speech (set_default_option c k v) text f lang None cuid w =
  text_to_speech c text f lang (Some {[k := v]}) cuid w.
Proof.
  assert (Hreq : tts_request (set_default_option c k v) text lang None cuid =
                 tts_request c text lang (Some {[k := v]}) cuid).
  { unfold tts_request, merge_options. rewrite set_default_option_options.
    rewrite bool_decide_eq_false_2 by apply map_non_empty_singleton.
    by rewrite (insert_union_singleton_l (default_options c) k v). }
  unfold text_to_speech. by rewrite Hreq.
Qed.

(** [text_to_speech] reports success only with the name of a file it has
    written the provider's audio to. *)
Lemma tts_success `{GbkCodec} c text f lang options cuid w r :
  fst (text_to_speech c text f lang options cuid w) = Normal (true, r) ->
  r = f /\ is_Some (w_fs (snd (text_to_speech c text f lang options cuid w)) !! f).
Proof.
  destruct (gbk_len text) as [n|] eqn:Hg.
  - destruct (Nat.ltb_spec 1024 n) as [Hn|Hn].
    + by rewrite (tts_long _ _ _ _ _ _ _ _ Hg Hn).
    + rewrite (tts_call _ _ _ _ _ _ _ _ Hg Hn).
      destruct (synth_next w 0); [destruct (w_io w _)|..]; simpl; try done.
      intros [= <-]. split; [done|]. rewrite lookup_insert_eq. eauto.
  - by destruct (tts_unencodable c text f lang cuid options w Hg) as [m ->].
Qed.

(** ** The interface the web application uses *)

(** What [app.py] calls on [tts_client]: the voice table and
    [text_to_speech] with the default language. *)
Class TtsEngine (C : Type) := {
  engine_voices : C -> gmap Z pystr;
  engine_speak : C -> pystr -> pystr -> pystr -> option (gmap pystr jval) -> pystr ->
                 pyW (bool * pystr)
}.

(** Its laws: a call touches only its output file, and reports success only
    after writing it. *)
Class TtsEngineLaws (C : Type) `{TtsEngine C} := {
  speak_frame : forall c text f lang o cuid w,
    tts_frame f w (snd (engine_speak c text f lang o cuid w));
  speak_success : forall c text f lang o cuid w r,
    fst (engine_speak c text f lang o cuid w) = Normal (true, r) ->
    r = f /\ is_Some (w_fs (snd (engine_speak c text f lang o cuid w)) !! f)
}.

#[export] Instance baidu_engine `{GbkCodec} : TtsEngine BaiduTTS := {
  engine_voices := get_supported_voices;
  engine_speak := text_to_speech
}.

#[export] Instance baidu_engine_laws `{GbkCodec} : TtsEngineLaws BaiduTTS.
Proof. split; [apply text_to_speech_frame | apply tts_success]. Qed.

(** ** Concrete runs *)

Definition client0 : BaiduTTS := BaiduTTS_init [] [] [].
(** The text of the design's end-to-end scenario. *)
Definition sample_text : pystr := Eval cbv in u8 "欢迎使用语音合成服务".
Definition out_file : pystr := Eval cbv in u8 "output.mp3".
Definition lang_zh : pystr := Eval cbv in u8 "zh".
Definition cuid0 : pystr := Eval cbv in u8 "python_tts_client".
Definition sample_audio : bytes := [Byte.x49; Byte.x44; Byte.x33; Byte.x04].
Definition busy_error : gmap pystr jval :=
  <[u8 "err_msg" := JStr (u8 "服务器忙，请稍后再试")]> (<[u8 "err_no" := JInt 3302]> ∅).
Definition param_error : gmap pystr jval :=
  <[u8 "err_msg" := JStr (u8 "parameter error.")]> (<[u8 "err_no" := JInt 500]> ∅).
(** A provider busy for the first [k] calls, then answering audio. *)
Definition busy_then_audio (k n : nat) : synth_answer :=
  if (n <? k)%nat then AnsError busy_error else AnsAudio sample_audio.
Definition world_busy (k : nat) : world :=
  mk_world (busy_then_audio k) (fun _ => IoOk) (fun _ => true) (MkDb [] []).

Lemma busy_prefix (k i : nat) :
  (i < k)%nat -> exists d, synth_next (world_busy k) i = AnsError d /\
                           is_retryable (error_result d) = true.
Proof.
  intros Hi. exists busy_error. split; [|by vm_compute].
  unfold synth_next, world_busy, mk_world, busy_then_audio. simpl.
  by rewrite (proj2 (Nat.ltb_lt i k) Hi).
Qed.

Lemma retry_transient_then_success_witness :
  exists w', text_to_speech_with_retry client0 sample_text out_file 3 lang_zh None cuid0
               (world_busy 2) = (Normal (true, out_file), w') /\
    length (w_synth_log w') = 3%nat /\ w_sleeps w' = [1; 2] /\
    w_fs w' !! out_file = Some sample_audio.
Proof.
  destruct (retry_transient_then_success (G := gbk_fragment) client0 sample_text out_file lang_zh cuid0 None 20
              ltac:(vm_compute; reflexivity) ltac:(lia) 3 2 (world_busy 2) sample_audio
              ltac:(vm_compute; lia) (busy_prefix 2) ltac:(vm_compute; reflexivity)
              ltac:(vm_compute; reflexivity)) as (w' & H1 & H2 & H3 & H4).
  exists w'. split_and!; [exact H1 | by rewrite H2 | by rewrite H3 | exact H4].
Defined.

Lemma retry_terminal_error_witness :
  text_to_speech_with_retry client0 sample_text out_file 3 lang_zh None cuid0
    (mk_world (fun _ => AnsError param_error) (fun _ => IoOk) (fun _ => true) (MkDb [] [])) =
  (Normal (false, msg_gave_up 3 (error_result param_error)),
   log_synth (tts_request client0 sample_text lang_zh None cuid0)
     (mk_world (fun _ => AnsError param_error) (fun _ => IoOk) (fun _ => true) (MkDb [] []))).
Proof.
  apply (retry_terminal_error (G := gbk_fragment) client0 sample_text out_file lang_zh cuid0 None 20);
    vm_compute; first [reflexivity | lia].
Defined.

Lemma retry_all_transient_witness :
  exists w' d, text_to_speech_with_retry client0 sample_text out_file 3 lang_zh None cuid0
                 (world_busy 3) = (Normal (false, msg_gave_up 3 (error_result d)), w') /\
    length (w_synth_log w') = 3%nat /\ w_sleeps w' = [1; 2; 4].
Proof.
  destruct (retry_all_transient (G := gbk_fragment) client0 sample_text out_file lang_zh cuid0 None 20
              ltac:(vm_compute; reflexivity) ltac:(lia) 3 (world_busy 3) ltac:(lia)
              (busy_prefix 3)) as (w' & d & H1 & H2 & H3).
  exists w', d. split_and!; [exact H1 | by rewrite H2 | by rewrite H3].
Defined.

Lemma retry_no_attempt_witness :
  exists m, text_to_speech_with_retry client0 sample_text out_file 0 lang_zh None cuid0
              (world_busy 0) = (Raised (PyExc UnboundLocalError m), world_busy 0).
Proof. apply retry_no_attempt. lia. Defined.

Lemma tts_sends_merged_options_witness :
  exists opts,
    last (w_synth_log (snd (text_to_speech client0 sample_text out_file lang_zh
            (Some (<[key_spd := JInt 3]> ∅)) cuid0 (world_busy 0)))) =
      Some (SynthRequest sample_text lang_zh 1 opts) /\
    forall k, opts !! k =
      if decide (k = key_cuid) then Some (JStr cuid0)
      else (<[key_spd := JInt 3]> (∅ : gmap pystr jval)) !! k ∪ default_options client0 !! k.
Proof.
  apply (tts_sends_merged_options (G := gbk_fragment) client0 sample_text out_file lang_zh cuid0
           (Some (<[key_spd := JInt 3]> ∅)) 20); vm_compute; [reflexivity | lia].
Defined.

Lemma tts_partial_write_witness :
  let '(r, w') := text_to_speech client0 sample_text out_file lang_zh None cuid0
    (mk_world (fun _ => AnsAudio sample_audio) (fun _ => IoWriteFails 2 (u8 "[Errno 28] No space left on device"))
       (fun _ => true) (MkDb [] [])) in
  r = Normal (false, msg_exception (PyExc OSError (u8 "[Errno 28] No space left on device"))) /\
  w_fs w' !! out_file = Some (take 2 sample_audio) /\ take 2 sample_audio <> sample_audio.
Proof.
  apply (tts_partial_write (G := gbk_fragment) client0 sample_text out_file lang_zh cuid0 None 20);
    vm_compute; try reflexivity; lia.
Defined.

(** 513 ideographs, 1026 GBK bytes: refused although the text has fewer
    than 1024 characters. *)
Lemma tts_length_guard_witness :
  text_to_speech client0 (replicate 513 35821) out_file lang_zh None cuid0 (world_busy 0) =
    (Normal (false, msg_too_long), world_busy 0) <-> (1024 < 1026)%nat.
Proof. apply (tts_length_guard (H := gbk_fragment)). vm_compute. reflexivity. Defined.
