(* ===== verification/App.v ===== *)
(** * App: the routes of [app.py] that make up the audio core

    Each route is a handler [pyW reply] over the shared world; the session's
    [user_id], the JSON body, the uuid drawn by [uuid.uuid4()] and the time
    [datetime.utcnow()] gives at the insert are its inputs.  An exception
    that escapes a handler becomes Flask's 500 page ([flask_dispatch]).
    The handlers are generic in the text-to-speech client through the
    class [TtsEngine] of [Client.v], whose laws are all their theorems use;
    the concrete runs instantiate it with [BaiduTTS].

    [serve] dispatches one request, and [app_step] is the step relation of
    the whole application, over which the invariants are proved. *)

From S2P Require Import Prelude Text History World Client.

(** ** Replies *)

(** What a view returns: [jsonify(...)] with its status, a file of
    [send_from_directory], Flask's 404 and 500 pages,
    [redirect(url_for(endpoint))] and [render_template(name, username=...)]. *)
Inductive reply :=
| RJson (status : Z) (body : list (pystr * jval))
| RFile (path : pystr) (data : bytes)
| RNotFound
| RServerError (e : exc)
| RRedirect (endpoint : pystr)
| RTemplate (name : pystr) (username : option pystr).

(** [jsonify({'success': False, 'message': msg})] *)
Definition jfail (msg : pystr) : list (pystr * jval) :=
  [(u8 "success", JBool false); (u8 "message", JStr msg)].

Definition jok (msg : pystr) : list (pystr * jval) :=
  [(u8 "success", JBool true); (u8 "message", JStr msg)].

(** Flask turns an exception escaping a view into a 500 response. *)
Definition flask_dispatch (h : pyW reply) (w : world) : reply * world :=
  match h w with
  | (Normal r, w') => (r, w')
  | (Raised e, w') => (RServerError e, w')
  end.

(** [app.config['UPLOAD_FOLDER']] and [os.path.join] *)
Definition upload_path (filename : pystr) : pystr := u8 "uploads/" ++ filename.

(** [url_for('download_audio', filename=filename)]; the generated names are
    hexadecimal and need no quoting. *)
Definition audio_url (filename : pystr) : pystr := u8 "/api/audio/" ++ filename.

Definition msg_not_logged_in : pystr := Eval cbv in u8 "未登录".
Definition msg_empty_text : pystr := Eval cbv in u8 "文本不能为空".
Definition msg_text_too_long : pystr := Eval cbv in u8 "文本长度超过1024字节限制".
Definition msg_forbidden : pystr := Eval cbv in u8 "文件不存在或无权访问".
Definition msg_no_record : pystr := Eval cbv in u8 "记录不存在".
Definition msg_tts_unconfigured : pystr :=
  Eval cbv in u8 "语音服务未配置，请在环境变量中设置BAIDU_APP_ID、BAIDU_API_KEY和BAIDU_SECRET_KEY".

(** ** [generate_audio] (lines 227-304) *)

(** [voices.get(voice, f'发音人{voice}')] for a hashable [voice]: a JSON
    integer or boolean is a key of the int-keyed dict ([True == 1]); other
    values miss. *)
Definition voice_name_of (voices : gmap Z pystr) (voice : jval) : pystr :=
  let fallback := u8 "发音人" ++ py_str voice in
  match voice with
  | JInt z => default fallback (voices !! z)
  | JBool b => default fallback (voices !! (if b then 1 else 0))
  | _ => fallback
  end.

(** A list or object is unhashable and [dict.get] raises [TypeError]. *)
Definition voice_lookup (voices : gmap Z pystr) (voice : jval) : pyW pystr :=
  match voice with
  | JArr _ => py_raise (PyExc TypeError (u8 "unhashable type: 'list'"))
  | JObj _ => py_raise (PyExc TypeError (u8 "unhashable type: 'dict'"))
  | _ => py_ret (voice_name_of voices voice)
  end.

Definition hashable (v : jval) : bool :=
  match v with JArr _ | JObj _ => false | _ => true end.

Lemma voice_lookup_hashable voices v w :
  hashable v = true -> voice_lookup voices v w = (Normal (voice_name_of voices v), w).
Proof. by destruct v. Qed.

(** [{'spd': speed, 'pit': pitch, 'vol': volume, 'per': voice}] *)
Definition speech_options (voice speed pitch volume : jval) : gmap pystr jval :=
  <[key_spd := speed]> (<[key_pit := pitch]> (<[key_vol := volume]> (<[key_per := voice]> ∅))).

(** [f'user_{session["user_id"]}'] *)
Definition user_cuid (uid : Z) : pystr := u8 "user_" ++ py_int_str uid.

(** [f"{uuid.uuid4().hex}.mp3"] *)
Definition audio_filename (uuid_hex : pystr) : pystr := uuid_hex ++ u8 ".mp3".

(** The fields [generate_audio] reads from the JSON body, with their
    defaults. *)
Definition req_voice (data : gmap pystr jval) : jval := dict_get data (u8 "voice") (JInt 0).
Definition req_speed (data : gmap pystr jval) : jval := dict_get data (u8 "speed") (JInt 5).
Definition req_pitch (data : gmap pystr jval) : jval := dict_get data (u8 "pitch") (JInt 5).
Definition req_volume (data : gmap pystr jval) : jval := dict_get data (u8 "volume") (JInt 5).

(** The row [AudioHistory(...)] before SQLite gives it an id. *)
Definition new_history_row (uid : Z) (text filename : pystr)
    (voice : jval) (voice_name : pystr) (speed pitch volume : jval) (now : datetime)
  : AudioHistory :=
  MkAudioHistory 0 uid text filename voice voice_name speed pitch volume now.

Definition insert_history (r : AudioHistory) (d : db) : db :=
  MkDb (db_users d) (table_insert r (db_audio d)).

Section Handlers.
Context `{G : GbkCodec} {C : Type} `{E : TtsEngine C}.

Definition generate_audio (tts_client : option C) (session : option Z)
      (data : gmap pystr jval) (uuid_hex : pystr) (now : datetime) : pyW reply :=
    match session with
    | None => py_ret (RJson 401 (jfail msg_not_logged_in))
    | Some uid =>
    match tts_client with
    | None => py_ret (RJson 500 (jfail msg_tts_unconfigured))
    | Some tts =>
    match dict_get data (u8 "text") (JStr []) with
    | JStr raw =>
        let text := py_strip raw in
        let voice := req_voice data in
        let speed := req_speed data in
        let pitch := req_pitch data in
        let volume := req_volume data in
        if bool_decide (text = []) then py_ret (RJson 400 (jfail msg_empty_text)) else
        byte_length <- encode_gbk_len text;;
        if (1024 <? byte_length)%nat then py_ret (RJson 400 (jfail msg_text_too_long)) else
        py_try
          (let filename := audio_filename uuid_hex in
           let filepath := upload_path filename in
           voice_name <- voice_lookup (engine_voices tts) voice;;
           let options := speech_options voice speed pitch volume in
           sr <- engine_speak tts text filepath (u8 "zh") (Some options) (user_cuid uid);;
           let '(success, result) := sr in
           if success then
             db_commit (insert_history
               (new_history_row uid text filename voice voice_name speed pitch volume now));;
             py_ret (RJson 200 (jok (u8 "生成成功") ++
                                [(u8 "audio_url", JStr (audio_url filename));
                                 (u8 "filename", JStr filename)]))
           else py_ret (RJson 500 (jfail result)))
          (fun e => py_ret (RJson 500 (jfail (u8 "生成失败: " ++ exc_msg e))))
    | JNull => py_raise (PyExc AttributeError (u8 "'NoneType' object has no attribute 'strip'"))
    | JBool _ => py_raise (PyExc AttributeError (u8 "'bool' object has no attribute 'strip'"))
    | JInt _ => py_raise (PyExc AttributeError (u8 "'int' object has no attribute 'strip'"))
    | JArr _ => py_raise (PyExc AttributeError (u8 "'list' object has no attribute 'strip'"))
    | JObj _ => py_raise (PyExc AttributeError (u8 "'dict' object has no attribute 'strip'"))
    end
    end
    end.
End Handlers.

(** ** [download_audio] (lines 307-318) *)

Definition download_audio (session : option Z) (filename : pystr) : pyW reply :=
  fun w =>
    match session with
    | None => (Normal (RJson 401 (jfail msg_not_logged_in)), w)
    | Some uid =>
        match find_by_filename (db_audio (w_db w)) filename uid with
        | None => (Normal (RJson 403 (jfail msg_forbidden)), w)
        | Some _ =>
            match w_fs w !! upload_path filename with
            | Some b => (Normal (RFile (upload_path filename) b), w)
            | None => (Normal RNotFound, w)
            end
        end
    end.

(** ** [history] (lines 321-350) *)

Inductive method := GET | POST | DELETE.

(** [AudioHistory.to_dict()] (lines 66-78) *)
Definition to_dict (r : AudioHistory) : jval :=
  JObj [(u8 "id", JInt (ah_id r)); (u8 "text", JStr (ah_text r));
        (u8 "filename", JStr (ah_filename r));
        (u8 "audio_url", JStr (audio_url (ah_filename r)));
        (u8 "voice_id", ah_voice_id r); (u8 "voice_name", JStr (ah_voice_name r));
        (u8 "speed", ah_speed r); (u8 "pitch", ah_pitch r); (u8 "volume", ah_volume r);
        (u8 "created_at", JStr (dt_format (ah_created_at r)))].

Definition clear_history (uid : Z) (d : db) : db :=
  MkDb (db_users d) (delete_by_user uid (db_audio d)).

Definition history (session : option Z) (m : method) : pyW reply :=
  match session with
  | None => py_ret (RJson 401 (jfail msg_not_logged_in))
  | Some uid =>
      match m with
      | GET =>
          fun w => (Normal (RJson 200
            [(u8 "success", JBool true);
             (u8 "history", JArr (map to_dict (list_recent uid (db_audio (w_db w)))))]), w)
      | POST => py_ret (RJson 200 (jok (u8 "已保存")))
      | DELETE =>
          py_try (db_commit (clear_history uid);; py_ret (RJson 200 (jok (u8 "历史记录已清空"))))
                 (fun e => py_ret (RJson 500 (jfail (u8 "清空失败: " ++ exc_msg e))))
      end
  end.

(** ** [delete_history_item] (lines 353-376) *)

Definition delete_row (i : Z) (d : db) : db := MkDb (db_users d) (table_delete i (db_audio d)).

Definition delete_history_item (session : option Z) (history_id : Z) : pyW reply :=
  match session with
  | None => py_ret (RJson 401 (jfail msg_not_logged_in))
  | Some uid =>
      fun w =>
        match find_by_id (db_audio (w_db w)) history_id uid with
        | None => (Normal (RJson 404 (jfail msg_no_record)), w)
        | Some audio =>
            py_try
              (let filepath := upload_path (ah_filename audio) in
               ex <- path_exists filepath;;
               (if ex then remove_file filepath else py_ret tt);;
               db_commit (delete_row (ah_id audio));;
               py_ret (RJson 200 (jok (u8 "删除成功"))))
              (fun e => py_ret (RJson 500 (jfail (u8 "删除失败: " ++ exc_msg e)))) w
        end
  end.

(** ** The application as a state machine *)

Inductive request :=
| ReqGenerate (data : gmap pystr jval) (uuid_hex : pystr) (now : datetime)
| ReqDownload (filename : pystr)
| ReqHistory (m : method)
| ReqDeleteItem (history_id : Z).

Section Serve.
Context `{G : GbkCodec} {C : Type} `{E : TtsEngine C}.

(** One request of the session [session], through Flask. *)
Definition serve (tts_client : option C) (session : option Z) (rq : request)
    : world -> reply * world :=
    flask_dispatch
      match rq with
      | ReqGenerate data uuid_hex now => generate_audio tts_client session data uuid_hex now
      | ReqDownload filename => download_audio session filename
      | ReqHistory m => history session m
      | ReqDeleteItem i => delete_history_item session i
      end.

Inductive app_step (tts_client : option C) : world -> world -> Prop :=
  | AppStep session rq w : app_step tts_client w (snd (serve tts_client session rq w)).

Definition reachable (tts_client : option C) : world -> world -> Prop :=
    rtc (app_step tts_client).
End Serve.

(** A JSON reply carries a boolean [success] field, [True] exactly when
    the status is 200: the contract the pages' scripts rely on. *)
Definition json_ok (r : reply) : Prop :=
  match r with
  | RJson code kvs => jobj_lookup (u8 "success") kvs = Some (JBool (code =? 200))
  | _ => True
  end.

(** ** [generate_audio] *)

Section Generate.
Context `{G : GbkCodec} {C : Type} `{E : TtsEngine C} `{L : @TtsEngineLaws C E}.
Context (tts : C) (uid : Z) (data : gmap pystr jval) (uuid_hex : pystr) (now : datetime).
Context (raw : pystr) (Htext : dict_get data (u8 "text") (JStr []) = JStr raw).

Let gen := serve (Some tts) (Some uid) (ReqGenerate data uuid_hex now).

(** C2: a text that is empty after [strip()] or longer than 1024
    GBK bytes is refused with 400 before any other effect: the provider is
    not called and nothing is stored. *)
Theorem generate_validation w :
    (py_strip raw = [] -> gen w = (RJson 400 (jfail msg_empty_text), w)) /\
    (forall n, gbk_len (py_strip raw) = Some n -> (1024 < n)%nat ->
       gen w = (RJson 400 (jfail msg_text_too_long), w)).
  Proof.
    unfold gen, serve, flask_dispatch, generate_audio. rewrite Htext. split.
    - intros Hs. rewrite Hs. done.
    - intros n Hg Hn. destruct (py_strip raw) as [|c s] eqn:Hs; [simpl in Hg; simplify_eq; lia|].
      rewrite bool_decide_eq_false_2 by done.
      rewrite (py_bind_normal _ _ _ _ _ (encode_gbk_len_ok _ _ w Hg)).
      by rewrite (proj2 (Nat.ltb_lt _ _) Hn).
  Qed.

(** C21: a text made only of CPython's white space is refused as empty,
    with 400 and no other effect; a text holding any other character
    passes the empty check, whatever happens next. *)
Theorem generate_blank_text w :
    (Forall (fun c => In c cpython_whitespace) raw -> gen w = (RJson 400 (jfail msg_empty_text), w)) /\
    (Exists (fun c => ~ In c cpython_whitespace) raw -> fst (gen w) <> RJson 400 (jfail msg_empty_text)).
  Proof.
    unfold gen, serve, flask_dispatch, generate_audio. rewrite Htext. split.
    - intros Hall. apply all_space_spec, py_strip_nil_iff in Hall. by rewrite Hall.
    - intros Hex. assert (Hs : py_strip raw <> []).
      { rewrite py_strip_nil_iff, all_space_spec, Forall_forall. intros Hall.
        apply Exists_exists in Hex as (c & Hc & Hn). by apply Hn, Hall. }
      rewrite bool_decide_eq_false_2 by done.
      match goal with |- context [match ?m w with _ => _ end] =>
        assert (Hp : py_post (fun r => r <> RJson 400 (jfail msg_empty_text)) m)
          by (post_auto; let E := fresh in intros E; vm_compute in E; discriminate E);
        specialize (Hp w); destruct (m w) as [[r|e] w']; cbn [fst]; [exact Hp | discriminate]
      end.
  Qed.

(** C19: a text with a character GBK cannot encode makes [text.encode('gbk')]
    raise outside the handler's [try]: Flask answers with its 500 error page
    instead of a JSON failure, before any other effect. *)
Theorem generate_unencodable w :
    py_strip raw <> [] -> gbk_len (py_strip raw) = None ->
    exists m, gen w = (RServerError (PyExc UnicodeEncodeError m), w).
  Proof.
    intros Hs Hg. unfold gen, serve, flask_dispatch, generate_audio. rewrite Htext.
    rewrite bool_decide_eq_false_2 by done.
    unfold encode_gbk_len. rewrite Hg. py_unfold.
    destruct (gbk_bad_pos _) as [[i c]|]; eauto.
  Qed.

(** The call of the client made by [generate_audio]. *)
Definition generate_call : pyW (bool * pystr) :=
    engine_speak tts (py_strip raw) (upload_path (audio_filename uuid_hex)) (u8 "zh")
      (Some (speech_options (req_voice data) (req_speed data) (req_pitch data) (req_volume data)))
      (user_cuid uid).

(** The row [generate_audio] inserts. *)
Definition generated_row : AudioHistory :=
    new_history_row uid (py_strip raw) (audio_filename uuid_hex) (req_voice data)
      (voice_name_of (engine_voices tts) (req_voice data))
      (req_speed data) (req_pitch data) (req_volume data) now.

Definition generate_ok_body : list (pystr * jval) :=
    jok (u8 "生成成功") ++ [(u8 "audio_url", JStr (audio_url (audio_filename uuid_hex)));
                           (u8 "filename", JStr (audio_filename uuid_hex))].

(** Past validation, the handler calls the client once and inserts the row
    only when the client reports success. *)
Lemma generate_body w n :
    py_strip raw <> [] -> gbk_len (py_strip raw) = Some n -> (n <= 1024)%nat ->
    hashable (req_voice data) = true ->
    gen w =
    match generate_call w with
    | (Normal (true, _), w1) =>
        match db_commit (insert_history generated_row) w1 with
        | (Normal _, w2) => (RJson 200 generate_ok_body, w2)
        | (Raised e, w2) => (RJson 500 (jfail (u8 "生成失败: " ++ exc_msg e)), w2)
        end
    | (Normal (false, result), w1) => (RJson 500 (jfail result), w1)
    | (Raised e, w1) => (RJson 500 (jfail (u8 "生成失败: " ++ exc_msg e)), w1)
    end.
  Proof.
    intros Hs Hg Hn Hh. unfold gen, serve, flask_dispatch, generate_audio. rewrite Htext.
    rewrite bool_decide_eq_false_2 by done.
    rewrite (py_bind_normal _ _ _ _ _ (encode_gbk_len_ok _ _ w Hg)).
    rewrite (proj2 (Nat.ltb_ge _ n)) by lia. unfold py_try.
    rewrite (py_bind_normal _ _ _ _ _ (voice_lookup_hashable _ _ w Hh)).
    unfold py_bind, generate_call. destruct (engine_speak _ _ _ _ _ _ w) as [[[[|] res]|e] w1]; [|done..].
    unfold generated_row. by destruct (db_commit _ w1) as [[]].
  Qed.

(** The run of a request whose call and commit succeed. *)
Lemma generate_success_run w n r :
    py_strip raw <> [] -> gbk_len (py_strip raw) = Some n -> (n <= 1024)%nat ->
    hashable (req_voice data) = true ->
    fst (generate_call w) = Normal (true, r) -> w_commit_ok w (w_commit_count w) = true ->
    exists w', gen w = (RJson 200 generate_ok_body, w') /\
      db_audio (w_db w') = table_insert generated_row (db_audio (w_db w)) /\
      is_Some (w_fs w' !! upload_path (audio_filename uuid_hex)).
  Proof.
    intros Hs Hg Hn Hh Hsp Hc. rewrite (generate_body w n Hs Hg Hn Hh). unfold generate_call in *.
    pose proof (speak_frame tts (py_strip raw) (upload_path (audio_filename uuid_hex)) (u8 "zh")
      (Some (speech_options (req_voice data) (req_speed data) (req_pitch data) (req_volume data)))
      (user_cuid uid) w) as (_ & _ & Hdb & Hcc & Hco & _).
    pose proof (speak_success _ _ _ _ _ _ _ _ Hsp) as [_ Hf]. unfold generate_call in Hsp.
    destruct (engine_speak _ _ _ _ _ _ w) as [res w1]. simpl in *. subst res.
    unfold db_commit. rewrite Hcc, Hco, Hc. eexists. split_and!; [done | | done].
    simpl. by rewrite Hdb.
  Qed.

(** C1: when the client reports success and the commit goes
    through, the reply carries the file name, the table gains exactly the
    row of the request under the next rowid, and the file exists. *)
Theorem generate_success w n r :
    py_strip raw <> [] -> gbk_len (py_strip raw) = Some n -> (n <= 1024)%nat ->
    hashable (req_voice data) = true ->
    fst (generate_call w) = Normal (true, r) -> w_commit_ok w (w_commit_count w) = true ->
    exists w', gen w = (RJson 200 generate_ok_body, w') /\
      db_audio (w_db w') = table_insert generated_row (db_audio (w_db w)) /\
      is_Some (w_fs w' !! upload_path (audio_filename uuid_hex)).
  Proof. apply generate_success_run. Qed.

(** C13: when the commit fails after the client wrote the file, the
    handler answers 500 and leaves the file with no row pointing to it; no
    compensating delete is attempted. *)
Theorem generate_commit_failure_orphan w n r :
    py_strip raw <> [] -> gbk_len (py_strip raw) = Some n -> (n <= 1024)%nat ->
    hashable (req_voice data) = true ->
    fst (generate_call w) = Normal (true, r) -> w_commit_ok w (w_commit_count w) = false ->
    exists w' m, gen w = (RJson 500 (jfail (u8 "生成失败: " ++ m)), w') /\
      w_db w' = w_db w /\
      is_Some (w_fs w' !! upload_path (audio_filename uuid_hex)).
  Proof.
    intros Hs Hg Hn Hh Hsp Hc. rewrite (generate_body w n Hs Hg Hn Hh). unfold generate_call in *.
    pose proof (speak_frame tts (py_strip raw) (upload_path (audio_filename uuid_hex)) (u8 "zh")
      (Some (speech_options (req_voice data) (req_speed data) (req_pitch data) (req_volume data)))
      (user_cuid uid) w) as (_ & _ & Hdb & Hcc & Hco & _).
    pose proof (speak_success _ _ _ _ _ _ _ _ Hsp) as [_ Hf]. unfold generate_call in Hsp.
    destruct (engine_speak _ _ _ _ _ _ w) as [res w1]. simpl in *. subst res.
    unfold db_commit. rewrite Hcc, Hco, Hc. do 2 eexists. split_and!; [done | done | done].
  Qed.
End Generate.

(** ** Downloads and deletions *)

Section Routes.
Context `{G : GbkCodec} {C : Type} `{E : TtsEngine C}.
Context (tts_client : option C) (uid : Z).

(** C8: when no row of the table has the file name [f] and the user's
    id, the download answers 403 and leaves the world unchanged, with the
    same message whether the file belongs to someone else or does not
    exist: rows of other users with that name are never served. *)
Theorem download_not_owned f w :
    (forall r, r ∈ db_audio (w_db w) -> ah_filename r = f -> ah_user_id r <> uid) ->
    serve tts_client (Some uid) (ReqDownload f) w = (RJson 403 (jfail msg_forbidden), w).
  Proof.
    intros Hno. unfold serve, flask_dispatch, download_audio.
    by rewrite (proj2 (find_by_filename_None _ _ _) Hno).
  Qed.

Lemma download_owned f w r :
    find_by_filename (db_audio (w_db w)) f uid = Some r ->
    serve tts_client (Some uid) (ReqDownload f) w =
    (match w_fs w !! upload_path f with
     | Some b => RFile (upload_path f) b
     | None => RNotFound
     end, w).
  Proof.
    intros Hf. unfold serve, flask_dispatch, download_audio. rewrite Hf.
    by destruct (w_fs w !! upload_path f).
  Qed.

(** Deleting a record the user does not own is answered like deleting a
    record that does not exist. *)
Lemma delete_item_not_owned i w :
    find_by_id (db_audio (w_db w)) i uid = None ->
    serve tts_client (Some uid) (ReqDeleteItem i) w = (RJson 404 (jfail msg_no_record), w).
  Proof. intros Hf. unfold serve, flask_dispatch, delete_history_item. by rewrite Hf. Qed.

(** C14: clearing the history deletes the user's rows and nothing
    else, but removes none of their files. *)
Theorem clear_history_keeps_files w :
    w_commit_ok w (w_commit_count w) = true ->
    exists w', serve tts_client (Some uid) (ReqHistory DELETE) w =
                 (RJson 200 (jok (u8 "历史记录已清空")), w') /\
      db_audio (w_db w') = delete_by_user uid (db_audio (w_db w)) /\
      rows_of uid (db_audio (w_db w')) = [] /\
      w_fs w' = w_fs w.
  Proof.
    intros Hc. unfold serve, flask_dispatch, history, py_try, py_bind, db_commit.
    rewrite Hc. eexists. split_and!; [done | done | | done].
    simpl. unfold rows_of, delete_by_user. induction (db_audio (w_db w)) as [|r t IH]; [done|].
    simpl. destruct (ah_user_id r =? uid) eqn:Hu; simpl; [done|]. by rewrite Hu.
  Qed.

(** The file operations of [delete_history_item] once the row is found. *)
Lemma delete_item_found i w a :
    find_by_id (db_audio (w_db w)) i uid = Some a ->
    is_Some (w_fs w !! upload_path (ah_filename a)) -> w_io w (w_io_count w) = IoOk ->
    serve tts_client (Some uid) (ReqDeleteItem i) w =
    let w1 := with_fs (delete (upload_path (ah_filename a)) (w_fs w)) (tick_io w) in
    if w_commit_ok w (w_commit_count w)
    then (RJson 200 (jok (u8 "删除成功")), with_db (delete_row (ah_id a) (w_db w)) (tick_commit w1))
    else (RJson 500 (jfail (u8 "删除失败: " ++ u8 "(sqlite3.OperationalError) database is locked")),
          tick_commit w1).
  Proof.
    intros Hf [b Hb] Hio. unfold serve, flask_dispatch, delete_history_item. rewrite Hf.
    unfold py_try, py_bind, path_exists. rewrite bool_decide_eq_true_2 by (rewrite Hb; eauto).
    unfold remove_file. rewrite Hb, Hio. unfold db_commit. simpl.
    by destruct (w_commit_ok w (w_commit_count w)).
  Qed.

(** C15: when the commit of a deletion fails, the file is already
    gone while the row stays: a record now names a missing file. *)
Theorem delete_item_commit_failure_dangling i w a :
    find_by_id (db_audio (w_db w)) i uid = Some a ->
    is_Some (w_fs w !! upload_path (ah_filename a)) -> w_io w (w_io_count w) = IoOk ->
    w_commit_ok w (w_commit_count w) = false ->
    let w' := snd (serve tts_client (Some uid) (ReqDeleteItem i) w) in
    find_by_id (db_audio (w_db w')) i uid = Some a /\
    w_fs w' !! upload_path (ah_filename a) = None.
  Proof.
    intros Hf Hex Hio Hc. rewrite (delete_item_found i w a Hf Hex Hio), Hc. simpl.
    split; [done | apply lookup_delete_eq].
  Qed.
End Routes.

(** ** Round trips: what a generation leaves for the other routes *)

Section RoundTrips.
Context `{G : GbkCodec} {C : Type} `{E : TtsEngine C} `{L : @TtsEngineLaws C E}.
Context (tts : C) (uid : Z) (data : gmap pystr jval) (uuid_hex : pystr) (now : datetime).
Context (raw : pystr) (Htext : dict_get data (u8 "text") (JStr []) = JStr raw).

Let gen := serve (Some tts) (Some uid) (ReqGenerate data uuid_hex now).

(** C37: after a generation whose call and commit succeed, the owner
    downloads the file the reply names and gets the bytes the client
    wrote under [uploads/]. *)
Theorem generate_then_download w n r :
    py_strip raw <> [] -> gbk_len (py_strip raw) = Some n -> (n <= 1024)%nat ->
    hashable (req_voice data) = true ->
    fst (generate_call tts uid data uuid_hex raw w) = Normal (true, r) ->
    w_commit_ok w (w_commit_count w) = true ->
    exists w' b, gen w = (RJson 200 (generate_ok_body uuid_hex), w') /\
      w_fs w' !! upload_path (audio_filename uuid_hex) = Some b /\
      serve (Some tts) (Some uid) (ReqDownload (audio_filename uuid_hex)) w' =
        (RFile (upload_path (audio_filename uuid_hex)) b, w').
  Proof.
    intros Hs Hg Hn Hh Hc Hok.
    destruct (generate_success_run tts uid data uuid_hex now raw Htext w n r Hs Hg Hn Hh Hc Hok)
      as (w' & Hgen & Hdb & [b Hb]).
    exists w', b. split_and!; [done | done |].
    destruct (find_by_filename_insert (db_audio (w_db w)) (generated_row tts uid data uuid_hex now raw)
                (audio_filename uuid_hex) uid eq_refl eq_refl)
      as [x Hx].
    rewrite <- Hdb in Hx. by rewrite (download_owned (Some tts) uid _ w' x Hx), Hb.
  Qed.

(** C38: after such a generation, when the request's time is later than
    every row of the user, the history page lists the new row first, with
    the rowid the insert gave it. *)
Theorem generate_then_history w n r :
    py_strip raw <> [] -> gbk_len (py_strip raw) = Some n -> (n <= 1024)%nat ->
    hashable (req_voice data) = true ->
    fst (generate_call tts uid data uuid_hex raw w) = Normal (true, r) ->
    w_commit_ok w (w_commit_count w) = true ->
    Forall (fun y => dt_ltb (ah_created_at y) now = true) (rows_of uid (db_audio (w_db w))) ->
    exists w' rest, gen w = (RJson 200 (generate_ok_body uuid_hex), w') /\
      serve (Some tts) (Some uid) (ReqHistory GET) w' =
      (RJson 200 [(u8 "success", JBool true);
                  (u8 "history", JArr (to_dict (set_ah_id (next_rowid (db_audio (w_db w)))
                                   (generated_row tts uid data uuid_hex now raw)) :: rest))], w').
  Proof.
    intros Hs Hg Hn Hh Hc Hok Hnew.
    destruct (generate_success_run tts uid data uuid_hex now raw Htext w n r Hs Hg Hn Hh Hc Hok)
      as (w' & Hgen & Hdb & _).
    destruct (sort_desc_newest _ (set_ah_id (next_rowid (db_audio (w_db w)))
                                   (generated_row tts uid data uuid_hex now raw)) Hnew) as [rest Hr].
    exists w', (map to_dict (take (history_limit - 1) rest)). split; [done|].
    unfold serve, flask_dispatch, history. cbv beta iota. unfold list_recent.
    rewrite Hdb, rows_of_insert_self, Hr by done. reflexivity.
  Qed.
End RoundTrips.

(** ** What a request can do to the database *)

(** The changes one request of user [u] may make to the database: none,
    inserting a row of [u], clearing [u]'s rows, or deleting one row of
    [u] found by id. *)
Definition db_effect (u : Z) (d d' : db) : Prop :=
  db_users d' = db_users d /\
  (db_audio d' = db_audio d \/
   (exists r, ah_user_id r = u /\ db_audio d' = table_insert r (db_audio d)) \/
   db_audio d' = delete_by_user u (db_audio d) \/
   (exists a, find_by_id (db_audio d) (ah_id a) u = Some a /\
              db_audio d' = table_delete (ah_id a) (db_audio d))).

Definition inserts_for (u : Z) (d d' : db) : Prop :=
  d' = d \/ exists r, ah_user_id r = u /\ d' = insert_history r d.

Lemma voice_lookup_db_pure voices v : db_pure (voice_lookup voices v).
Proof. by destruct v. Qed.

Lemma flask_dispatch_world h w : snd (flask_dispatch h w) = snd (h w).
Proof. unfold flask_dispatch. by destruct (h w) as [[]]. Qed.

#[export] Hint Resolve voice_lookup_db_pure : tts.

Section Effects.
Context `{G : GbkCodec} {C : Type} `{E : TtsEngine C} `{L : @TtsEngineLaws C E}.

Lemma speak_db_pure tts text f lang o cuid : db_pure (engine_speak tts text f lang o cuid).
  Proof. intros w. apply (speak_frame tts text f lang o cuid w). Qed.

Hint Resolve speak_db_pure : tts.

(** Close a branch that leaves the database alone. *)
Ltac pure_step Hr := apply (db_pure_rel _ Hr); solve [auto with tts].

Lemma generate_db_rel tts_client u data uuid_hex now :
    db_rel (inserts_for u) (generate_audio tts_client (Some u) data uuid_hex now).
  Proof.
    assert (Hr : forall d, inserts_for u d d) by (by left).
    unfold generate_audio. destruct tts_client as [tts|]; [|pure_step Hr].
    destruct (dict_get data _ _) as [| | |raw| |]; try pure_step Hr.
    cbv zeta. case_bool_decide; [pure_step Hr|].
    apply (db_rel_bind_l _ Hr); [auto with tts|]. intros n.
    case_match; [pure_step Hr|].
    apply db_rel_try; [|auto with tts].
    apply (db_rel_bind_l _ Hr); [auto with tts|]. intros vn.
    apply (db_rel_bind_l _ Hr); [auto with tts|]. intros [[|] res]; [|pure_step Hr].
    apply db_rel_bind_r; [|auto with tts].
    apply (db_rel_commit _ Hr). intros d. right. eexists; split; [|reflexivity]; reflexivity.
  Qed.

Lemma serve_no_session tts_client rq w :
    w_db (snd (serve tts_client None rq w)) = w_db w.
  Proof. unfold serve. rewrite flask_dispatch_world. by destruct rq as [| |[]|]. Qed.

(** No audio route writes the [User] table. *)
Lemma serve_users tts_client s rq w :
    db_users (w_db (snd (serve tts_client s rq w))) = db_users (w_db w).
  Proof.
    destruct s as [u|]; [|by rewrite serve_no_session].
    unfold serve. rewrite flask_dispatch_world. destruct rq as [data h now|f|m|i].
    - by destruct (generate_db_rel tts_client u data h now w) as [-> | (r & _ & ->)].
    - unfold download_audio. by repeat case_match.
    - destruct m; [done | done |]. unfold history, py_try, py_bind, db_commit.
      by destruct (w_commit_ok w _).
    - unfold delete_history_item, py_try, py_bind, path_exists, remove_file, db_commit, py_ret.
      repeat case_match; simplify_eq; done.
  Qed.

(** A request of user [u] changes the database by one of the
    operations of the history repository, scoped to [u]. *)
Theorem serve_db_effect tts_client u rq w :
    db_effect u (w_db w) (w_db (snd (serve tts_client (Some u) rq w))).
  Proof.
    unfold serve. rewrite flask_dispatch_world. destruct rq as [data h now|f|m|i].
    - destruct (generate_db_rel tts_client u data h now w) as [-> | (r & Hu & ->)].
      + split; [done | by left].
      + split; [done|]. right; left. by exists r.
    - assert (Hd : db_pure (download_audio (Some u) f))
        by (intros w'; unfold download_audio; by repeat case_match).
      rewrite Hd. split; [done | by left].
    - destruct m; simpl; try (split; [done | by left]).
      unfold py_try, py_bind, db_commit.
      destruct (w_commit_ok w _); simpl; split; try done; [right; right; by left | by left].
    - unfold delete_history_item. cbv beta.
      destruct (find_by_id (db_audio (w_db w)) i u) as [a|] eqn:Hf; [|split; [done | by left]].
      cbv iota.
      pose proof (find_by_id_Some _ _ _ _ Hf) as (_ & Hi & _). subst i.
      assert (Hrel : db_rel (fun d d' => d' = d \/ d' = delete_row (ah_id a) d)
        (py_try (ex <- path_exists (upload_path (ah_filename a));;
                 (if ex then remove_file (upload_path (ah_filename a)) else py_ret tt);;
                 db_commit (delete_row (ah_id a));; py_ret (RJson 200 (jok (u8 "删除成功"))))
                (fun e => py_ret (RJson 500 (jfail (u8 "删除失败: " ++ exc_msg e)))))).
      { assert (Hr : forall d : db, d = d \/ d = delete_row (ah_id a) d) by (by left).
        apply db_rel_try; [|auto with tts].
        apply (db_rel_bind_l _ Hr); [auto with tts|]. intros ex.
        apply (db_rel_bind_l _ Hr); [destruct ex; auto with tts|]. intros _.
        apply db_rel_bind_r; [|auto with tts]. apply (db_rel_commit _ Hr). by right. }
      destruct (Hrel w) as [-> | ->]; (split; [done|]); [by left | right; right; right; by exists a].
  Qed.
End Effects.

(** ** The shape of the replies *)

Lemma json_ok_fail code msg : code <> 200 -> json_ok (RJson code (jfail msg)).
Proof. intros Hc. unfold json_ok. rewrite (proj2 (Z.eqb_neq _ _) Hc). reflexivity. Qed.

Lemma json_ok_ok msg extra :
  jobj_lookup (u8 "success") extra = None -> json_ok (RJson 200 (jok msg ++ extra)).
Proof. intros He. unfold json_ok. rewrite jobj_lookup_app, He. reflexivity. Qed.

Lemma json_ok_jok msg : json_ok (RJson 200 (jok msg)).
Proof. rewrite <- (app_nil_r (jok msg)). by apply json_ok_ok. Qed.

#[export] Hint Resolve json_ok_jok : py_post.

(** Close the leaves of [post_auto] on a handler's replies. *)
Ltac json_leaf :=
  first [ exact I | apply json_ok_jok | apply json_ok_fail; discriminate
        | apply json_ok_ok; reflexivity | reflexivity ].

Ltac json_post := post_auto; try json_leaf.

Section Shape.
Context `{G : GbkCodec} {C : Type} `{E : TtsEngine C}.

Lemma generate_json_ok tts_client s data uuid_hex now :
  py_post json_ok (generate_audio tts_client s data uuid_hex now).
Proof. unfold generate_audio. json_post. Qed.

Lemma history_json_ok s m : py_post json_ok (history s m).
Proof. unfold history. json_post. intros w. cbn [fst]. reflexivity. Qed.

Lemma delete_item_json_ok s i : py_post json_ok (delete_history_item s i).
Proof.
  unfold delete_history_item. destruct s as [uid|]; [|json_post]. intros w.
  cbv beta. match goal with |- context [match ?x with Some _ => _ | None => _ end] => destruct x end;
    [|json_leaf].
  match goal with |- context [py_try ?m ?h ?w] =>
    assert (Hp : py_post json_ok (py_try m h)) by json_post; exact (Hp w) end.
Qed.

Lemma download_json_ok s f : py_post json_ok (download_audio s f).
Proof.
  intros w. unfold download_audio. destruct s as [uid|]; [|json_leaf].
  match goal with |- context [match ?x with Some _ => _ | None => _ end] => destruct x end;
    [|json_leaf]. destruct (w_fs w !! _); json_leaf.
Qed.

Lemma flask_dispatch_json_ok h w : py_post json_ok h -> json_ok (fst (flask_dispatch h w)).
Proof. intros Hh. specialize (Hh w). unfold flask_dispatch. by destruct (h w) as [[r|e] w']. Qed.

Lemma serve_json_ok tts_client s rq w : json_ok (fst (serve tts_client s rq w)).
Proof.
  apply flask_dispatch_json_ok. destruct rq.
  - apply generate_json_ok.
  - apply download_json_ok.
  - apply history_json_ok.
  - apply delete_item_json_ok.
Qed.
End Shape.

(** ** Invariants of the application *)

(** The operations of the abstract history repository (the contract of
    [HistoryRepository] in the design): for owner [u], record a new entry
    under a fresh id, delete one of [u]'s entries, delete all of them, or
    change nothing. *)
Inductive repo_op (u : Z) : gmap Z AudioHistory -> gmap Z AudioHistory -> Prop :=
| RepoNone m : repo_op u m m
| RepoRecord m i r :
    m !! i = None -> ah_id r = i -> ah_user_id r = u -> repo_op u m (<[i := r]> m)
| RepoDeleteById m i r :
    m !! i = Some r -> ah_user_id r = u -> repo_op u m (delete i m)
| RepoDeleteAll m :
    repo_op u m (filter (fun kv => ah_user_id kv.2 <> u) m).

Section Invariants.
Context `{G : GbkCodec} {C : Type} `{E : TtsEngine C} `{L : @TtsEngineLaws C E}.

Lemma db_effect_wf u d d' :
    db_effect u d d' -> table_wf (db_audio d) -> table_wf (db_audio d').
  Proof.
    intros [_ [-> | [(r & _ & ->) | [-> | (a & _ & ->)]]]] Hwf; auto with tts.
  Qed.

Lemma app_step_wf tts_client w w' :
    app_step tts_client w w' -> table_wf (db_audio (w_db w)) -> table_wf (db_audio (w_db w')).
  Proof.
    intros [[u|] rq w0]; [apply db_effect_wf with u; apply serve_db_effect|].
    by rewrite serve_no_session.
  Qed.

(** C7: in every reachable state the rowids of [AudioHistory] are
    positive and strictly increasing in scan order. *)
Theorem app_table_wf_invariant tts_client w0 w :
    reachable tts_client w0 w -> table_wf (db_audio (w_db w0)) -> table_wf (db_audio (w_db w)).
  Proof.
    induction 1 as [|w1 w2 w3 Hs _ IH]; [done|].
    intros Hwf. apply IH. by apply (app_step_wf tts_client w1 w2).
  Qed.

(** C5: no request of user [u] changes the rows of another user. *)
Theorem serve_isolation tts_client u v rq w :
    table_wf (db_audio (w_db w)) -> v <> u ->
    rows_of v (db_audio (w_db (snd (serve tts_client (Some u) rq w)))) =
    rows_of v (db_audio (w_db w)).
  Proof.
    intros Hwf Hv.
    destruct (serve_db_effect tts_client u rq w) as [_ [-> | [(r & Hu & ->) | [-> | (a & Hf & ->)]]]].
    - done.
    - apply rows_of_insert_other. congruence.
    - apply rows_of_filter_comm. intros x _ Hx. apply negb_true_iff, Z.eqb_neq. congruence.
    - apply rows_of_filter_comm. intros x Hx Hxv. apply negb_true_iff, Z.eqb_neq.
      intros Hid. destruct (find_by_id_Some _ _ _ _ Hf) as (Ha & _ & Hau).
      rewrite (table_wf_id_unique _ x a Hwf Hx Ha Hid) in Hxv. congruence.
  Qed.

(** C6: on the abstract repository, every request of user [u] is
    one of the repository's operations for owner [u]. *)
Theorem serve_refines_repo tts_client u rq w :
    table_wf (db_audio (w_db w)) ->
    repo_op u (abs_table (db_audio (w_db w)))
              (abs_table (db_audio (w_db (snd (serve tts_client (Some u) rq w))))).
  Proof.
    intros Hwf.
    destruct (serve_db_effect tts_client u rq w) as [_ [-> | [(r & Hu & ->) | [-> | (a & Hf & ->)]]]].
    - constructor.
    - destruct (abs_table_insert r (db_audio (w_db w))) as [Hfresh ->]. by constructor.
    - rewrite abs_table_delete_by_user by done. constructor.
    - rewrite abs_table_delete. rewrite (abs_table_find_by_id _ _ _ Hwf) in Hf.
      destruct (abs_table _ !! ah_id a) as [r|] eqn:Hr; [|done].
      destruct (Z.eqb_spec (ah_user_id r) u); [|done]. by apply RepoDeleteById with r.
  Qed.
End Invariants.

(** ** Concrete runs

    User 7 owns [a.mp3] (row 1) and user 8 owns [b.mp3] (row 2); the
    provider answers audio, the file system succeeds, and the commits
    succeed or fail as given. *)

Definition raw_sample : pystr := Eval cbv in u8 "  欢迎使用语音合成服务 ".
Definition data_of (raw : pystr) : gmap pystr jval :=
  <[u8 "text" := JStr raw]> (<[u8 "voice" := JInt 0]> ∅).
Definition uuid_sample : pystr := Eval cbv in u8 "9f1c2b7e4d3a4f0e8b6a5c4d3e2f1a0b".
Definition now_sample : datetime := DateTime 2026 11 9 8 30 0 0.
Definition world_audio (commit : nat -> bool) (d : db) : world :=
  mk_world (fun _ => AnsAudio sample_audio) (fun _ => IoOk) commit d.
Definition file_a : pystr := Eval cbv in u8 "a.mp3".
Definition file_b : pystr := Eval cbv in u8 "b.mp3".
Definition row_of (i u : Z) (fn : pystr) : AudioHistory :=
  MkAudioHistory i u sample_text fn (JInt 0) (u8 "度小美 - 默认女声") (JInt 5) (JInt 5) (JInt 5)
    now_sample.
Definition db_two : db := MkDb [] [row_of 1 7 file_a; row_of 2 8 file_b].
Definition world_two (commit : nat -> bool) : world :=
  with_fs (<[upload_path file_a := sample_audio]> (<[upload_path file_b := sample_audio]> ∅))
    (world_audio commit db_two).

Lemma generate_success_witness :
  exists w', serve (Some client0) (Some 7) (ReqGenerate (data_of raw_sample) uuid_sample now_sample)
               (world_audio (fun _ => true) (MkDb [] [])) = (RJson 200 (generate_ok_body uuid_sample), w') /\
    db_audio (w_db w') =
      table_insert (generated_row client0 7 (data_of raw_sample) uuid_sample now_sample raw_sample) [] /\
    is_Some (w_fs w' !! upload_path (audio_filename uuid_sample)).
Proof.
  apply (generate_success (G := gbk_fragment) client0 7 (data_of raw_sample) uuid_sample now_sample
           raw_sample eq_refl (world_audio (fun _ => true) (MkDb [] [])) 20
           (upload_path (audio_filename uuid_sample)));
    vm_compute; first [reflexivity | lia | discriminate].
Defined.

Lemma generate_validation_witness :
  serve (Some client0) (Some 7) (ReqGenerate (data_of (u8 " 　")) uuid_sample now_sample)
    (world_audio (fun _ => true) (MkDb [] [])) =
  (RJson 400 (jfail msg_empty_text), world_audio (fun _ => true) (MkDb [] [])) /\
  serve (Some client0) (Some 7) (ReqGenerate (data_of (repeat 27426 513)) uuid_sample now_sample)
    (world_audio (fun _ => true) (MkDb [] [])) =
  (RJson 400 (jfail msg_text_too_long), world_audio (fun _ => true) (MkDb [] [])).
Proof.
  split.
  - apply (proj1 (generate_validation (G := gbk_fragment) client0 7 (data_of (u8 " 　")) uuid_sample
                    now_sample (u8 " 　") eq_refl _)). vm_compute. reflexivity.
  - apply (proj2 (generate_validation (G := gbk_fragment) client0 7 (data_of (repeat 27426 513))
                    uuid_sample now_sample (repeat 27426 513) eq_refl _) 1026%nat);
      vm_compute; first [reflexivity | lia].
Defined.

Lemma generate_unencodable_witness :
  exists m, serve (Some client0) (Some 7) (ReqGenerate (data_of [128512]) uuid_sample now_sample)
              (world_audio (fun _ => true) (MkDb [] [])) =
            (RServerError (PyExc UnicodeEncodeError m), world_audio (fun _ => true) (MkDb [] [])).
Proof.
  apply (generate_unencodable (G := gbk_fragment) client0 7 (data_of [128512]) uuid_sample now_sample
           [128512] eq_refl); vm_compute; first [reflexivity | discriminate].
Defined.

Lemma generate_commit_failure_orphan_witness :
  exists w' m, serve (Some client0) (Some 7) (ReqGenerate (data_of raw_sample) uuid_sample now_sample)
                 (world_audio (fun _ => false) (MkDb [] [])) = (RJson 500 (jfail (u8 "生成失败: " ++ m)), w') /\
    w_db w' = MkDb [] [] /\ is_Some (w_fs w' !! upload_path (audio_filename uuid_sample)).
Proof.
  apply (generate_commit_failure_orphan (G := gbk_fragment) client0 7 (data_of raw_sample) uuid_sample
           now_sample raw_sample eq_refl (world_audio (fun _ => false) (MkDb [] [])) 20
           (upload_path (audio_filename uuid_sample)));
    vm_compute; first [reflexivity | lia | discriminate].
Defined.

Lemma download_not_owned_witness :
  serve (Some client0) (Some 8) (ReqDownload file_a) (world_two (fun _ => true)) =
  (RJson 403 (jfail msg_forbidden), world_two (fun _ => true)).
Proof.
  apply (download_not_owned (G := gbk_fragment)). intros r Hr. apply list_elem_of_In in Hr.
  vm_compute in Hr. destruct Hr as [<- | [<- | []]]; vm_compute; congruence.
Defined.

Lemma delete_item_not_owned_witness :
  serve (Some client0) (Some 8) (ReqDeleteItem 1) (world_two (fun _ => true)) =
  (RJson 404 (jfail msg_no_record), world_two (fun _ => true)).
Proof. apply (delete_item_not_owned (G := gbk_fragment)). vm_compute. reflexivity. Defined.

Lemma clear_history_keeps_files_witness :
  exists w', serve (Some client0) (Some 7) (ReqHistory DELETE) (world_two (fun _ => true)) =
               (RJson 200 (jok (u8 "历史记录已清空")), w') /\
    db_audio (w_db w') = delete_by_user 7 (db_audio db_two) /\
    rows_of 7 (db_audio (w_db w')) = [] /\ w_fs w' = w_fs (world_two (fun _ => true)).
Proof. apply (clear_history_keeps_files (G := gbk_fragment)). vm_compute. reflexivity. Defined.

Lemma delete_item_commit_failure_dangling_witness :
  let w' := snd (serve (Some client0) (Some 7) (ReqDeleteItem 1) (world_two (fun _ => false))) in
  find_by_id (db_audio (w_db w')) 1 7 = Some (row_of 1 7 file_a) /\
  w_fs w' !! upload_path file_a = None.
Proof.
  apply (delete_item_commit_failure_dangling (G := gbk_fragment) (Some client0) 7 1
           (world_two (fun _ => false)) (row_of 1 7 file_a)); vm_compute; first [reflexivity | eauto].
Defined.

Lemma serve_isolation_witness :
  rows_of 8 (db_audio (w_db (snd (serve (Some client0) (Some 7) (ReqHistory DELETE)
                                   (world_two (fun _ => true)))))) =
  rows_of 8 (db_audio db_two).
Proof.
  apply (serve_isolation (G := gbk_fragment) (Some client0) 7 8 (ReqHistory DELETE)
           (world_two (fun _ => true))); [apply table_wfb_sound; vm_compute; reflexivity | lia].
Defined.

Lemma serve_refines_repo_witness :
  repo_op 7 (abs_table (db_audio db_two))
    (abs_table (db_audio (w_db (snd (serve (Some client0) (Some 7) (ReqDeleteItem 1)
                                       (world_two (fun _ => true))))))).
Proof.
  apply (serve_refines_repo (G := gbk_fragment) (Some client0) 7 (ReqDeleteItem 1)
           (world_two (fun _ => true))). apply table_wfb_sound. vm_compute. reflexivity.
Defined.

Lemma app_table_wf_invariant_witness :
  table_wf (db_audio (w_db (snd (serve (Some client0) (Some 7)
              (ReqGenerate (data_of raw_sample) uuid_sample now_sample) (world_two (fun _ => true)))))).
Proof.
  apply (app_table_wf_invariant (G := gbk_fragment) (Some client0) (world_two (fun _ => true)));
    [apply rtc_once; constructor | apply table_wfb_sound; vm_compute; reflexivity].
Defined.

Lemma generate_then_download_witness :
  exists w' b, serve (Some client0) (Some 7) (ReqGenerate (data_of raw_sample) uuid_sample now_sample)
                 (world_audio (fun _ => true) (MkDb [] [])) = (RJson 200 (generate_ok_body uuid_sample), w') /\
    w_fs w' !! upload_path (audio_filename uuid_sample) = Some b /\
    serve (Some client0) (Some 7) (ReqDownload (audio_filename uuid_sample)) w' =
      (RFile (upload_path (audio_filename uuid_sample)) b, w').
Proof.
  apply (generate_then_download (G := gbk_fragment) client0 7 (data_of raw_sample) uuid_sample now_sample
           raw_sample eq_refl (world_audio (fun _ => true) (MkDb [] [])) 20
           (upload_path (audio_filename uuid_sample)));
    vm_compute; first [reflexivity | lia | discriminate].
Defined.

Lemma generate_then_history_witness :
  exists w' rest, serve (Some client0) (Some 7) (ReqGenerate (data_of raw_sample) uuid_sample now_sample)
                    (world_audio (fun _ => true) (MkDb [] [])) = (RJson 200 (generate_ok_body uuid_sample), w') /\
    serve (Some client0) (Some 7) (ReqHistory GET) w' =
    (RJson 200 [(u8 "success", JBool true);
                (u8 "history", JArr (to_dict (set_ah_id (next_rowid [])
                   (generated_row client0 7 (data_of raw_sample) uuid_sample now_sample raw_sample)) :: rest))], w').
Proof.
  apply (generate_then_history (G := gbk_fragment) client0 7 (data_of raw_sample) uuid_sample now_sample
           raw_sample eq_refl (world_audio (fun _ => true) (MkDb [] [])) 20
           (upload_path (audio_filename uuid_sample)));
    vm_compute; first [reflexivity | lia | discriminate | constructor].
Defined.

Lemma generate_blank_text_witness :
  (Forall (fun c => In c cpython_whitespace) (u8 " 　") ->
   serve (Some client0) (Some 7) (ReqGenerate (data_of (u8 " 　")) uuid_sample now_sample)
     (world_audio (fun _ => true) (MkDb [] [])) =
   (RJson 400 (jfail msg_empty_text), world_audio (fun _ => true) (MkDb [] []))) /\
  (Exists (fun c => ~ In c cpython_whitespace) (u8 " 　") ->
   fst (serve (Some client0) (Some 7) (ReqGenerate (data_of (u8 " 　")) uuid_sample now_sample)
          (world_audio (fun _ => true) (MkDb [] []))) <> RJson 400 (jfail msg_empty_text)).
Proof.
  apply (generate_blank_text (G := gbk_fragment) client0 7 (data_of (u8 " 　")) uuid_sample now_sample
           (u8 " 　") eq_refl).
Defined.
