(* ===== verification/Accounts.v ===== *)
(** * Accounts: registration, login and the session

    The routes [index], [login], [register], [home], [logout] and
    [user_info] of [app.py] (lines 86-224), and the whole application seen
    from one browser.  Flask keeps [session] in a signed cookie held by the
    client: a handler here takes the session it receives and returns the
    one it sends back.  [client_serve] dispatches every route of the
    application, the audio routes of [App.v] included, and [client_step]
    is its step relation on the pair of the browser's session and the
    world.

    [werkzeug.security] is a library, modelled by the class
    [PasswordHasher]: a hash made from a password checks against that
    password and no other.  The salt [generate_password_hash] draws at
    random is an input of the request, like the uuid of [generate_audio].

    [User.query.filter(...).first()] is modelled, as the other queries, by
    the first matching row in rowid order: that is SQLite's plan for a scan
    of the table. *)

From S2P Require Import Prelude Text History World Client App.

(** ** The session and the request body *)

(** [session['user_id']] and [session['username']], which the code sets
    and clears together. *)
Abbreviation session := (option (Z * pystr)).

Definition session_uid (s : session) : option Z := fst <$> s.

(** [data.get(k, default)] on the decoded body, which need not be a dict. *)
Definition body_get (body : jval) (k : pystr) (d : jval) : pyW jval :=
  match body with
  | JObj kvs => py_ret (default d (jobj_lookup k kvs))
  | _ => py_raise (PyExc AttributeError
           (u8 "'" ++ py_type_name body ++ u8 "' object has no attribute 'get'"))
  end.

(** [v.strip()] *)
Definition strip_val (v : jval) : pyW pystr :=
  match v with
  | JStr s => py_ret (py_strip s)
  | _ => py_raise (PyExc AttributeError
           (u8 "'" ++ py_type_name v ++ u8 "' object has no attribute 'strip'"))
  end.

(** ** Password hashes *)

(** [generate_password_hash(password)] with the salt it draws, and
    [check_password_hash(pwhash, password)]. *)
Class PasswordHasher := {
  pw_hash : pystr -> pystr -> pystr;
  pw_check : pystr -> pystr -> bool;
  pw_check_hash salt p q : pw_check (pw_hash salt p) q = true <-> q = p
}.

(** Both functions encode the password first; a value that is not a
    [str] raises there. *)
Definition encode_error (v : jval) : exc :=
  PyExc AttributeError (u8 "'" ++ py_type_name v ++ u8 "' object has no attribute 'encode'").

Definition hash_password `{PasswordHasher} (salt : pystr) (v : jval) : pyW pystr :=
  match v with
  | JStr p => py_ret (pw_hash salt p)
  | _ => py_raise (encode_error v)
  end.

Definition check_password `{PasswordHasher} (h : pystr) (v : jval) : pyW bool :=
  match v with
  | JStr p => py_ret (pw_check h p)
  | _ => py_raise (encode_error v)
  end.

(** ** The [User] table *)

Definition set_u_id (i : Z) (u : User) : User :=
  MkUser i (u_username u) (u_email u) (u_password_hash u) (u_created_at u).

Definition users_max_id (us : list User) : Z := fold_right (fun u m => Z.max (u_id u) m) 0 us.

(** The rowid SQLite gives to a new user. *)
Definition user_next_id (us : list User) : Z :=
  match us with
  | [] => 1
  | _ => users_max_id us + 1
  end.

Definition users_insert (u : User) (us : list User) : list User :=
  us ++ [set_u_id (user_next_id us) u].

(** [db.session.add(new_user)] *)
Definition insert_user (u : User) (d : db) : db := MkDb (users_insert u (db_users d)) (db_audio d).

(** [User.query.filter_by(username=n).first()] *)
Definition find_user_by_username (us : list User) (n : pystr) : option User :=
  List.find (fun u => bool_decide (u_username u = n)) us.

(** [User.query.filter_by(email=e).first()] *)
Definition find_user_by_email (us : list User) (e : pystr) : option User :=
  List.find (fun u => bool_decide (u_email u = e)) us.

(** [User.query.filter((User.username == s) | (User.email == s)).first()] *)
Definition find_login (us : list User) (s : pystr) : option User :=
  List.find (fun u => bool_decide (u_username u = s) || bool_decide (u_email u = s)) us.

(** [User.query.get(i)] *)
Definition find_user (us : list User) (i : Z) : option User :=
  List.find (fun u => u_id u =? i) us.

(** A read of the database. *)
Definition db_query {A} (f : db -> A) : pyW A := fun w => (Normal (f (w_db w)), w).

(** ** Messages *)

Definition msg_bad_request : pystr := Eval cbv in u8 "请求数据格式错误".
Definition msg_login_empty : pystr := Eval cbv in u8 "用户名和密码不能为空".
Definition msg_bad_credentials : pystr := Eval cbv in u8 "用户名或密码错误".
Definition msg_fields_empty : pystr := Eval cbv in u8 "所有字段都不能为空".
Definition msg_username_length : pystr := Eval cbv in u8 "用户名长度应在3-20个字符之间".
Definition msg_password_mismatch : pystr := Eval cbv in u8 "两次输入的密码不一致".
Definition msg_password_short : pystr := Eval cbv in u8 "密码长度至少为6个字符".
Definition msg_username_taken : pystr := Eval cbv in u8 "用户名已存在".
Definition msg_email_taken : pystr := Eval cbv in u8 "邮箱已被注册".
Definition msg_no_user : pystr := Eval cbv in u8 "用户不存在".

(** [jsonify({'success': True, 'message': msg, 'username': name})] *)
Definition jwelcome (msg name : pystr) : list (pystr * jval) :=
  jok msg ++ [(u8 "username", JStr name)].

(** ** The handlers *)

(** [index] (lines 86-91) *)
Definition index (s : session) : reply :=
  match s with
  | Some _ => RRedirect (u8 "home")
  | None => RRedirect (u8 "login")
  end.

(** [login] and [register] on GET (lines 97-100, 136-139). *)
Definition auth_page (page : pystr) (s : session) : reply :=
  match s with
  | Some _ => RRedirect (u8 "home")
  | None => RTemplate page None
  end.

Section Handlers.
Context `{H : PasswordHasher}.

(** The body of the [try] of [login] on POST (lines 104-128). *)
Definition login_attempt (s : session) (body : jval) : pyW (reply * session) :=
  if negb (py_truthy body) then py_ret (RJson 400 (jfail msg_bad_request), s) else
  uname <- body_get body (u8 "username") (JStr []);;
  username <- strip_val uname;;
  password <- body_get body (u8 "password") (JStr []);;
  if bool_decide (username = []) || negb (py_truthy password)
  then py_ret (RJson 400 (jfail msg_login_empty), s) else
  user <- db_query (fun d => find_login (db_users d) username);;
  match user with
  | None => py_ret (RJson 401 (jfail msg_bad_credentials), s)
  | Some u =>
      ok <- check_password (u_password_hash u) password;;
      if ok then py_ret (RJson 200 (jwelcome (u8 "登录成功") (u_username u)),
                         Some (u_id u, u_username u))
      else py_ret (RJson 401 (jfail msg_bad_credentials), s)
  end.

(** [login] on POST (lines 102-130). *)
Definition login_post (s : session) (body : jval) : pyW (reply * session) :=
  py_try (login_attempt s body)
    (fun e => py_ret (RJson 500 (jfail (u8 "登录失败: " ++ exc_msg e)), s)).

(** [register] on POST (lines 141-189): the validation runs outside the
    [try], so an exception there becomes Flask's 500 page.  [new_user.id]
    is the rowid SQLite assigns at the commit, [user_next_id] of the table
    read just before it. *)
Definition register_post (s : session) (body : jval) (salt : pystr) (now : datetime)
    : pyW (reply * session) :=
  uname <- body_get body (u8 "username") (JStr []);;
  username <- strip_val uname;;
  em <- body_get body (u8 "email") (JStr []);;
  email <- strip_val em;;
  password <- body_get body (u8 "password") (JStr []);;
  confirm_password <- body_get body (u8 "confirm_password") (JStr []);;
  if bool_decide (username = []) || bool_decide (email = []) || negb (py_truthy password)
  then py_ret (RJson 400 (jfail msg_fields_empty), s) else
  if (length username <? 3)%nat || (20 <? length username)%nat
  then py_ret (RJson 400 (jfail msg_username_length), s) else
  if negb (py_eq password confirm_password)
  then py_ret (RJson 400 (jfail msg_password_mismatch), s) else
  n <- py_len password;;
  if (n <? 6)%nat then py_ret (RJson 400 (jfail msg_password_short), s) else
  by_name <- db_query (fun d => find_user_by_username (db_users d) username);;
  match by_name with Some _ => py_ret (RJson 400 (jfail msg_username_taken), s) | None =>
  by_email <- db_query (fun d => find_user_by_email (db_users d) email);;
  match by_email with Some _ => py_ret (RJson 400 (jfail msg_email_taken), s) | None =>
  py_try
    (h <- hash_password salt password;;
     uid <- db_query (fun d => user_next_id (db_users d));;
     db_commit (insert_user (MkUser 0 username email h now));;
     py_ret (RJson 200 (jwelcome (u8 "注册成功") username), Some (uid, username)))
    (fun e => py_ret (RJson 500 (jfail (u8 "注册失败: " ++ exc_msg e)), s))
  end end.

(** [user_info] (lines 207-224) *)
Definition user_info (s : session) : pyW reply :=
  match s with
  | None => py_ret (RJson 401 (jfail msg_not_logged_in))
  | Some (uid, _) =>
      user <- db_query (fun d => find_user (db_users d) uid);;
      match user with
      | Some u =>
          py_ret (RJson 200 [(u8 "success", JBool true);
                             (u8 "user", JObj [(u8 "id", JInt (u_id u));
                                               (u8 "username", JStr (u_username u));
                                               (u8 "email", JStr (u_email u));
                                               (u8 "created_at", JStr (dt_format (u_created_at u)))])])
      | None => py_ret (RJson 404 (jfail msg_no_user))
      end
  end.
End Handlers.

(** [home] (lines 192-197) *)
Definition home (s : session) : reply :=
  match s with
  | None => RRedirect (u8 "login")
  | Some (_, name) => RTemplate (u8 "home.html") (Some name)
  end.

(** [logout] (lines 200-204): [session.clear()]. *)
Definition logout : reply * session := (RRedirect (u8 "login"), None).

(** ** The application seen from one browser *)

(** The account routes, with the methods their decorators allow. *)
Inductive acct_request :=
| AIndex
| ALoginPage
| ALogin (body : jval)
| ARegisterPage
| ARegister (body : jval) (salt : pystr) (now : datetime)
| AHome
| ALogout
| AUserInfo.

Inductive client_request :=
| CAccount (rq : acct_request)
| CAudio (rq : request).

Section Client.
Context `{G : GbkCodec} {C : Type} `{E : TtsEngine C} `{H : PasswordHasher}.

Definition account_handler (s : session) (rq : acct_request) : pyW (reply * session) :=
  match rq with
  | AIndex => py_ret (index s, s)
  | ALoginPage => py_ret (auth_page (u8 "login.html") s, s)
  | ALogin body => login_post s body
  | ARegisterPage => py_ret (auth_page (u8 "register.html") s, s)
  | ARegister body salt now => register_post s body salt now
  | AHome => py_ret (home s, s)
  | ALogout => py_ret logout
  | AUserInfo => r <- user_info s;; py_ret (r, s)
  end.

(** One request of the browser holding the session [s]; a view that
    raises sends Flask's 500 page and leaves the cookie as it was. *)
Definition client_serve (tts_client : option C) (s : session) (rq : client_request) (w : world)
    : reply * (session * world) :=
  match rq with
  | CAccount a =>
      match account_handler s a w with
      | (Normal (r, s'), w') => (r, (s', w'))
      | (Raised e, w') => (RServerError e, (s, w'))
      end
  | CAudio a => let '(r, w') := serve tts_client (session_uid s) a w in (r, (s, w'))
  end.

Inductive client_step (tts_client : option C) : session * world -> session * world -> Prop :=
| ClientStep s w rq : client_step tts_client (s, w) (snd (client_serve tts_client s rq w)).

Definition client_reachable (tts_client : option C) : session * world -> session * world -> Prop :=
  rtc (client_step tts_client).

(** A browser's requests, one after the other. *)
Fixpoint client_run (tts_client : option C) (sw : session * world) (rqs : list client_request)
    : session * world :=
  match rqs with
  | [] => sw
  | rq :: rqs' => client_run tts_client (snd (client_serve tts_client sw.1 rq sw.2)) rqs'
  end.
End Client.

(** ** Invariants *)

(** A user name and an e-mail as [register] stores them: stripped and
    not empty. *)
Definition user_fields_ok (u : User) : Prop :=
  u_username u <> [] /\ py_strip (u_username u) = u_username u /\
  u_email u <> [] /\ py_strip (u_email u) = u_email u.

(** The user table: rowids positive and increasing in scan order, the
    [unique=True] columns [username] and [email] without duplicates, and
    the fields as [register] stores them. *)
Definition users_wf (us : list User) : Prop :=
  StronglySorted (fun a b => u_id a < u_id b) us /\ Forall (fun u => 1 <= u_id u) us /\
  NoDup (map u_username us) /\ NoDup (map u_email us) /\ Forall user_fields_ok us.

(** The session names a user of the table, under that user's name. *)
Definition session_ok (us : list User) (s : session) : Prop :=
  match s with
  | None => True
  | Some (uid, name) => exists u, u ∈ us /\ u_id u = uid /\ u_username u = name
  end.

Definition client_inv (sw : session * world) : Prop :=
  users_wf (db_users (w_db sw.2)) /\ session_ok (db_users (w_db sw.2)) sw.1.

(** ** Reads of the world *)

Lemma readonly_body_get body k d : readonly (body_get body k d).
Proof. intros w. unfold body_get. by case_match. Qed.

Lemma readonly_strip_val v : readonly (strip_val v).
Proof. by destruct v. Qed.

Lemma readonly_db_query {A} (f : db -> A) : readonly (db_query f).
Proof. done. Qed.

Lemma readonly_py_len v : readonly (@py_len world v).
Proof. by destruct v. Qed.

Lemma readonly_hash_password `{PasswordHasher} salt v : readonly (hash_password salt v).
Proof. by destruct v. Qed.

Lemma readonly_check_password `{PasswordHasher} h v : readonly (check_password h v).
Proof. by destruct v. Qed.

Lemma readonly_bind_closed {A B} (m : pyW A) (k : A -> pyW B) :
  readonly m -> (forall a, readonly (k a)) -> readonly (py_bind m k).
Proof. intros Hm Hk w. rewrite readonly_bind by done. destruct (fst (m w)); [apply Hk | done]. Qed.

Lemma readonly_try {A} (m : pyW A) h :
  readonly m -> (forall e, readonly (h e)) -> readonly (py_try m h).
Proof. intros Hm Hh w. unfold py_try. specialize (Hm w). destruct (m w) as [[a|e] w'] eqn:Em; simpl in *; subst; [done | apply Hh]. Qed.

#[export] Hint Resolve readonly_body_get readonly_strip_val readonly_db_query readonly_py_len
  readonly_hash_password readonly_check_password : readonly.

(** Run the next read of a handler: its result is a value or an exception
    and the world is unchanged. *)
Ltac ro_step :=
  match goal with
  | |- context [py_bind ?m ?k ?w] =>
      rewrite (readonly_bind m k w) by auto with readonly;
      let E := fresh "E" in
      destruct (fst (m w)) eqn:E;
      try (progress unfold db_query in E; cbn [fst] in E; first [discriminate E | injection E as <-])
  end.

(** A handler built from reads only is read-only. *)
Ltac ro_auto :=
  repeat first [ solve [auto with readonly] | apply readonly_try | apply readonly_bind_closed
               | progress intros | case_match ].

(** The session of a result, read off without computing the reply (whose
    messages are long literals). *)
Lemma normal_session_eq {A} (a r : A) (s s' : session) : Normal (a, s) = Normal (r, s') -> s' = s.
Proof.
  intros Hr. pose proof (f_equal (fun x => match x with Normal p => snd p | Raised _ => s end) Hr) as E.
  by simpl in E.
Qed.

(** A branch that answers without touching the world or the session. *)
Ltac keeps_session :=
  left; split; [done | intros ?? Hr; cbn [fst py_ret py_raise] in Hr;
                       first [discriminate Hr | exact (normal_session_eq _ _ _ _ Hr)]].

Lemma login_post_readonly `{PasswordHasher} s body : readonly (login_post s body).
Proof. unfold login_post, login_attempt. ro_auto. Qed.

(** ** The user table *)

Lemma users_max_id_ge us : 0 <= users_max_id us /\ Forall (fun u => u_id u <= users_max_id us) us.
Proof.
  induction us as [|u us [H0 IH]]; simpl; [split; [lia | constructor]|].
  split; [lia|]. constructor; [lia|]. eapply Forall_impl; [done|]. intros x; simpl; lia.
Qed.

Lemma user_next_id_gt us : 1 <= user_next_id us /\ Forall (fun u => u_id u < user_next_id us) us.
Proof.
  destruct us as [|u us']; simpl; [split; [lia | constructor]|].
  destruct (users_max_id_ge (u :: us')) as [H0 Hf]. simpl in *. split; [lia|].
  eapply Forall_impl; [done|]. intros x; simpl; lia.
Qed.

Lemma users_insert_wf u us :
  users_wf us -> u_username u ∉ map u_username us -> u_email u ∉ map u_email us ->
  user_fields_ok u -> users_wf (users_insert u us).
Proof.
  intros (Hs & Hp & Hn & He & Hf) Hnu Hne Hu. destruct (user_next_id_gt us) as [H1 Hlt].
  unfold users_insert. split_and!.
  - by apply StronglySorted_snoc.
  - apply Forall_app; split; [done|]. by repeat constructor.
  - rewrite map_app. apply NoDup_app. split_and!; [done| |apply NoDup_singleton].
    by intros x Hx ->%list_elem_of_singleton.
  - rewrite map_app. apply NoDup_app. split_and!; [done| |apply NoDup_singleton].
    by intros x Hx ->%list_elem_of_singleton.
  - apply Forall_app; split; [done|]. constructor; [exact Hu | constructor].
Qed.

Lemma session_ok_insert u us s : session_ok us s -> session_ok (users_insert u us) s.
Proof.
  destruct s as [[uid name]|]; [|done]. intros (x & Hx & Hi & Hn).
  exists x. split_and!; [|done..]. unfold users_insert. set_solver.
Qed.

Lemma session_ok_new u us :
  session_ok (users_insert u us) (Some (user_next_id us, u_username u)).
Proof. exists (set_u_id (user_next_id us) u). split_and!; [|done..]. unfold users_insert. set_solver. Qed.

Lemma find_login_ok us name u :
  find_login us name = Some u -> session_ok us (Some (u_id u, u_username u)).
Proof. intros (Hin & _)%find_some. exists u. split_and!; [by apply list_elem_of_In|done..]. Qed.

(** ** Reading the results of the reads *)

Lemma body_get_normal body k d w a :
  fst (body_get body k d w) = Normal a -> exists kvs, body = JObj kvs /\ a = default d (jobj_lookup k kvs).
Proof. destruct body; cbn [body_get fst py_ret py_raise]; intros Hr; try discriminate Hr. injection Hr as <-. eauto. Qed.

Lemma strip_val_normal v w a : fst (strip_val v w) = Normal a -> exists x, v = JStr x /\ a = py_strip x.
Proof. destruct v; cbn [strip_val fst py_ret py_raise]; intros Hr; try discriminate Hr. injection Hr as <-. eauto. Qed.

Lemma check_password_normal `{PasswordHasher} h v w b :
  fst (check_password h v w) = Normal b -> exists p, v = JStr p /\ b = pw_check h p.
Proof. destruct v; cbn [check_password fst py_ret py_raise]; intros Hr; try discriminate Hr. injection Hr as <-. eauto. Qed.

(** Turn the results of the reads into facts about the request body. *)
Ltac read_facts :=
  repeat match goal with
  | Hr : fst (body_get _ _ _ _) = Normal _ |- _ =>
      let kvs := fresh "kvs" in let Hb := fresh "Hb" in
      destruct (body_get_normal _ _ _ _ _ Hr) as (kvs & Hb & ?); clear Hr; subst
  | Hr : fst (strip_val _ _) = Normal _ |- _ =>
      let x := fresh "x" in let Hx := fresh "Hx" in
      destruct (strip_val_normal _ _ _ Hr) as (x & Hx & ?); clear Hr; subst
  | Hr : fst (check_password _ _ _) = Normal _ |- _ =>
      let p := fresh "p" in let Hp := fresh "Hp" in
      destruct (check_password_normal _ _ _ _ Hr) as (p & Hp & ?); clear Hr; subst
  | Hb : JObj ?k1 = JObj ?k2 |- _ => injection Hb as Hb; subst k2
  end.

(** ** What the account handlers do to the tables and the session *)

Section AccountEffects.
Context `{H : PasswordHasher}.

Lemma login_attempt_readonly s body : readonly (login_attempt s body).
Proof. unfold login_attempt. ro_auto. Qed.

(** A registration either changes neither the database nor the session,
    or commits a user whose name and e-mail were free and logs it in. *)
Lemma register_post_effect s body salt now w :
  (w_db (snd (register_post s body salt now w)) = w_db w /\
   forall r s', fst (register_post s body salt now w) = Normal (r, s') -> s' = s) \/
  (exists u, find_user_by_username (db_users (w_db w)) (u_username u) = None /\
     find_user_by_email (db_users (w_db w)) (u_email u) = None /\
     w_db (snd (register_post s body salt now w)) = insert_user u (w_db w) /\
     (exists r, fst (register_post s body salt now w) =
               Normal (r, Some (user_next_id (db_users (w_db w)), u_username u))) /\
     user_fields_ok u).
Proof.
  unfold register_post. repeat first [ro_step | case_match]; try keeps_session.
  unfold py_try. ro_step; [|keeps_session]. ro_step.
  match goal with Hn : find_user_by_username _ _ = None |- _ => rename Hn into Hn1 end.
  match goal with Hn : find_user_by_email _ _ = None |- _ => rename Hn into Hn2 end.
  unfold py_bind, db_commit, py_ret; cbv beta.
  destruct (w_commit_ok w (w_commit_count w)).
  - right. eexists (MkUser 0 _ _ _ _). split; [exact Hn1|]. split; [exact Hn2|].
    split; [cbn [snd]; apply w_db_with_db|]. split; [eexists; cbn [fst]; exact eq_refl|].
    read_facts. unfold user_fields_ok; cbn [u_username u_email]. rewrite !py_strip_idem.
    repeat match goal with Hb : (_ || _) = false |- _ => apply orb_false_iff in Hb as [? ?] end.
    repeat match goal with Hb : bool_decide _ = false |- _ => apply bool_decide_eq_false in Hb end.
    by split_and!.
  - left. split; [cbn [snd]; apply w_db_tick_commit|].
    intros ?? Hr. cbn [fst] in Hr. exact (normal_session_eq _ _ _ _ Hr).
Qed.

Lemma user_info_readonly s : readonly (user_info s).
Proof. unfold user_info. ro_auto. Qed.
End AccountEffects.

Section LoginSpec.
Context `{H : PasswordHasher}.

(** A login that changes the session found, by the stripped identifier of
    the body, a row whose hash checks the body's password, and logged into
    that row. *)
Lemma login_attempt_sets s body w r s' :
  fst (login_attempt s body w) = Normal (r, s') ->
  s' = s \/
  exists kvs ident p u,
    body = JObj kvs /\
    default (JStr []) (jobj_lookup (u8 "username") kvs) = JStr ident /\
    default (JStr []) (jobj_lookup (u8 "password") kvs) = JStr p /\
    find_login (db_users (w_db w)) (py_strip ident) = Some u /\
    pw_check (u_password_hash u) p = true /\ s' = Some (u_id u, u_username u).
Proof.
  unfold login_attempt. repeat first [ro_step | case_match].
  all: intros Hr; cbn [fst py_ret py_raise] in Hr; try discriminate Hr.
  all: try (left; exact (normal_session_eq _ _ _ _ Hr)).
  right. read_facts. do 4 eexists. split_and!; try eassumption; [done | done |].
  exact (normal_session_eq _ _ _ _ Hr).
Qed.

Lemma login_post_sets s body w r s' :
  fst (login_post s body w) = Normal (r, s') ->
  s' = s \/
  exists kvs ident p u,
    body = JObj kvs /\
    default (JStr []) (jobj_lookup (u8 "username") kvs) = JStr ident /\
    default (JStr []) (jobj_lookup (u8 "password") kvs) = JStr p /\
    find_login (db_users (w_db w)) (py_strip ident) = Some u /\
    pw_check (u_password_hash u) p = true /\ s' = Some (u_id u, u_username u).
Proof.
  unfold login_post. rewrite readonly_try_eq by apply login_attempt_readonly.
  destruct (fst (login_attempt s body w)) as [[r0 s0]|e] eqn:E; cbn [fst py_ret]; intros Hr.
  - rewrite (normal_session_eq _ _ _ _ Hr). exact (login_attempt_sets _ _ _ _ _ E).
  - left. exact (normal_session_eq _ _ _ _ Hr).
Qed.
End LoginSpec.

(** ** Running a handler forward on known reads *)

Lemma bind_body_get {B} kvs k d v (kk : jval -> pyW B) w :
  jobj_lookup k kvs = Some v -> py_bind (body_get (JObj kvs) k d) kk w = kk v w.
Proof. intros Hk. unfold py_bind, body_get. by rewrite Hk. Qed.

Lemma bind_strip_val {B} x (kk : pystr -> pyW B) w : py_bind (strip_val (JStr x)) kk w = kk (py_strip x) w.
Proof. done. Qed.

Lemma bind_db_query {A B} (f : db -> A) (kk : A -> pyW B) w : py_bind (db_query f) kk w = kk (f (w_db w)) w.
Proof. done. Qed.

Lemma bind_py_len_str {B} p (kk : nat -> pyW B) w : py_bind (py_len (JStr p)) kk w = kk (length p) w.
Proof. done. Qed.

Lemma bind_hash_password `{PasswordHasher} {B} salt p (kk : pystr -> pyW B) w :
  py_bind (hash_password salt (JStr p)) kk w = kk (pw_hash salt p) w.
Proof. done. Qed.

Lemma bind_check_password `{PasswordHasher} {B} h p (kk : bool -> pyW B) w :
  py_bind (check_password h (JStr p)) kk w = kk (pw_check h p) w.
Proof. done. Qed.

(** Run [register_post] past its validation, for a body whose four fields
    are strings [un], [em], [p], [p] that pass the checks. *)
Ltac register_validate un p Hu He Hp Hcp Hlen Hem Hpl :=
  rewrite (bind_body_get _ _ _ _ _ _ Hu), bind_strip_val, (bind_body_get _ _ _ _ _ _ He),
    bind_strip_val, (bind_body_get _ _ _ _ _ _ Hp), (bind_body_get _ _ _ _ _ _ Hcp);
  let Hun := fresh "Hun" in let Hpn := fresh "Hpn" in
  assert (Hun : py_strip un <> []) by (intros E; rewrite E in Hlen; simpl in Hlen; lia);
  assert (Hpn : p <> []) by (intros ->; simpl in Hpl; lia);
  cbn [py_truthy py_eq]; rewrite !bool_decide_eq_false_2 by done;
  rewrite bool_decide_eq_true_2 by done;
  rewrite (proj2 (Nat.ltb_ge _ _)), (proj2 (Nat.ltb_ge 20 _)) by lia; cbn [orb negb];
  rewrite bind_py_len_str, (proj2 (Nat.ltb_ge _ _)) by lia.

(** ** Invariants of the whole application *)

Section ClientInvariants.
Context `{G : GbkCodec} {C : Type} `{E : TtsEngine C} `{L : @TtsEngineLaws C E} `{H : PasswordHasher}.

(** The session a request leaves the browser with. *)
Definition session_after (s : session) (r : res (reply * session)) : session :=
  match r with Normal (_, s') => s' | Raised _ => s end.

Lemma readonly_account s rq w :
  readonly (account_handler s rq) -> w_db (snd (account_handler s rq w)) = w_db w.
Proof. intros Hr. by rewrite Hr. Qed.

Lemma account_handler_inv s rq w :
  users_wf (db_users (w_db w)) -> session_ok (db_users (w_db w)) s ->
  let r := account_handler s rq w in
  db_audio (w_db (snd r)) = db_audio (w_db w) /\ users_wf (db_users (w_db (snd r))) /\
  session_ok (db_users (w_db (snd r))) (session_after s (fst r)).
Proof.
  intros Hwf Hs. destruct rq as [| |body| |body salt now| | |]; cbn zeta;
    try (cbn [account_handler fst snd py_ret logout]; by split_and!).
  - rewrite readonly_account by apply login_post_readonly. split_and!; [done..|].
    destruct (fst (account_handler s (ALogin body) w)) as [[r s']|e] eqn:Er; [|done].
    destruct (login_post_sets _ _ _ _ _ Er) as [-> | (kvs & ident & p & u & _ & _ & _ & Hf & _ & ->)];
      [done|].
    by apply find_login_ok with (py_strip ident).
  - simpl. destruct (register_post_effect s body salt now w) as [[Hdb Hs'] | (u & Hn & He & Hdb & [r Hr] & Hf)].
    + rewrite Hdb. split_and!; [done..|].
      destruct (fst (register_post s body salt now w)) as [[r s']|e] eqn:Er; [|done].
      by rewrite (Hs' r s' eq_refl).
    + rewrite Hdb, Hr. split_and!; [done| |apply session_ok_new].
      apply users_insert_wf; [done|by apply find_key_None..|done].
  - unfold account_handler. rewrite readonly_bind by apply user_info_readonly.
    destruct (fst (user_info s w)); cbn [fst snd py_ret]; by split_and!.
Qed.

Lemma client_serve_inv tts_client s rq w :
  client_inv (s, w) -> client_inv (snd (client_serve tts_client s rq w)).
Proof.
  intros (Hu & Hs). destruct rq as [a|a]; unfold client_serve.
  - destruct (account_handler_inv s a w Hu Hs) as (_ & Hu' & Hs').
    destruct (account_handler s a w) as [[[r s']|e] w'] eqn:Er; unfold client_inv;
      cbn [fst snd session_after] in *; by split.
  - pose proof (serve_users tts_client (session_uid s) a w) as Hus.
    destruct (serve tts_client (session_uid s) a w) as [r w'] eqn:Er. unfold client_inv.
    cbn [fst snd] in *. rewrite Hus. by split.
Qed.


Lemma client_run_inv tts_client sw rqs : client_inv sw -> client_inv (client_run tts_client sw rqs).
Proof. revert sw. induction rqs as [|rq rqs IH]; intros [s w] Hi; [done|]. apply IH, client_serve_inv, Hi. Qed.


(** C22: in every state one browser can reach, the [User] table keeps
    positive increasing rowids and no two users share a user name or an
    e-mail, and the session names a user of the table under that user's
    name. *)
Theorem client_invariant tts_client sw sw' :
  client_reachable tts_client sw sw' -> client_inv sw -> client_inv sw'.
Proof.
  induction 1 as [|x y z Hxy _ IH]; [done|]. intros Hx. apply IH.
  destruct Hxy as [s w rq]. by apply client_serve_inv.
Qed.

(** C26: without a session every audio route answers 401 and leaves the
    world and the cookie as they were. *)
Theorem logged_out_audio_denied tts_client rq w :
  client_serve tts_client None (CAudio rq) w = (RJson 401 (jfail msg_not_logged_in), (None, w)).
Proof. by destruct rq as [| |[]|]. Qed.
End ClientInvariants.

(** ** Registration and login *)

Lemma jobj_lookup_nonempty k kvs v : jobj_lookup k kvs = Some v -> kvs <> [].
Proof. by intros Hk ->. Qed.

Section AccountClaims.
Context `{H : PasswordHasher}.

(** The run of a registration that passes every check. *)
Lemma register_post_valid s kvs salt now w un em p :
  jobj_lookup (u8 "username") kvs = Some (JStr un) -> jobj_lookup (u8 "email") kvs = Some (JStr em) ->
  jobj_lookup (u8 "password") kvs = Some (JStr p) ->
  jobj_lookup (u8 "confirm_password") kvs = Some (JStr p) ->
  (3 <= length (py_strip un) <= 20)%nat -> py_strip em <> [] -> (6 <= length p)%nat ->
  find_user_by_username (db_users (w_db w)) (py_strip un) = None ->
  find_user_by_email (db_users (w_db w)) (py_strip em) = None ->
  w_commit_ok w (w_commit_count w) = true ->
  exists w', register_post s (JObj kvs) salt now w =
    (Normal (RJson 200 (jwelcome (u8 "注册成功") (py_strip un)),
             Some (user_next_id (db_users (w_db w)), py_strip un)), w') /\
    db_users (w_db w') =
      users_insert (MkUser 0 (py_strip un) (py_strip em) (pw_hash salt p) now) (db_users (w_db w)) /\
    db_audio (w_db w') = db_audio (w_db w).
Proof.
  intros Hu He Hp Hcp Hlen Hem Hpl Hn1 Hn2 Hok. unfold register_post.
  register_validate un p Hu He Hp Hcp Hlen Hem Hpl.
  rewrite bind_db_query, Hn1, bind_db_query, Hn2. cbv beta iota.
  unfold py_try. rewrite bind_hash_password, bind_db_query.
  unfold py_bind at 1, db_commit. rewrite Hok.
  eexists. split; [reflexivity|]. by rewrite w_db_with_db.
Qed.

(** C23: a registration whose four fields are strings that pass the
    checks, with a free user name and e-mail and a commit that goes
    through, appends the user under the next rowid with the hash of the
    password, answers 200 and logs the new user in. *)
Theorem register_success s kvs salt now w un em p :
  jobj_lookup (u8 "username") kvs = Some (JStr un) -> jobj_lookup (u8 "email") kvs = Some (JStr em) ->
  jobj_lookup (u8 "password") kvs = Some (JStr p) ->
  jobj_lookup (u8 "confirm_password") kvs = Some (JStr p) ->
  (3 <= length (py_strip un) <= 20)%nat -> py_strip em <> [] -> (6 <= length p)%nat ->
  find_user_by_username (db_users (w_db w)) (py_strip un) = None ->
  find_user_by_email (db_users (w_db w)) (py_strip em) = None ->
  w_commit_ok w (w_commit_count w) = true ->
  exists w', register_post s (JObj kvs) salt now w =
    (Normal (RJson 200 (jwelcome (u8 "注册成功") (py_strip un)),
             Some (user_next_id (db_users (w_db w)), py_strip un)), w') /\
    db_users (w_db w') =
      users_insert (MkUser 0 (py_strip un) (py_strip em) (pw_hash salt p) now) (db_users (w_db w)) /\
    db_audio (w_db w') = db_audio (w_db w).
Proof. apply register_post_valid. Qed.

(** C27: a registration that passes the field checks but names a user
    name already taken is refused with 400 before any write; the session
    is kept. *)
Theorem register_username_taken s kvs salt now w un em p v :
  jobj_lookup (u8 "username") kvs = Some (JStr un) -> jobj_lookup (u8 "email") kvs = Some (JStr em) ->
  jobj_lookup (u8 "password") kvs = Some (JStr p) ->
  jobj_lookup (u8 "confirm_password") kvs = Some (JStr p) ->
  (3 <= length (py_strip un) <= 20)%nat -> py_strip em <> [] -> (6 <= length p)%nat ->
  find_user_by_username (db_users (w_db w)) (py_strip un) = Some v ->
  register_post s (JObj kvs) salt now w = (Normal (RJson 400 (jfail msg_username_taken), s), w).
Proof.
  intros Hu He Hp Hcp Hlen Hem Hpl Hn1. unfold register_post.
  register_validate un p Hu He Hp Hcp Hlen Hem Hpl.
  by rewrite bind_db_query, Hn1.
Qed.

(** C24: a login that changes the session reads nothing but the table,
    found a user whose user name or e-mail is the stripped identifier of
    the body and whose hash checks the body's password, and logs into
    that user. *)
Theorem login_sound s body w r s' :
  fst (login_post s body w) = Normal (r, s') -> s' <> s ->
  snd (login_post s body w) = w /\
  exists kvs ident p u,
    body = JObj kvs /\
    default (JStr []) (jobj_lookup (u8 "username") kvs) = JStr ident /\
    default (JStr []) (jobj_lookup (u8 "password") kvs) = JStr p /\
    u ∈ db_users (w_db w) /\ (u_username u = py_strip ident \/ u_email u = py_strip ident) /\
    pw_check (u_password_hash u) p = true /\ s' = Some (u_id u, u_username u).
Proof.
  intros Hr Hne. split; [apply login_post_readonly|].
  destruct (login_post_sets _ _ _ _ _ Hr) as [-> | (kvs & ident & p & u & Hb & Hi & Hp & Hf & Hc & ->)];
    [done|].
  exists kvs, ident, p, u. apply find_some in Hf as [Hin Hm].
  split_and!; [done | done | done | by apply list_elem_of_In | | done | done].
  by apply orb_true_iff in Hm as [?%bool_decide_eq_true | ?%bool_decide_eq_true]; [left | right].
Qed.

(** The run of a login whose identifier and password are non-empty
    strings: the answer depends only on the row the query finds and on
    its hash. *)
Lemma login_post_valid s kvs w ident p :
  jobj_lookup (u8 "username") kvs = Some (JStr ident) ->
  jobj_lookup (u8 "password") kvs = Some (JStr p) -> p <> [] -> py_strip ident <> [] ->
  login_post s (JObj kvs) w =
  match find_login (db_users (w_db w)) (py_strip ident) with
  | Some u =>
      if pw_check (u_password_hash u) p
      then (Normal (RJson 200 (jwelcome (u8 "登录成功") (u_username u)), Some (u_id u, u_username u)), w)
      else (Normal (RJson 401 (jfail msg_bad_credentials), s), w)
  | None => (Normal (RJson 401 (jfail msg_bad_credentials), s), w)
  end.
Proof.
  intros Hu Hp Hpn Hin. unfold login_post, py_try, login_attempt.
  cbn [py_truthy]. rewrite (bool_decide_eq_false_2 (kvs = []) (jobj_lookup_nonempty _ _ _ Hu)). cbn [negb].
  rewrite (bind_body_get _ _ _ _ _ _ Hu), bind_strip_val, (bind_body_get _ _ _ _ _ _ Hp).
  cbn [py_truthy]. rewrite !bool_decide_eq_false_2 by done. cbn [orb negb].
  rewrite bind_db_query. destruct (find_login _ _) as [u|]; [|done].
  rewrite bind_check_password. by destruct (pw_check _ _).
Qed.


Lemma find_login_None us n :
  find_user_by_username us n = None -> find_user_by_email us n = None -> find_login us n = None.
Proof.
  unfold find_login, find_user_by_username, find_user_by_email. induction us as [|u us IH]; [done|].
  cbn [List.find]. do 2 case_bool_decide; cbn [orb]; [discriminate..|]. exact IH.
Qed.

Lemma find_login_insert us u n :
  find_login us n = None -> u_username u = n ->
  find_login (users_insert u us) n = Some (set_u_id (user_next_id us) u).
Proof.
  intros Hn Hu. unfold users_insert, find_login in *. rewrite find_app, Hn. cbn [List.find].
  by rewrite bool_decide_eq_true_2 by done.
Qed.

Lemma normal_pair_inj {A S} (a b : A) (w1 w2 : S) : (Normal a, w1) = (Normal b, w2) -> a = b /\ w1 = w2.
Proof. intros E. split; [exact (f_equal (fun x => match fst x with Normal y => y | Raised _ => a end) E) | exact (f_equal snd E)]. Qed.

(** C29: after a registration succeeds, logging in with the same user
    name and password logs into the new user, provided no earlier user
    has that name as e-mail (compare C25). *)
Theorem register_then_login s kvs salt now w un em p kvs' ident r s1 w' :
  jobj_lookup (u8 "username") kvs = Some (JStr un) -> jobj_lookup (u8 "email") kvs = Some (JStr em) ->
  jobj_lookup (u8 "password") kvs = Some (JStr p) ->
  jobj_lookup (u8 "confirm_password") kvs = Some (JStr p) ->
  (3 <= length (py_strip un) <= 20)%nat -> py_strip em <> [] -> (6 <= length p)%nat ->
  find_user_by_username (db_users (w_db w)) (py_strip un) = None ->
  find_user_by_email (db_users (w_db w)) (py_strip em) = None ->
  w_commit_ok w (w_commit_count w) = true ->
  find_user_by_email (db_users (w_db w)) (py_strip un) = None ->
  register_post s (JObj kvs) salt now w = (Normal (r, s1), w') ->
  jobj_lookup (u8 "username") kvs' = Some (JStr ident) -> py_strip ident = py_strip un ->
  jobj_lookup (u8 "password") kvs' = Some (JStr p) ->
  login_post s1 (JObj kvs') w' =
  (Normal (RJson 200 (jwelcome (u8 "登录成功") (py_strip un)),
           Some (user_next_id (db_users (w_db w)), py_strip un)), w').
Proof.
  intros Hu He Hp Hcp Hlen Hem Hpl Hn1 Hn2 Hok Hne Hreg Hu' Hi Hp'.
  destruct (register_post_valid s kvs salt now w un em p Hu He Hp Hcp Hlen Hem Hpl Hn1 Hn2 Hok)
    as (w'' & Heq & Hus & _).
  rewrite Hreg in Heq. apply normal_pair_inj in Heq as [[_ Hs]%pair_equal_spec <-]. subst s1.
  assert (Hpn : p <> []) by (intros ->; simpl in Hpl; lia).
  assert (Hun : py_strip un <> []) by (intros E; rewrite E in Hlen; simpl in Hlen; lia).
  rewrite (login_post_valid _ kvs' w' ident p), Hi, Hus by (rewrite ?Hi; done).
  rewrite find_login_insert by (done || by apply find_login_None). cbn [u_password_hash set_u_id].
  by rewrite (proj2 (pw_check_hash salt p p) eq_refl).
Qed.
End AccountClaims.

(** ** Liveness of login *)

(** The body of a login with an identifier and a password. *)
Definition login_body (ident p : pystr) : jval :=
  JObj [(u8 "username", JStr ident); (u8 "password", JStr p)].

(** The identifier [ident] names [u] alone: it is [u]'s user name and no
    other row has it as e-mail, or it is [u]'s e-mail and no other row has
    it as user name. *)
Definition names_alone (us : list User) (u : User) (ident : pystr) : Prop :=
  (ident = u_username u /\ Forall (fun v => u_email v = ident -> v = u) us) \/
  (ident = u_email u /\ Forall (fun v => u_username v = ident -> v = u) us).

Lemma find_login_unique us u ident :
  users_wf us -> u ∈ us -> names_alone us u ident -> find_login us ident = Some u.
Proof.
  intros (_ & _ & Hn & He & _) Hu Hid. unfold find_login.
  destruct (List.find _ us) as [v|] eqn:Hf.
  - apply find_some in Hf as [Hv Hm]. apply list_elem_of_In in Hv. f_equal.
    destruct Hid as [[-> Hid] | [-> Hid]]; rewrite Forall_forall in Hid;
      apply orb_true_iff in Hm as [Hm%bool_decide_eq_true | Hm%bool_decide_eq_true];
      first [by apply Hid | by apply (NoDup_map_inj u_username us) | by apply (NoDup_map_inj u_email us)].
  - apply list_elem_of_In in Hu. pose proof (find_none _ _ Hf u Hu) as Hm.
    destruct Hid as [[-> _] | [-> _]];
      [rewrite (bool_decide_eq_true_2 (u_username u = u_username u)) in Hm by done
      | rewrite (bool_decide_eq_true_2 (u_email u = u_email u)), orb_true_r in Hm by done];
      discriminate.
Qed.

Lemma names_alone_fields us u ident :
  Forall user_fields_ok us -> u ∈ us -> names_alone us u ident -> py_strip ident = ident /\ ident <> [].
Proof.
  intros Hf Hu Hid. rewrite Forall_forall in Hf. destruct (Hf u Hu) as (? & ? & ? & ?).
  by destruct Hid as [[-> _] | [-> _]].
Qed.

Section Liveness.
Context `{G : GbkCodec} {C : Type} `{E : TtsEngine C} `{H : PasswordHasher}.

(** A login with an identifier that names [u] alone and [u]'s password
    logs into [u] and changes nothing else. *)
Lemma login_user_request tts_client s w u salt p ident :
  users_wf (db_users (w_db w)) -> u ∈ db_users (w_db w) -> u_password_hash u = pw_hash salt p -> p <> [] ->
  names_alone (db_users (w_db w)) u ident ->
  client_serve tts_client s (CAccount (ALogin (login_body ident p))) w =
    (RJson 200 (jwelcome (u8 "登录成功") (u_username u)), (Some (u_id u, u_username u), w)).
Proof.
  intros Hwf Hu Hh Hp Hid.
  destruct (names_alone_fields _ u ident (proj2 (proj2 (proj2 (proj2 Hwf)))) Hu Hid) as [Hs Hne].
  unfold client_serve, account_handler, login_body.
  rewrite (login_post_valid s _ w ident p) by (rewrite ?Hs; first [reflexivity | done]).
  rewrite Hs, (find_login_unique _ u ident Hwf Hu Hid), Hh, (proj2 (pw_check_hash salt p p) eq_refl).
  reflexivity.
Qed.

(** C33: from every state where the invariant of C22 holds, a user of the
    table can get its session back in one request: a login with its
    password and with an identifier that names it alone (its user name,
    when no other user has it as e-mail, or its e-mail, when no other user
    has it as user name). *)
Theorem login_live tts_client s w u salt p ident :
  client_inv (s, w) -> u ∈ db_users (w_db w) -> u_password_hash u = pw_hash salt p -> p <> [] ->
  names_alone (db_users (w_db w)) u ident ->
  client_reachable tts_client (s, w) (Some (u_id u, u_username u), w).
Proof.
  intros [Hwf _] Hu Hh Hp Hid. apply rtc_once.
  pose proof (ClientStep tts_client s w (CAccount (ALogin (login_body ident p)))) as Hs.
  by rewrite (login_user_request tts_client s w u salt p ident) in Hs.
Qed.
End Liveness.

(** ** Users that can never log in again *)





Section Lockout.
Context `{G : GbkCodec} {C : Type} `{E : TtsEngine C} `{L : @TtsEngineLaws C E} `{H : PasswordHasher}.



End Lockout.

(** ** The user of the session *)

(** [User.query.get(user_id)] finds the row the session names. *)
Lemma find_user_session us uid name :
  users_wf us -> session_ok us (Some (uid, name)) ->
  exists u, find_user us uid = Some u /\ u ∈ us /\ u_id u = uid /\ u_username u = name.
Proof.
  intros (Hs & _) (v & Hv & Hi & Hn). unfold find_user.
  destruct (List.find _ us) as [x|] eqn:Hf.
  - apply find_some in Hf as [Hx Hxi%Z.eqb_eq]. apply list_elem_of_In in Hx.
    assert (x = v) as -> by (apply (StronglySorted_key_inj u_id us); congruence). eauto.
  - apply list_elem_of_In in Hv. pose proof (find_none _ _ Hf v Hv) as Hfv. cbv beta in Hfv.
    by rewrite Hi, Z.eqb_refl in Hfv.
Qed.

Section UserInfo.
Context `{G : GbkCodec} {C : Type} `{E : TtsEngine C} `{H : PasswordHasher}.

(** C39: in every state with the invariant of C22, [/api/user_info] of a
    logged-in browser answers 200 with the session's user: its id and
    name, and the e-mail and creation time of its row; the 404 branch of
    the route is dead. *)
Theorem user_info_logged_in tts_client uid name w :
  client_inv (Some (uid, name), w) ->
  exists u, u ∈ db_users (w_db w) /\ u_id u = uid /\ u_username u = name /\
    client_serve tts_client (Some (uid, name)) (CAccount AUserInfo) w =
    (RJson 200 [(u8 "success", JBool true);
                (u8 "user", JObj [(u8 "id", JInt uid); (u8 "username", JStr name);
                                  (u8 "email", JStr (u_email u));
                                  (u8 "created_at", JStr (dt_format (u_created_at u)))])],
     (Some (uid, name), w)).
Proof.
  intros [Hwf Hs]. cbn [fst snd] in Hwf, Hs.
  destruct (find_user_session _ _ _ Hwf Hs) as (u & Hf & Hu & Hi & Hn).
  exists u. split_and!; [done..|].
  unfold client_serve, account_handler, user_info, py_bind, db_query, py_ret. cbv beta iota.
  rewrite Hf. cbv beta iota. by rewrite Hi, Hn.
Qed.
End UserInfo.



(** ** The shape of the replies *)

Section Shape.
Context `{G : GbkCodec} {C : Type} `{E : TtsEngine C} `{H : PasswordHasher}.

Definition reply_json_ok (rs : reply * session) : Prop := json_ok (fst rs).

Ltac acct_post := post_auto; unfold reply_json_ok; cbn [fst]; try json_leaf.

Lemma login_post_json_ok s body : py_post reply_json_ok (login_post s body).
Proof. unfold login_post, login_attempt. acct_post. Qed.

Lemma register_post_json_ok s body salt now : py_post reply_json_ok (register_post s body salt now).
Proof. unfold register_post. acct_post. Qed.

Lemma account_handler_json_ok s rq : py_post reply_json_ok (account_handler s rq).
Proof.
  destruct rq; cbn [account_handler];
    first [ apply login_post_json_ok | apply register_post_json_ok
          | lazymatch goal with |- py_post _ (py_bind (user_info _) _) =>
              apply (py_post_seq json_ok); [unfold user_info; json_post | intros r Hr; by apply py_post_ret]
            end
          | unfold logout, index, auth_page, home; acct_post ].
Qed.

(** C32: whatever the route, the session, the body and the world, a JSON
    reply of the application is an object with a boolean [success] field,
    [True] exactly when the status is 200; the other replies are files,
    pages, redirects and Flask's error pages. *)
Theorem reply_json_contract tts_client s rq w : json_ok (fst (client_serve tts_client s rq w)).
Proof.
  destruct rq as [a|a]; unfold client_serve.
  - pose proof (account_handler_json_ok s a w) as Hj.
    destruct (account_handler s a w) as [[[r s']|e] w']; [exact Hj | exact I].
  - pose proof (serve_json_ok tts_client (session_uid s) a w) as Hj.
    destruct (serve tts_client (session_uid s) a w). exact Hj.
Qed.
End Shape.


(** ** Concrete runs

    [alice] registers with the e-mail [bob@example.com]; then a second
    user registers with [bob@example.com] as user name, which the checks
    allow since they compare user names with user names only. *)

(** A hash for the runs: the salt's length, the salt, then the password. *)
#[local] Program Instance salted_hasher : PasswordHasher := {
  pw_hash salt p := Z.of_nat (length salt) :: salt ++ p;
  pw_check h q := match h with n :: rest => bool_decide (drop (Z.to_nat n) rest = q) | [] => false end
}.
Next Obligation. intros salt p q. cbn. rewrite Nat2Z.id, drop_app_length, bool_decide_eq_true. split; congruence. Qed.

Definition kv (k v : string) : pystr * jval := (u8 k, JStr (u8 v)).
Definition salt0 : pystr := Eval cbv in u8 "s4lt".
Definition alice_kvs : list (pystr * jval) :=
  [kv "username" " alice "; kv "email" "bob@example.com"; kv "password" "secret1";
   kv "confirm_password" "secret1"].
Definition bob_kvs : list (pystr * jval) :=
  [kv "username" "bob@example.com"; kv "email" "bob@other.org"; kv "password" "hunter22";
   kv "confirm_password" "hunter22"].
Definition again_kvs : list (pystr * jval) :=
  [kv "username" "alice"; kv "email" "carol@example.com"; kv "password" "letmein";
   kv "confirm_password" "letmein"].
Definition alice_login_kvs : list (pystr * jval) := [kv "username" "alice"; kv "password" "secret1"].

Definition world0 : world := world_audio (fun _ => true) (MkDb [] []).

(** The world after both registrations, run through the application. *)
Definition w_lock : world :=
  snd (client_run (Some client0) (None, world0)
         [CAccount (ARegister (JObj alice_kvs) salt0 now_sample);
          CAccount (ARegister (JObj bob_kvs) salt0 now_sample)]).




Lemma client_inv_world0 : client_inv (None, world0).
Proof. split; [split_and!; constructor | done]. Qed.

Definition alice_row : User :=
  MkUser 1 (u8 "alice") (u8 "bob@example.com") (pw_hash salt0 (u8 "secret1")) now_sample.

Lemma client_invariant_witness :
  client_inv (snd (client_serve (Some client0) None
                     (CAccount (ARegister (JObj alice_kvs) salt0 now_sample)) world0)).
Proof.
  apply (client_invariant (Some client0) (None, world0)).
  - apply rtc_once. exact (ClientStep _ None world0 _).
  - split; [split_and!; constructor | done].
Defined.

Lemma register_success_witness :
  exists w', register_post None (JObj alice_kvs) salt0 now_sample world0 =
    (Normal (RJson 200 (jwelcome (u8 "注册成功") (py_strip (u8 " alice "))),
             Some (user_next_id (db_users (w_db world0)), py_strip (u8 " alice "))), w') /\
    db_users (w_db w') =
      users_insert (MkUser 0 (py_strip (u8 " alice ")) (py_strip (u8 "bob@example.com"))
                      (pw_hash salt0 (u8 "secret1")) now_sample) (db_users (w_db world0)) /\
    db_audio (w_db w') = db_audio (w_db world0).
Proof.
  apply (register_success None alice_kvs salt0 now_sample world0 (u8 " alice ")
           (u8 "bob@example.com") (u8 "secret1"));
    vm_compute; first [reflexivity | congruence | split; lia | lia].
Defined.

Lemma register_username_taken_witness :
  register_post None (JObj again_kvs) salt0 now_sample w_lock =
  (Normal (RJson 400 (jfail msg_username_taken), None), w_lock).
Proof.
  apply (register_username_taken None again_kvs salt0 now_sample w_lock (u8 "alice")
           (u8 "carol@example.com") (u8 "letmein") alice_row);
    vm_compute; first [reflexivity | congruence | split; lia | lia].
Defined.

Lemma login_sound_witness :
  snd (login_post None (JObj alice_login_kvs) w_lock) = w_lock /\
  exists kvs ident p u,
    JObj alice_login_kvs = JObj kvs /\
    default (JStr []) (jobj_lookup (u8 "username") kvs) = JStr ident /\
    default (JStr []) (jobj_lookup (u8 "password") kvs) = JStr p /\
    u ∈ db_users (w_db w_lock) /\ (u_username u = py_strip ident \/ u_email u = py_strip ident) /\
    pw_check (u_password_hash u) p = true /\ Some (1, u8 "alice") = Some (u_id u, u_username u).
Proof.
  apply (login_sound None (JObj alice_login_kvs) w_lock (RJson 200 (jwelcome (u8 "登录成功") (u8 "alice")))).
  - vm_compute. reflexivity.
  - congruence.
Defined.


Definition w_alice : world := snd (register_post None (JObj alice_kvs) salt0 now_sample world0).

Lemma register_then_login_witness :
  login_post (Some (1, u8 "alice")) (JObj alice_login_kvs) w_alice =
  (Normal (RJson 200 (jwelcome (u8 "登录成功") (py_strip (u8 " alice "))),
           Some (user_next_id (db_users (w_db world0)), py_strip (u8 " alice "))), w_alice).
Proof.
  apply (register_then_login None alice_kvs salt0 now_sample world0 (u8 " alice ") (u8 "bob@example.com")
           (u8 "secret1") alice_login_kvs (u8 "alice") (RJson 200 (jwelcome (u8 "注册成功") (u8 "alice"))));
    vm_compute; first [reflexivity | congruence | split; lia | lia].
Defined.

Lemma login_live_witness :
  client_reachable (Some client0) (None, w_lock) (Some (u_id alice_row, u_username alice_row), w_lock).
Proof.
  apply (login_live (Some client0) None w_lock alice_row salt0 (u8 "secret1") (u8 "alice")).
  - split; [exact (proj1 (client_run_inv (Some client0) (None, world0) _ client_inv_world0)) | done].
  - apply list_elem_of_In. vm_compute. left. reflexivity.
  - reflexivity.
  - discriminate.
  - left. split; [reflexivity|]. apply Forall_forall. intros v Hv. apply list_elem_of_In in Hv.
    vm_compute in Hv. destruct Hv as [<- | [<- | []]]; intros He; vm_compute in He; congruence.
Defined.


(** The state after [alice] registers: her session and the world. *)
Definition st_alice : session * world :=
  client_run (Some client0) (None, world0) [CAccount (ARegister (JObj alice_kvs) salt0 now_sample)].

Lemma user_info_logged_in_witness :
  exists u, u ∈ db_users (w_db st_alice.2) /\ u_id u = 1 /\ u_username u = u8 "alice" /\
    client_serve (Some client0) (Some (1, u8 "alice")) (CAccount AUserInfo) st_alice.2 =
    (RJson 200 [(u8 "success", JBool true);
                (u8 "user", JObj [(u8 "id", JInt 1); (u8 "username", JStr (u8 "alice"));
                                  (u8 "email", JStr (u_email u));
                                  (u8 "created_at", JStr (dt_format (u_created_at u)))])],
     (Some (1, u8 "alice"), st_alice.2)).
Proof.
  apply (user_info_logged_in (Some client0) 1 (u8 "alice") st_alice.2).
  assert (E : st_alice = (Some (1, u8 "alice"), st_alice.2)) by (vm_compute; reflexivity).
  pose proof (client_run_inv (Some client0) (None, world0)
                [CAccount (ARegister (JObj alice_kvs) salt0 now_sample)] client_inv_world0) as Hi.
  change (client_inv st_alice) in Hi. rewrite E in Hi. exact Hi.
Defined.
