(* ===== verification/Demo.v ===== *)
(** * Demo: the example programs of the repository

    [main.py] (lines 5-21) and the [__main__] block of
    [src/TTS/AI_Text_to_Audio.py] (lines 151-185) each build a client and
    synthesise a fixed text, printing the outcome; the second makes a
    second call with custom options and prints the supported voices in the
    order of the dict literal.  They run on the world of [World.v].  The
    single route of the demo app [src/app.py] is [root_index]. *)

From S2P Require Import Prelude Text History World Client App.

Definition demo_ok_prefix : pystr := Eval cbv in u8 "语音合成成功！文件已保存为: ".
Definition demo_fail_prefix : pystr := Eval cbv in u8 "语音合成失败: ".

(** [f"语音合成成功！文件已保存为: {result}"] and
    [f"语音合成失败: {result}"] *)
Definition msg_demo_ok (r : pystr) : pystr := demo_ok_prefix ++ r.
Definition msg_demo_fail (r : pystr) : pystr := demo_fail_prefix ++ r.

(** [if success: print(ok) else: print(fail)] *)
Definition report (sr : bool * pystr) : pyW unit :=
  if sr.1 then print (msg_demo_ok sr.2) else print (msg_demo_fail sr.2).

Definition main_text : pystr := Eval cbv in u8 "欢迎使用百度语音合成服务，这是一个测试示例。".
Definition main_out : pystr := Eval cbv in u8 "test.mp3".

(** [main()] of [main.py] (lines 5-18), with the keyword defaults of
    [text_to_speech]: [lang='zh'], [options=None],
    [cuid='python_tts_client']. *)
Definition demo_main `{GbkCodec} : pyW unit :=
  let tts := BaiduTTS_init [] [] [] in
  sr <- text_to_speech tts main_text main_out (u8 "zh") None (u8 "python_tts_client");;
  report sr.

Definition basic_text : pystr := Eval cbv in u8 "生活就像海洋，只有意志坚强的人才能到达彼岸".
Definition custom_text : pystr := Eval cbv in u8 "现在是自定义参数测试，语速较慢，音调较高。".

(** [custom_options] (lines 170-175) *)
Definition custom_options : gmap pystr jval :=
  <[key_spd := JInt 3]> (<[key_pit := JInt 7]> (<[key_vol := JInt 8]> (<[key_per := JInt 1]> ∅))).

(** [print("\n支持的发音人:")] and [print(f"  {voice_id}: {description}")] *)
Definition voices_header : pystr := 10 :: u8 "支持的发音人:".
Definition voice_line (kv : Z * pystr) : pystr := u8 "  " ++ py_int_str kv.1 ++ u8 ": " ++ kv.2.

(** [for voice_id, description in voices.items(): print(...)] *)
Fixpoint print_voices (l : list (Z * pystr)) : pyW unit :=
  match l with
  | [] => py_ret tt
  | kv :: l' => print (voice_line kv);; print_voices l'
  end.

(** The [__main__] block of the client (lines 151-185); the result of the
    second call is not used. *)
Definition tts_demo `{GbkCodec} : pyW unit :=
  let tts := BaiduTTS_init [] [] [] in
  sr <- text_to_speech tts basic_text (u8 "basic_output.mp3") (u8 "zh") None (u8 "python_tts_client");;
  report sr;;
  _ <- text_to_speech tts custom_text (u8 "custom_output.mp3") (u8 "zh") (Some custom_options)
         (u8 "python_tts_client");;
  print voices_header;;
  print_voices supported_voices.

(** The route of the separate demo app [src/app.py] (lines 8-10):
    [index()] renders [index.html] and passes no user name. *)
Definition root_index : reply := RTemplate (u8 "index.html") None.

(** [app.config['SECRET_KEY']] of the demo app (line 5). *)
Definition root_secret_key : pystr := Eval cbv in u8 "test-secret-key".

(** ** Runs *)

Lemma report_run sr w :
  report sr w = (Normal tt, log_stdout (if sr.1 then msg_demo_ok sr.2 else msg_demo_fail sr.2) w).
Proof. unfold report. by destruct sr.1. Qed.

Lemma print_voices_run l w :
  fst (print_voices l w) = Normal tt /\
  w_stdout (snd (print_voices l w)) = w_stdout w ++ map voice_line l.
Proof.
  revert w. induction l as [|kv l IH]; intros w; cbn [print_voices map].
  - by rewrite app_nil_r.
  - unfold py_bind, print. destruct (IH (log_stdout (voice_line kv) w)) as [H1 H2].
    destruct (print_voices l _) as [r w'] eqn:E. cbn [fst snd] in *. split; [done|].
    by rewrite H2, w_stdout_log_stdout, <- app_assoc.
Qed.

(** The two result lines differ: their fifth characters are 成 and 失. *)
Lemma demo_fail_not_ok r r' : msg_demo_fail r <> msg_demo_ok r'.
Proof. intros E. apply (f_equal (fun l => nth 4 l 0)) in E. vm_compute in E. discriminate E. Qed.

Section Runs.
Context `{G : GbkCodec}.

(** A call on a text the codec encodes, of at most 512 code points,
    returns and prints nothing. *)
Lemma tts_returns c text f lang o cuid w :
  is_Some (gbk_len text) -> (length text <= 512)%nat ->
  exists sr w1, text_to_speech c text f lang o cuid w = (Normal sr, w1) /\ w_stdout w1 = w_stdout w.
Proof.
  intros [n Hn] Hl. assert (Hle : (n <= 1024)%nat) by (apply gbk_len_width in Hn; lia).
  pose proof (text_to_speech_frame c text f lang o cuid w) as (_ & Hs & _).
  rewrite (tts_call c text f lang cuid o n w Hn Hle) in Hs |- *.
  destruct (synth_next w 0); [destruct (w_io w _)|..]; eauto.
Qed.
(** A call on a text within the limit, then [report]: the report prints
    one line, the success line for [f] exactly when the provider answers
    audio and the write goes through. *)
Lemma call_report_line c text f lang o cuid n w :
  gbk_len text = Some n -> (n <= 1024)%nat ->
  exists sr w0 line, text_to_speech c text f lang o cuid w = (Normal sr, w0) /\
    report sr w0 = (Normal tt, log_stdout line w0) /\ w_stdout w0 = w_stdout w /\
    (line = msg_demo_ok f <-> (exists b, synth_next w 0 = AnsAudio b) /\ w_io w (w_io_count w) = IoOk).
Proof.
  intros Hn Hle. pose proof (text_to_speech_frame c text f lang o cuid w) as (_ & Hs & _).
  rewrite (tts_call c text f lang cuid o n w Hn Hle) in Hs |- *.
  destruct (synth_next w 0) as [b|d|m]; [destruct (w_io w (w_io_count w)) as [|m|k m]|..];
    do 3 eexists; (split; [reflexivity|]); (split; [apply report_run|]); (split; [exact Hs|]); cbn [fst snd].
  - split; [eauto | done].
  - split; [by intros ?%demo_fail_not_ok | by intros [_ ?]].
  - split; [by intros ?%demo_fail_not_ok | by intros [_ ?]].
  - split; [by intros ?%demo_fail_not_ok | by intros [[? ?] _]].
  - split; [by intros ?%demo_fail_not_ok | by intros [[? ?] _]].
Qed.
End Runs.

Section Claims.
Context `{G : GbkCodec}.

(** C30: [main.py] returns normally and prints exactly one line, which is
    the success line naming [test.mp3] exactly when the provider answers
    audio and the file is written. *)
Theorem demo_main_output w :
  is_Some (gbk_len main_text) ->
  exists line, fst (demo_main w) = Normal tt /\ w_stdout (snd (demo_main w)) = w_stdout w ++ [line] /\
    (line = msg_demo_ok main_out <->
     (exists b, synth_next w 0 = AnsAudio b) /\ w_io w (w_io_count w) = IoOk).
Proof.
  intros [n Hn]. assert (Hle : (n <= 1024)%nat) by (apply gbk_len_width in Hn; vm_compute in Hn; lia).
  destruct (call_report_line (BaiduTTS_init [] [] []) main_text main_out (u8 "zh") None
              (u8 "python_tts_client") n w Hn Hle) as (sr & w0 & line & Hc & Hr & Hs & Hl).
  unfold demo_main, py_bind. rewrite Hc, Hr. cbn [fst snd].
  exists line. rewrite w_stdout_log_stdout, Hs. done.
Qed.

(** C31: the [__main__] block of the client returns normally and prints
    the outcome of the first call (the success line for
    [basic_output.mp3] exactly when the provider answers audio and the
    write goes through), nothing for the second call, then the header and
    one line per voice of [get_supported_voices], in the order of its dict
    literal. *)
Theorem tts_demo_output w :
  is_Some (gbk_len basic_text) -> is_Some (gbk_len custom_text) ->
  exists l1, fst (tts_demo w) = Normal tt /\
    w_stdout (snd (tts_demo w)) = w_stdout w ++ [l1; voices_header] ++ map voice_line supported_voices /\
    (l1 = msg_demo_ok (u8 "basic_output.mp3") <->
     (exists b, synth_next w 0 = AnsAudio b) /\ w_io w (w_io_count w) = IoOk).
Proof.
  intros [n Hb] Hc. assert (Hle : (n <= 1024)%nat) by (apply gbk_len_width in Hb; vm_compute in Hb; lia).
  destruct (call_report_line (BaiduTTS_init [] [] []) basic_text (u8 "basic_output.mp3") (u8 "zh") None
              (u8 "python_tts_client") n w Hb Hle) as (sr & w1 & l1 & Hcall & Hr & Hs1 & Hl).
  unfold tts_demo, py_bind. rewrite Hcall, Hr.
  destruct (tts_returns (BaiduTTS_init [] [] []) custom_text (u8 "custom_output.mp3") (u8 "zh")
              (Some custom_options) (u8 "python_tts_client") (log_stdout l1 w1) Hc)
    as (sr2 & w2 & -> & Hs2); [by vm_compute; lia|].
  unfold print. destruct (print_voices_run supported_voices (log_stdout voices_header w2)) as [H1 H2].
  destruct (print_voices _ _) as [r w3]. cbn [fst snd] in *. exists l1. split_and!; [done| |done].
  rewrite H2, w_stdout_log_stdout, Hs2, w_stdout_log_stdout, Hs1. by rewrite <- !app_assoc.
Qed.
End Claims.

(** The codec of the runs encodes both texts of the demo and the text of
    [main.py]. *)
Lemma demo_main_output_witness :
  exists line, fst (demo_main (world_busy 0)) = Normal tt /\
    w_stdout (snd (demo_main (world_busy 0))) = w_stdout (world_busy 0) ++ [line] /\
    (line = msg_demo_ok main_out <->
     (exists b, synth_next (world_busy 0) 0 = AnsAudio b) /\
     w_io (world_busy 0) (w_io_count (world_busy 0)) = IoOk).
Proof. apply (demo_main_output (G := gbk_fragment)). vm_compute. eauto. Defined.

Lemma tts_demo_output_witness :
  exists l1, fst (tts_demo (world_busy 0)) = Normal tt /\
    w_stdout (snd (tts_demo (world_busy 0))) =
    w_stdout (world_busy 0) ++ [l1; voices_header] ++ map voice_line supported_voices /\
    (l1 = msg_demo_ok (u8 "basic_output.mp3") <->
     (exists b, synth_next (world_busy 0) 0 = AnsAudio b) /\
     w_io (world_busy 0) (w_io_count (world_busy 0)) = IoOk).
Proof. apply (tts_demo_output (G := gbk_fragment)); vm_compute; eauto. Defined.
