(* ===== verification/Bootstrap.v ===== *)
(** * Bootstrap: the configuration and the start of [app.py]

    Lines 9-32 of [app.py]: the Flask configuration, and the client the
    module builds from the environment before it serves any request.  The
    routes of [App.v] and [Accounts.v] take that client as their argument
    [tts_client]; [boot_client_serve] runs a request on the application
    the environment starts. *)

From S2P Require Import Prelude Text History World Client App Accounts.

(** [app.config[...]] (lines 10-14). *)
Record app_config := MkAppConfig {
  cfg_secret_key : pystr;
  cfg_database_uri : pystr;
  cfg_track_modifications : bool;
  cfg_upload_folder : pystr;
  cfg_max_content_length : Z
}.

Definition config : app_config :=
  MkAppConfig (u8 "xianwai-secret-key-2024") (u8 "sqlite:///xianwai.db") false (u8 "uploads")
    (16 * 1024 * 1024).

(** The process environment, read by [os.getenv(name, d)]. *)
Abbreviation environ := (gmap pystr pystr).

Definition getenv (env : environ) (name d : pystr) : pystr := default d (env !! name).

Definition var_app_id : pystr := Eval cbv in u8 "BAIDU_APP_ID".
Definition var_api_key : pystr := Eval cbv in u8 "BAIDU_API_KEY".
Definition var_secret_key : pystr := Eval cbv in u8 "BAIDU_SECRET_KEY".

(** [f"警告: 百度TTS初始化失败: {e}"] *)
Definition msg_init_failed (e : exc) : pystr := u8 "警告: 百度TTS初始化失败: " ++ exc_msg e.

(** Lines 22-32: [tts_client] stays [None] unless the three variables are
    set and not empty; the constructor's exception is printed and
    swallowed. *)
Definition init_tts_client (env : environ) : pyW (option BaiduTTS) :=
  let BAIDU_APP_ID := getenv env var_app_id [] in
  let BAIDU_API_KEY := getenv env var_api_key [] in
  let BAIDU_SECRET_KEY := getenv env var_secret_key [] in
  if py_truthy (JStr BAIDU_APP_ID) && py_truthy (JStr BAIDU_API_KEY) && py_truthy (JStr BAIDU_SECRET_KEY)
  then py_try (py_ret (Some (BaiduTTS_init BAIDU_APP_ID BAIDU_API_KEY BAIDU_SECRET_KEY)))
              (fun e => print (msg_init_failed e);; py_ret None)
  else py_ret None.

(** The three variables are set and not empty. *)
Definition env_configured (env : environ) : bool :=
  py_truthy (JStr (getenv env var_app_id [])) && py_truthy (JStr (getenv env var_api_key [])) &&
  py_truthy (JStr (getenv env var_secret_key [])).

Section Boot.
Context `{G : GbkCodec} `{H : PasswordHasher}.

(** A request of the browser holding [s] to the application started in
    the environment [env] from the world [w0]. *)
Definition boot_client_serve (env : environ) (w0 : world) (s : session) (rq : client_request)
    (w : world) : reply * (session * world) :=
  match init_tts_client env w0 with
  | (Normal tts_client, _) => client_serve tts_client s rq w
  | (Raised e, w') => (RServerError e, (s, w'))
  end.
End Boot.

(** ** Lemmas *)

(** [os.path.join(app.config['UPLOAD_FOLDER'], filename)] is the path of
    [App.v]. *)
Lemma upload_path_config f : upload_path f = cfg_upload_folder config ++ u8 "/" ++ f.
Proof. reflexivity. Qed.

(** The constructor of [BaiduTTS] stores its arguments and raises
    nothing: the [except] branch is dead and nothing is printed. *)
Lemma init_tts_client_run env w :
  init_tts_client env w =
  (Normal (if env_configured env
           then Some (BaiduTTS_init (getenv env var_app_id []) (getenv env var_api_key [])
                                    (getenv env var_secret_key []))
           else None), w).
Proof. unfold init_tts_client, env_configured. by destruct (_ && _ && _). Qed.

Lemma env_configured_false env :
  env_configured env = false <->
  getenv env var_app_id [] = [] \/ getenv env var_api_key [] = [] \/ getenv env var_secret_key [] = [].
Proof.
  unfold env_configured. cbn [py_truthy].
  rewrite !andb_false_iff, !negb_false_iff, !bool_decide_eq_true. tauto.
Qed.

Section BootClaims.
Context `{G : GbkCodec} `{H : PasswordHasher}.

(** C36: when one of [BAIDU_APP_ID], [BAIDU_API_KEY], [BAIDU_SECRET_KEY]
    is unset or empty, the application starts without a client, and every
    request to [/api/generate-audio] of a logged-in user is answered 500
    with the configuration message, leaving the world and the session as
    they were. *)
Theorem unconfigured_generate env w0 uid name data uuid_hex now w :
  getenv env var_app_id [] = [] \/ getenv env var_api_key [] = [] \/ getenv env var_secret_key [] = [] ->
  boot_client_serve env w0 (Some (uid, name)) (CAudio (ReqGenerate data uuid_hex now)) w =
  (RJson 500 (jfail msg_tts_unconfigured), (Some (uid, name), w)).
Proof.
  intros Hv. unfold boot_client_serve. rewrite init_tts_client_run.
  by rewrite (proj2 (env_configured_false env) Hv).
Qed.
End BootClaims.

Lemma unconfigured_generate_witness :
  boot_client_serve (G := gbk_fragment) (H := salted_hasher) ∅ (world_busy 0) (Some (1, u8 "alice"))
    (CAudio (ReqGenerate ∅ uuid_sample now_sample)) (world_busy 0) =
  (RJson 500 (jfail msg_tts_unconfigured), (Some (1, u8 "alice"), world_busy 0)).
Proof.
  apply (unconfigured_generate ∅ (world_busy 0) 1 (u8 "alice") ∅ uuid_sample now_sample (world_busy 0)).
  left. reflexivity.
Defined.
